(** * Agent orchestration and tool-call scheduling of the Gemini CLI fork

    A shallow embedding of
    - [Turn] and [GeminiClient.sendMessageStream] (the per-turn event stream
      and the bounded driver loop),
    - [CoreToolScheduler] (intake, fan-out execution, completion),
    - [MainAgent], [ToolsAgent], [AgentCommunicationBus] and
      [AgentOrchestrator] (the two-agent message protocol),
    - [TwoAgentSystem], the two-agent configuration, the CLI integrations
      and [runNonInteractive] (the callers of the above),
    together with the properties the specification states about them and
    further properties of the code.

    Conventions.  A JavaScript string is a [string]: a sequence of code units,
    restricted here to the 8-bit range.  A promise that settles is the value
    it settles to: [Return v] for a fulfilled promise, [Throw e] for a
    rejected one (or a synchronous throw).  Values read from the environment
    ([Date.now()], [Math.random()], the reasoning backend, the tools) are
    arguments of the functions that read them. *)

From Stdlib Require Import String Ascii List Bool Arith ZArith NArith Lia.
From Stdlib Require Import Decimal DecimalString DecimalN.
From Stdlib Require Hexadecimal HexadecimalString.
Import ListNotations.

Open Scope string_scope.

(** ** JavaScript strings *)

Module JS.

(** The white space and line terminators [String.prototype.trim] removes,
    as far as they fall in the 8-bit range: TAB, LF, VT, FF, CR, SPACE, NBSP. *)
Definition isWhiteSpace (c : ascii) : bool :=
  let n := nat_of_ascii c in
  (((9 <=? n) && (n <=? 13)) || (n =? 32) || (n =? 160))%nat.

Fixpoint trimStart (s : string) : string :=
  match s with
  | EmptyString => EmptyString
  | String c s' => if isWhiteSpace c then trimStart s' else s
  end.

Fixpoint trimEnd (s : string) : string :=
  match s with
  | EmptyString => EmptyString
  | String c s' =>
      match trimEnd s' with
      | EmptyString => if isWhiteSpace c then EmptyString else String c EmptyString
      | r => String c r
      end
  end.

(** [s.trim()] *)
Definition trim (s : string) : string := trimEnd (trimStart s).

(** A string is truthy when it is not empty. *)
Definition truthy (s : string) : bool :=
  match s with EmptyString => false | _ => true end.

Definition LF : ascii := ascii_of_nat 10.

(** [s.split('\n')] *)
Fixpoint split_lines (s : string) : list string :=
  match s with
  | EmptyString => [EmptyString]
  | String c s' =>
      if Ascii.eqb c LF then EmptyString :: split_lines s'
      else match split_lines s' with
           | h :: t => String c h :: t
           | [] => [String c EmptyString]
           end
  end.

(** [parts.join('')] *)
Definition join_empty (l : list string) : string :=
  fold_right String.append EmptyString l.

(** [l.join(sep)] *)
Fixpoint join (sep : string) (l : list string) : string :=
  match l with
  | [] => EmptyString
  | [x] => x
  | x :: t => x ++ sep ++ join sep t
  end.

Fixpoint startsWith (s p : string) {struct p} : bool :=
  match p, s with
  | EmptyString, _ => true
  | String _ _, EmptyString => false
  | String a p', String b s' => Ascii.eqb a b && startsWith s' p'
  end.

(** [s.includes(p)] *)
Fixpoint includes (s p : string) : bool :=
  startsWith s p ||
  match s with
  | EmptyString => false
  | String _ s' => includes s' p
  end.

(** [toLowerCase] on the 8-bit range: A-Z and the Latin-1 capitals. *)
Definition lowerChar (c : ascii) : ascii :=
  let n := nat_of_ascii c in
  if (((65 <=? n) && (n <=? 90)) ||
      ((192 <=? n) && (n <=? 222) && negb (n =? 215)))%nat
  then ascii_of_nat (n + 32) else c.

Fixpoint toLowerCase (s : string) : string :=
  match s with
  | EmptyString => EmptyString
  | String c s' => String (lowerChar c) (toLowerCase s')
  end.

(** Every character of the string is white space. *)
Fixpoint blank (s : string) : bool :=
  match s with
  | EmptyString => true
  | String c s' => isWhiteSpace c && blank s'
  end.

(** The string holds no hyphen. *)
Fixpoint dashFree (s : string) : bool :=
  match s with
  | EmptyString => true
  | String c s' => negb (Ascii.eqb c "-") && dashFree s'
  end.

(** [String(n)] for a non-negative integer. *)
Definition decimal (n : N) : string :=
  DecimalString.NilEmpty.string_of_uint (N.to_uint n).

End JS.

(** ** Thrown values and settled promises *)

(** What a [catch] clause receives: an [Error] object with its message, or
    any other thrown value ([error instanceof Error] is false for it). *)
Inductive Thrown : Type :=
| ErrorObj (message : string)
| NonError.

(** [error instanceof Error ? error.message : 'Unknown error'] *)
Definition messageOf (e : Thrown) : string :=
  match e with
  | ErrorObj m => m
  | NonError => "Unknown error"
  end.

(** A finished computation: it returned a value or it threw. *)
Inductive Completion (A : Type) : Type :=
| Return (a : A)
| Throw (e : Thrown).
Arguments Return {A} a.
Arguments Throw {A} e.

(** ** The backend's response objects ([@google/genai]) *)

Module Genai.

(** Tool arguments: an opaque key-value object. *)
Definition Args : Type := list (string * string).

Record Part : Type := {
  thought : bool;
  text : option string
}.

Record Content : Type := {
  role : string;
  parts : option (list Part)
}.

Record Candidate : Type := {
  content : option Content
}.

Record FunctionCall : Type := {
  id : option string;
  name : option string;
  args : option Args
}.

Record GenerateContentResponse : Type := {
  candidates : option (list Candidate);
  functionCalls : option (list FunctionCall)
}.

(** [{ role, parts: [{ text }] }] *)
Definition textContent (r t : string) : Content :=
  {| role := r; parts := Some [ {| thought := false; text := Some t |} ] |}.

(** [resp.candidates?.[0]?.content?.parts], [undefined] as [None]. *)
Definition firstCandidateParts (resp : GenerateContentResponse) : option (list Part) :=
  match candidates resp with
  | Some (c :: _) =>
      match content c with
      | Some ct => parts ct
      | None => None
      end
  | _ => None
  end.

End Genai.

(** ** The thought pattern [/\*\*(.*?)\*\*/s] *)

Module ThoughtRegex.

(** The two constructs the pattern uses: a literal character, and the
    capturing group [(.*?)] under the [s] flag (lazy, any character).
    A pattern holds at most one group. *)
Inductive item : Type :=
| Lit (c : ascii)
| LazyAnyGroup.

Definition pattern : Type := list item.

(** [\*\*(.*?)\*\*] *)
Definition bold : pattern :=
  [Lit "*"; Lit "*"; LazyAnyGroup; Lit "*"; Lit "*"]%char.

(** Backtracking match of [p] at the start of [s]: the text of the group
    and the unread rest.  The lazy group first tries to stop, and takes one
    more character only when the rest of the pattern fails. *)
Fixpoint match_here (p : pattern) : string -> option (string * string) :=
  match p with
  | [] => fun s => Some (EmptyString, s)
  | Lit c :: p' =>
      fun s =>
        match s with
        | String d s' => if Ascii.eqb c d then match_here p' s' else None
        | EmptyString => None
        end
  | LazyAnyGroup :: p' =>
      fix lazy (s : string) : option (string * string) :=
        match match_here p' s with
        | Some (_, rest) => Some (EmptyString, rest)
        | None =>
            match s with
            | EmptyString => None
            | String d s' =>
                match lazy s' with
                | Some (g, rest) => Some (String d g, rest)
                | None => None
                end
            end
        end
  end.

(** A successful match: the text before it, group 1, the text after it. *)
Record MatchResult : Type := {
  before : string;
  group1 : string;
  after : string
}.

(** The leftmost match, as [RegExp.prototype.exec] finds it. *)
Fixpoint exec (p : pattern) (s : string) : option MatchResult :=
  match match_here p s with
  | Some (g, rest) => Some {| before := EmptyString; group1 := g; after := rest |}
  | None =>
      match s with
      | EmptyString => None
      | String c s' =>
          match exec p s' with
          | Some m => Some {| before := String c (before m);
                              group1 := group1 m; after := after m |}
          | None => None
          end
      end
  end.

(** [s.replace(p, '')] for a pattern without the [g] flag. *)
Definition replace_empty (p : pattern) (s : string) : string :=
  match exec p s with
  | Some m => before m ++ after m
  | None => s
  end.

(** [s] begins with the two stars; the text after them. *)
Definition stripStars (s : string) : option string :=
  match s with
  | String "*" (String "*" r) => Some r
  | _ => None
  end.

(** The lazy group followed by the closing stars. *)
Definition closing : string -> option (string * string) :=
  match_here [LazyAnyGroup; Lit "*"; Lit "*"]%char.
Arguments closing s : simpl never.

(** No [**] begins inside [g] when a star follows [g]: in [g ++ "**" ++ r]
    the stars shown are the first two adjacent stars. *)
Definition starFree (g : string) : Prop := JS.includes (g ++ "*") "**" = false.

End ThoughtRegex.

(** ** Turn ([packages/core/src/core/turn.ts]) *)

Module Turn.
Import Genai.

Record ToolCallRequestInfo : Type := {
  callId : string;
  name : string;
  args : Args;
  isClientInitiated : bool
}.

Record ThoughtSummary : Type := {
  subject : string;
  description : string
}.

(** [ServerGeminiStreamEvent], by [GeminiEventType]. *)
Inductive ServerGeminiStreamEvent : Type :=
| Content (value : string)
| Thought (value : ThoughtSummary)
| ToolCallRequest (value : ToolCallRequestInfo)
| UserCancelled
| ChatCompressed (value : N).

(** The requests of the [ToolCallRequest] events of a sequence, in order. *)
Fixpoint toolCallRequests (evs : list ServerGeminiStreamEvent)
  : list ToolCallRequestInfo :=
  match evs with
  | [] => []
  | ToolCallRequest r :: rest => r :: toolCallRequests rest
  | _ :: rest => toolCallRequests rest
  end.

Record Turn : Type := {
  pendingToolCalls : list ToolCallRequestInfo;
  debugResponses : list GenerateContentResponse
}.

(** [new Turn(chat)] *)
Definition new : Turn :=
  {| pendingToolCalls := []; debugResponses := [] |}.

(** What one call of [handlePendingFunctionCall] reads from the
    environment: [Date.now()], in milliseconds since the epoch, and the
    digits of [Math.random().toString(16)] after the leading [0.]. *)
Record Ambient : Type := {
  now : N;
  random : Hexadecimal.uint
}.

(** [Math.random().toString(16).slice(2)] *)
Definition randomSuffix (a : Ambient) : string :=
  HexadecimalString.NilEmpty.string_of_uint (random a).

(** [`${fnCall.name}`]: an absent name prints as [undefined]. *)
Definition templateName (n : option string) : string :=
  match n with
  | Some s => s
  | None => "undefined"
  end.

(** [`${fnCall.name}-${Date.now()}-${Math.random().toString(16).slice(2)}`] *)
Definition generatedCallId (n : option string) (a : Ambient) : string :=
  templateName n ++ "-" ++ JS.decimal (now a) ++ "-" ++ randomSuffix a.

(** [fnCall.name || 'undefined_tool_name'] *)
Definition nameOrDefault (n : option string) : string :=
  match n with
  | Some s => if JS.truthy s then s else "undefined_tool_name"
  | None => "undefined_tool_name"
  end.

Definition requestOf (a : Ambient) (fnCall : FunctionCall) : ToolCallRequestInfo :=
  {| callId := match Genai.id fnCall with
               | Some i => i
               | None => generatedCallId (Genai.name fnCall) a
               end;
     name := nameOrDefault (Genai.name fnCall);
     args := match Genai.args fnCall with Some x => x | None => [] end;
     isClientInitiated := false |}.

(** [handlePendingFunctionCall]: the request is appended to
    [pendingToolCalls] and returned in a [ToolCallRequest] event. *)
Definition handlePendingFunctionCall (a : Ambient) (fnCall : FunctionCall)
    (t : Turn) : ServerGeminiStreamEvent * Turn :=
  let toolCallRequest := requestOf a fnCall in
  (ToolCallRequest toolCallRequest,
   {| pendingToolCalls := (pendingToolCalls t ++ [toolCallRequest])%list;
      debugResponses := debugResponses t |}).

(** The [Thought] event of a thought part. *)
Definition parseThought (rawText : string) : ThoughtSummary :=
  let subjectStringMatches := ThoughtRegex.exec ThoughtRegex.bold rawText in
  {| subject := match subjectStringMatches with
                | Some m => JS.trim (ThoughtRegex.group1 m)
                | None => EmptyString
                end;
     description := JS.trim (ThoughtRegex.replace_empty ThoughtRegex.bold rawText) |}.

(** [resp.candidates?.[0]?.content?.parts?.[0]] when its [thought] is truthy. *)
Definition thoughtPart (resp : GenerateContentResponse) : option Part :=
  match firstCandidateParts resp with
  | Some (p :: _) => if thought p then Some p else None
  | _ => None
  end.

Section Run.

(** [getResponseText] of [utils/generateContentResponseUtilities], which the
    turn imports. *)
Variable getResponseText : GenerateContentResponse -> option string.

(** The environment of the k-th generated call id of the turn. *)
Variable ambient : nat -> Ambient.

(** The function calls of one chunk, in order. *)
Fixpoint handleFunctionCalls (fns : list FunctionCall) (t : Turn)
  : list ServerGeminiStreamEvent * Turn :=
  match fns with
  | [] => ([], t)
  | fnCall :: rest =>
      let '(ev, t1) :=
        handlePendingFunctionCall (ambient (length (pendingToolCalls t))) fnCall t in
      let '(evs, t2) := handleFunctionCalls rest t1 in
      (ev :: evs, t2)
  end.

(** One iteration of the [for await] body, for a chunk that arrives while
    the signal is not aborted. *)
Definition processChunk (resp : GenerateContentResponse) (t : Turn)
  : list ServerGeminiStreamEvent * Turn :=
  let t1 := {| pendingToolCalls := pendingToolCalls t;
               debugResponses := (debugResponses t ++ [resp])%list |} in
  match thoughtPart resp with
  | Some p =>
      let rawText := match text p with Some x => x | None => EmptyString end in
      ([Thought (parseThought rawText)], t1)
  | None =>
      let contentEvents :=
        match getResponseText resp with
        | Some x => if JS.truthy x then [Content x] else []
        | None => []
        end in
      let '(evs, t2) :=
        handleFunctionCalls
          (match functionCalls resp with Some l => l | None => [] end) t1 in
      ((contentEvents ++ evs)%list, t2)
  end.

(** [Turn.run] over the chunks of the response stream; each chunk comes
    with the value of [signal.aborted] at its arrival.  The stream is one
    that does not throw: the source leaves the [catch] block out. *)
Fixpoint run (stream : list (bool * GenerateContentResponse)) (t : Turn)
  : list ServerGeminiStreamEvent * Turn :=
  match stream with
  | [] => ([], t)
  | (aborted, resp) :: rest =>
      if aborted then ([UserCancelled], t)
      else
        let '(evs, t1) := processChunk resp t in
        let '(evs', t2) := run rest t1 in
        ((evs ++ evs')%list, t2)
  end.

End Run.

End Turn.

(** ** GeminiClient.sendMessageStream ([packages/core/src/core/client.ts]) *)

Module Client.
Import Genai.

Definition MAX_TURNS : Z := 100.

Inductive Speaker : Type := user | model.

(** What the environment does during one call that runs a turn. *)
Record TurnScript : Type := {
  (** [tryCompressChat()] *)
  compressed : option N;
  (** the chunks of [chat.sendMessageStream], each with [signal.aborted] *)
  stream : list (bool * GenerateContentResponse);
  (** the clock and random source of the turn's generated call ids *)
  ambient : nat -> Turn.Ambient;
  (** [signal.aborted] once the turn's events are drained *)
  abortedAfter : bool;
  (** [checkNextSpeaker(...)]: [null] or [{ next_speaker }] *)
  nextSpeakerCheck : option Speaker
}.

(** The calls the driver makes to its collaborators. *)
Inductive Interaction : Type :=
| TryCompressChat
| SendMessageStream (request : list Part)
| CheckNextSpeaker.

(** The run of [sendMessageStream] as far as the fuel reaches: the events
    yielded, the interactions, the [turns] argument of every call entered
    (outermost first), and the returned turn once the outermost call has
    returned. *)
Record Run : Type := {
  events : list Turn.ServerGeminiStreamEvent;
  interactions : list Interaction;
  budgets : list Z;
  returned : option Turn.Turn
}.

(** The recursive calls of a run: every call entered after the first. *)
Definition continuations (r : Run) : nat := pred (length (budgets r)).

(** The turns a run sent to the backend. *)
Definition backendTurns (r : Run) : nat :=
  length (filter (fun i => match i with SendMessageStream _ => true | _ => false end)
                 (interactions r)).

(** [[{ text: 'Please continue.' }]] *)
Definition pleaseContinue : list Part :=
  [ {| thought := false; text := Some "Please continue." |} ].

Section Driver.

Variable getResponseText : GenerateContentResponse -> option string.

(** The environment of the call at each recursion depth. *)
Variable env : nat -> TurnScript.

(** [turns] is an integer; [Math.min] is [Z.min] and [!boundedTurns] holds
    for zero only. *)
Fixpoint sendMessageStream (fuel : nat) (depth : nat) (request : list Part)
    (turns : Z) : Run :=
  match fuel with
  | O => {| events := []; interactions := []; budgets := []; returned := None |}
  | S fuel' =>
      let boundedTurns := Z.min turns MAX_TURNS in
      if (boundedTurns =? 0)%Z then
        {| events := []; interactions := []; budgets := [turns];
           returned := Some Turn.new |}
      else
        let script := env depth in
        let compressedEvents :=
          match compressed script with
          | Some c => [Turn.ChatCompressed c]
          | None => []
          end in
        let '(turnEvents, turn) :=
          Turn.run getResponseText (ambient script) (stream script) Turn.new in
        if (length (Turn.pendingToolCalls turn) =? 0)%nat
           && negb (abortedAfter script) then
          match nextSpeakerCheck script with
          | Some model =>
              let r := sendMessageStream fuel' (S depth) pleaseContinue
                         (boundedTurns - 1) in
              {| events := (compressedEvents ++ turnEvents ++ events r)%list;
                 interactions :=
                   (TryCompressChat :: SendMessageStream request
                      :: CheckNextSpeaker :: interactions r)%list;
                 budgets := turns :: budgets r;
                 returned := match returned r with
                             | Some _ => Some turn
                             | None => None
                             end |}
          | _ =>
              {| events := (compressedEvents ++ turnEvents)%list;
                 interactions :=
                   [TryCompressChat; SendMessageStream request; CheckNextSpeaker];
                 budgets := [turns];
                 returned := Some turn |}
          end
        else
          {| events := (compressedEvents ++ turnEvents)%list;
             interactions := [TryCompressChat; SendMessageStream request];
             budgets := [turns];
             returned := Some turn |}
  end.

End Driver.

(** Every call after the first receives the bounded budget of its caller
    less one. *)
Fixpoint oneUnitEach (l : list Z) : Prop :=
  match l with
  | a :: ((b :: _) as tl) => b = (Z.min a MAX_TURNS - 1)%Z /\ oneUnitEach tl
  | _ => True
  end.

End Client.

(** ** CoreToolScheduler ([packages/core/src/core/coreToolScheduler.ts]) *)

Module Scheduler.
Import Genai.
Import Turn.

Inductive ApprovalMode : Type := DEFAULT | AUTO_EDIT | YOLO.

Inductive Status : Type :=
| validating | scheduled | awaiting_approval | executing
| success | error | cancelled.

Definition Status_eqb (a b : Status) : bool :=
  match a, b with
  | validating, validating | scheduled, scheduled
  | awaiting_approval, awaiting_approval | executing, executing
  | success, success | error, error | cancelled, cancelled => true
  | _, _ => false
  end.

(** The terminal states: [success], [error], [cancelled]. *)
Definition terminal (s : Status) : bool :=
  match s with
  | success | error | cancelled => true
  | _ => false
  end.

Definition ToolCallConfirmationDetails : Type := string.

Record ToolResult : Type := {
  llmContent : string;
  returnDisplay : string
}.

(** A registered tool.  [shouldConfirmExecute(args, signal)] is given the
    value of [signal.aborted]; [false] and [undefined] results are [None].
    The promise of [execute] settles later, see [settle]. *)
Record Tool : Type := {
  toolName : string;
  shouldConfirmExecute :
    Args -> bool -> Completion (option ToolCallConfirmationDetails)
}.

Section Responses.

(** The function-response parts built from a tool's output. *)
Variable PartListUnion : Type.

Record ToolCallResponseInfo : Type := {
  rCallId : string;
  responseParts : PartListUnion;
  resultDisplay : option string;
  rError : option Thrown
}.

(** Data passed to [setStatusInternal] with the new status. *)
Inductive Auxiliary : Type :=
| NoData
| ResponseData (r : ToolCallResponseInfo)
| ConfirmationData (d : ToolCallConfirmationDetails)
| ReasonData (reason : string).

Record ToolCall : Type := {
  status : Status;
  request : ToolCallRequestInfo;
  tool : option Tool;
  response : option ToolCallResponseInfo;
  confirmationDetails : option ToolCallConfirmationDetails;
  cancelReason : option string;
  startTime : option N;
  durationMs : option N
}.

(** A call of [tool.execute(args, signal)] whose promise may still be
    pending; the request is the one its callbacks close over. *)
Record Execution : Type := {
  exTool : Tool;
  exRequest : ToolCallRequestInfo;
  settled : bool
}.

Record CoreToolScheduler : Type := {
  toolCalls : list ToolCall;
  approvalMode : ApprovalMode;
  toolRegistry : string -> option Tool;
  (** every [execute] invoked so far, oldest first *)
  executions : list Execution
}.

Definition withToolCalls (s : CoreToolScheduler) (l : list ToolCall)
  : CoreToolScheduler :=
  {| toolCalls := l; approvalMode := approvalMode s;
     toolRegistry := toolRegistry s; executions := executions s |}.

Definition withExecutions (s : CoreToolScheduler) (l : list Execution)
  : CoreToolScheduler :=
  {| toolCalls := toolCalls s; approvalMode := approvalMode s;
     toolRegistry := toolRegistry s; executions := l |}.

(** Modelled from the spec: [isRunning] is not part of the source; the
    scheduler is running while it holds a record that is not in a terminal
    state ("scheduler has no active (non-terminal) batch"). *)
Definition isRunning (s : CoreToolScheduler) : bool :=
  existsb (fun c => negb (terminal (status c))) (toolCalls s).

(** The record with its new status and the auxiliary data stored. *)
Definition transition (newStatus : Status) (aux : Auxiliary) (c : ToolCall)
  : ToolCall :=
  {| status := newStatus;
     request := request c;
     tool := tool c;
     response := match aux with ResponseData r => Some r | _ => response c end;
     confirmationDetails :=
       match aux with ConfirmationData d => Some d | _ => None end;
     cancelReason :=
       match aux with ReasonData r => Some r | _ => cancelReason c end;
     startTime := startTime c;
     durationMs := durationMs c |}.

(** What a change of status does to one record: nothing, unless the record
    has the given call id and is not in a terminal state. *)
Definition moved (targetCallId : string) (newStatus : Status) (aux : Auxiliary)
    (c : ToolCall) : ToolCall :=
  if String.eqb (callId (request c)) targetCallId && negb (terminal (status c))
  then transition newStatus aux c else c.

(** Modelled from the spec: [setStatusInternal] is not part of the source;
    it moves the records with the given call id to the new status, and
    leaves a record in a terminal state as it is ("once in a terminal state
    it never transitions again"). *)
Definition setStatusInternal (targetCallId : string) (newStatus : Status)
    (aux : Auxiliary) (s : CoreToolScheduler) : CoreToolScheduler :=
  withToolCalls s (map (moved targetCallId newStatus aux) (toolCalls s)).

(** [createErrorResponse] and [convertToFunctionResponse] of the scheduler
    module, which the excerpt calls. *)
Variable createErrorResponse : ToolCallRequestInfo -> Thrown -> ToolCallResponseInfo.
Variable convertToFunctionResponse : string -> string -> string -> PartListUnion.

Definition dquote : string := String (ascii_of_nat 34) EmptyString.

(** [new Error(`Tool "${reqInfo.name}" not found`)] *)
Definition toolNotFound (reqInfo : ToolCallRequestInfo) : Thrown :=
  ErrorObj ("Tool " ++ dquote ++ name reqInfo ++ dquote ++ " not found").

Definition alreadyRunning : Thrown :=
  ErrorObj "Cannot schedule new tool calls while other tool calls are actively running".

(** The record [schedule] creates for a request; [now] is [Date.now()]. *)
Definition newToolCall (registry : string -> option Tool) (now : N)
    (reqInfo : ToolCallRequestInfo) : ToolCall :=
  match registry (name reqInfo) with
  | None =>
      {| status := error; request := reqInfo; tool := None;
         response := Some (createErrorResponse reqInfo (toolNotFound reqInfo));
         confirmationDetails := None; cancelReason := None;
         startTime := None; durationMs := Some 0%N |}
  | Some toolInstance =>
      {| status := validating; request := reqInfo; tool := Some toolInstance;
         response := None; confirmationDetails := None; cancelReason := None;
         startTime := Some now; durationMs := None |}
  end.

(** The body of [for (const toolCall of newToolCalls)]. *)
Definition processNewToolCall (aborted : bool) (s : CoreToolScheduler)
    (toolCall : ToolCall) : CoreToolScheduler :=
  match status toolCall, tool toolCall with
  | validating, Some toolInstance =>
      let reqInfo := request toolCall in
      match approvalMode s with
      | YOLO => setStatusInternal (callId reqInfo) scheduled NoData s
      | _ =>
          match shouldConfirmExecute toolInstance (args reqInfo) aborted with
          | Return (Some details) =>
              setStatusInternal (callId reqInfo) awaiting_approval
                (ConfirmationData details) s
          | Return None => setStatusInternal (callId reqInfo) scheduled NoData s
          | Throw e =>
              setStatusInternal (callId reqInfo) error
                (ResponseData (createErrorResponse reqInfo e)) s
          end
      end
  | _, _ => s
  end.

(** [toolCall.tool.execute] of a record without a tool. *)
Definition noToolTypeError : Thrown :=
  ErrorObj "Cannot read properties of undefined (reading 'execute')".

(** The [forEach] of [attemptExecutionOfScheduledCalls] over the records
    that were [scheduled] when it started: each is moved to [executing] and
    its tool's [execute] is invoked, the promise left pending. *)
Fixpoint executeEach (callsToExecute : list ToolCall) (s : CoreToolScheduler)
  : Completion unit * CoreToolScheduler :=
  match callsToExecute with
  | [] => (Return tt, s)
  | toolCall :: rest =>
      let s1 := setStatusInternal (callId (request toolCall)) executing NoData s in
      match tool toolCall with
      | None => (Throw noToolTypeError, s1)
      | Some t =>
          executeEach rest
            (withExecutions s1
               (executions s1 ++
                [ {| exTool := t; exRequest := request toolCall;
                     settled := false |} ])%list)
      end
  end.

Definition attemptExecutionOfScheduledCalls (s : CoreToolScheduler)
  : Completion unit * CoreToolScheduler :=
  executeEach
    (filter (fun call => Status_eqb (status call) scheduled) (toolCalls s)) s.

(** [schedule(request, signal)]: [request] is one request or an array. *)
Inductive ScheduleRequest : Type :=
| One (r : ToolCallRequestInfo)
| Many (l : list ToolCallRequestInfo).

Definition requestsToProcess (r : ScheduleRequest) : list ToolCallRequestInfo :=
  match r with
  | One x => [x]
  | Many l => l
  end.

Definition schedule (now : N) (aborted : bool) (r : ScheduleRequest)
    (s : CoreToolScheduler) : Completion unit * CoreToolScheduler :=
  if isRunning s then (Throw alreadyRunning, s)
  else
    let newToolCalls :=
      map (newToolCall (toolRegistry s) now) (requestsToProcess r) in
    let s1 := withToolCalls s (toolCalls s ++ newToolCalls)%list in
    let s2 := fold_left (processNewToolCall aborted) newToolCalls s1 in
    attemptExecutionOfScheduledCalls s2.

(** How the promise of an [execute] call settles. *)
Inductive Settlement : Type :=
| Resolved (toolResult : ToolResult)
| Rejected (executionError : Thrown).

(** The [then] and [catch] callbacks of an execution. *)
Definition onSettled (aborted : bool) (ex : Execution) (o : Settlement)
    (s : CoreToolScheduler) : CoreToolScheduler :=
  let reqInfo := exRequest ex in
  match o with
  | Resolved toolResult =>
      if aborted then
        setStatusInternal (callId reqInfo) cancelled
          (ReasonData "User cancelled tool execution.") s
      else
        let successResponse :=
          {| rCallId := callId reqInfo;
             responseParts :=
               convertToFunctionResponse (name reqInfo) (callId reqInfo)
                 (llmContent toolResult);
             resultDisplay := Some (returnDisplay toolResult);
             rError := None |} in
        setStatusInternal (callId reqInfo) success (ResponseData successResponse) s
  | Rejected executionError =>
      setStatusInternal (callId reqInfo) error
        (ResponseData (createErrorResponse reqInfo executionError)) s
  end.

(** Mark the k-th execution as settled. *)
Fixpoint markSettled (k : nat) (l : list Execution) : list Execution :=
  match l, k with
  | [], _ => []
  | ex :: rest, O =>
      {| exTool := exTool ex; exRequest := exRequest ex; settled := true |} :: rest
  | ex :: rest, S k' => ex :: markSettled k' rest
  end.

(** The scheduler together with the abort signal handed to [schedule]. *)
Record World : Type := {
  sched : CoreToolScheduler;
  aborted : bool
}.

(** What happens after [schedule] returned: the signal is aborted, or the
    promise of the k-th execution settles. *)
Inductive Event : Type :=
| Abort
| Settle (k : nat) (o : Settlement).

Definition step (w : World) (e : Event) : World :=
  match e with
  | Abort => {| sched := sched w; aborted := true |}
  | Settle k o =>
      match nth_error (executions (sched w)) k with
      | Some ex =>
          if settled ex then w
          else
            let s1 := onSettled (aborted w) ex o (sched w) in
            {| sched := withExecutions s1 (markSettled k (executions s1));
               aborted := aborted w |}
      | None => w
      end
  end.

Definition steps (w : World) (evs : list Event) : World :=
  fold_left step evs w.

(** The status of the i-th record. *)
Definition statusAt (s : CoreToolScheduler) (i : nat) : option Status :=
  option_map status (nth_error (toolCalls s) i).

End Responses.

Arguments rCallId {PartListUnion}.
Arguments responseParts {PartListUnion}.
Arguments resultDisplay {PartListUnion}.
Arguments rError {PartListUnion}.
Arguments status {PartListUnion}.
Arguments request {PartListUnion}.
Arguments tool {PartListUnion}.
Arguments response {PartListUnion}.
Arguments confirmationDetails {PartListUnion}.
Arguments cancelReason {PartListUnion}.
Arguments startTime {PartListUnion}.
Arguments durationMs {PartListUnion}.
Arguments toolCalls {PartListUnion}.
Arguments approvalMode {PartListUnion}.
Arguments toolRegistry {PartListUnion}.
Arguments executions {PartListUnion}.
Arguments withToolCalls {PartListUnion}.
Arguments withExecutions {PartListUnion}.
Arguments isRunning {PartListUnion}.
Arguments transition {PartListUnion}.
Arguments moved {PartListUnion}.
Arguments setStatusInternal {PartListUnion}.
Arguments newToolCall {PartListUnion}.
Arguments processNewToolCall {PartListUnion}.
Arguments executeEach {PartListUnion}.
Arguments attemptExecutionOfScheduledCalls {PartListUnion}.
Arguments schedule {PartListUnion}.
Arguments onSettled {PartListUnion}.
Arguments sched {PartListUnion}.
Arguments aborted {PartListUnion}.
Arguments step {PartListUnion}.
Arguments steps {PartListUnion}.
Arguments statusAt {PartListUnion}.
Arguments NoData {PartListUnion}.
Arguments ResponseData {PartListUnion}.
Arguments ConfirmationData {PartListUnion}.
Arguments ReasonData {PartListUnion}.

End Scheduler.

(** ** The two-agent system ([packages/core/src/agents]) *)

Module Agents.
Import Genai.

(** *** Messages ([types.ts]) *)

Inductive AgentType : Type := MAIN | TOOLS.

Definition AgentType_eqb (a b : AgentType) : bool :=
  match a, b with
  | MAIN, MAIN | TOOLS, TOOLS => true
  | _, _ => false
  end.

Inductive AgentMessageType : Type :=
| TOOL_EXECUTION_REQUEST
| TOOL_EXECUTION_RESPONSE
| PLANNING_REQUEST
| PLANNING_RESPONSE
| STATUS_UPDATE
| ERROR.

Record AgentContext : Type := {
  sessionId : string;
  conversationHistory : list Content;
  currentTask : option string
}.

(** A conversation-history array of the main agent, by reference.  The
    arrays are numbered in the order in which the main agent was given
    them. *)
Definition HistoryRef : Type := nat.

(** [context] of a tool-execution request: an array of the sender's own
    (the tests send the literal [[]]), or the main agent's history array
    itself ([context: this.context?.conversationHistory]), which the main
    agent goes on pushing to. *)
Inductive RequestContext : Type :=
| OwnArray (contents : list Content)
| MainHistory (history : HistoryRef).

Section WithResponses.

Variable PartListUnion : Type.

Local Abbreviation ToolCallResponseInfo := (Scheduler.ToolCallResponseInfo PartListUnion).
Local Abbreviation CoreToolScheduler := (Scheduler.CoreToolScheduler PartListUnion).

(** [metadata] of the status update that reports processed tool results. *)
Record Metadata : Type := {
  mToolResults : list ToolCallResponseInfo;
  finalResponse : bool
}.

(** The fields each message variant adds to the base message. *)
Inductive Payload : Type :=
| ToolExecutionRequest (toolCalls : list Turn.ToolCallRequestInfo)
    (context : option RequestContext)
| ToolExecutionResponse (toolResults : list ToolCallResponseInfo)
    (success : bool) (error : option string)
| PlanningRequest (situation : string) (availableTools : list string)
    (context : option (list Content))
| PlanningResponse (plan : string) (nextSteps : list string)
    (toolsToUse : list string)
| StatusUpdate (status : string) (progress : option N)
| ErrorMessage (error : string) (stack : option string).

Record AgentA2AMessage : Type := {
  id : string;
  fromAgent : AgentType;
  toAgent : AgentType;
  timestamp : N;
  content : string;
  metadata : option Metadata;
  payload : Payload
}.

(** [message.type], the discriminant of the union. *)
Definition type (m : AgentA2AMessage) : AgentMessageType :=
  match payload m with
  | ToolExecutionRequest _ _ => TOOL_EXECUTION_REQUEST
  | ToolExecutionResponse _ _ _ => TOOL_EXECUTION_RESPONSE
  | PlanningRequest _ _ _ => PLANNING_REQUEST
  | PlanningResponse _ _ _ => PLANNING_RESPONSE
  | StatusUpdate _ _ => STATUS_UPDATE
  | ErrorMessage _ _ => ERROR
  end.

(** *** The environment and the state of the system *)

(** A [GeminiClient] as the agents use it; the k-th read of the
    environment decides what a call returns. *)
Record GeminiClient : Type := {
  clientInitialize : Completion unit;
  generateContent : nat -> list Content -> Completion GenerateContentResponse
}.

Record Env : Type := {
  mainClient : GeminiClient;
  toolsClient : GeminiClient;
  (** the k-th read of the environment, as [Date.now()] *)
  dateNow : nat -> N
}.

(** What [agent.onMessage(callback)] registered: the orchestrator's
    forwarding to the agent's own bus, or a callback of another caller. *)
Inductive Callback : Type :=
| ToOwnBus
| External (f : AgentA2AMessage -> Completion unit).

(** The orchestrator with its two agents and two buses.  The agents'
    contexts are held by value: the tools agent never reads a field of its
    context, so that both agents are given one object is not observable.
    The conversation-history arrays are a store: the [conversationHistory]
    of the main agent's context is the content of the array it holds, which
    it pushes to in place, and [releasedHistories] keeps, oldest first, the
    content of the arrays of the contexts it held before, which the
    requests built at that time still point to. *)
Record State : Type := {
  isInitialized : bool;
  mainContext : option AgentContext;
  mainCallback : option Callback;
  toolsContext : option AgentContext;
  toolsCallback : option Callback;
  toolScheduler : CoreToolScheduler;
  mainAgentBus : list AgentA2AMessage;
  toolsAgentBus : list AgentA2AMessage;
  releasedHistories : list (list Content);
  reads : nat
}.

(** The array of the context the main agent holds, or will be given next. *)
Definition liveHistory (s : State) : HistoryRef := length (releasedHistories s).

(** The content of an array, read now.  No message the code builds points
    to an array that was never created; such a reference reads as
    [undefined]. *)
Definition historyAt (s : State) (r : HistoryRef) : option (list Content) :=
  match nth_error (releasedHistories s) r with
  | Some history => Some history
  | None =>
      if (r =? liveHistory s)%nat
      then option_map conversationHistory (mainContext s)
      else None
  end.

(** Computations over the state that return, throw, or ([None]) run out
    of the fuel that bounds the routing between the buses. *)
Definition M (A : Type) : Type := State -> option (Completion A * State).

Definition ret {A} (a : A) : M A := fun s => Some (Return a, s).

Definition throw {A} (e : Thrown) : M A := fun s => Some (Throw e, s).

Definition bind {A B} (c : M A) (k : A -> M B) : M B :=
  fun s =>
    match c s with
    | Some (Return a, s') => k a s'
    | Some (Throw e, s') => Some (Throw e, s')
    | None => None
    end.

Notation "x <- c ;; k" := (bind c (fun x => k))
  (at level 61, c at next level, right associativity).
Notation "c ;;; k" := (bind c (fun _ => k))
  (at level 61, right associativity).

(** [try { c } catch (error) { h error }] *)
Definition tryCatch {A} (c : M A) (h : Thrown -> M A) : M A :=
  fun s =>
    match c s with
    | Some (Throw e, s') => h e s'
    | r => r
    end.

(** An [async] listener called by [emit]: its promise is dropped, so a
    rejection does not reach the sender. *)
Definition detached (c : M unit) : M unit :=
  tryCatch c (fun _ => ret tt).

Definition lift {A} (c : Completion A) : M A := fun s => Some (c, s).

Definition get : M State := fun s => Some (Return s, s).

Definition put (s : State) : M unit := fun _ => Some (Return tt, s).

Definition outOfFuel {A} : M A := fun _ => None.

(** One read of the environment. *)
Definition tick : M nat :=
  fun s =>
    Some (Return (reads s),
          {| isInitialized := isInitialized s;
             mainContext := mainContext s; mainCallback := mainCallback s;
             toolsContext := toolsContext s; toolsCallback := toolsCallback s;
             toolScheduler := toolScheduler s;
             mainAgentBus := mainAgentBus s; toolsAgentBus := toolsAgentBus s;
             releasedHistories := releasedHistories s;
             reads := S (reads s) |}).

Variable env : Env.

(** [Date.now()] *)
Definition now : M N := k <- tick ;; ret (dateNow env k).

(** [await client.generateContent(contents, config, signal)] *)
Definition callGenerateContent (client : GeminiClient) (contents : list Content)
  : M GenerateContentResponse :=
  k <- tick ;; lift (generateContent client k contents).

(** [extractResponseText], the same in both agents. *)
Definition extractResponseText (response : GenerateContentResponse) : string :=
  let parts := match firstCandidateParts response with
               | Some l => l
               | None => []
               end in
  JS.join_empty
    (map (fun p => match text p with Some t => t | None => EmptyString end)
       (filter (fun p => match text p with Some t => JS.truthy t | None => false end)
          parts)).

(** State updates. *)
Definition setMainContext (c : option AgentContext) : M unit :=
  fun s =>
    Some (Return tt,
          {| isInitialized := isInitialized s;
             mainContext := c; mainCallback := mainCallback s;
             toolsContext := toolsContext s; toolsCallback := toolsCallback s;
             toolScheduler := toolScheduler s;
             mainAgentBus := mainAgentBus s; toolsAgentBus := toolsAgentBus s;
             releasedHistories := releasedHistories s;
             reads := reads s |}).

Definition setMainCallback (c : option Callback) : M unit :=
  fun s =>
    Some (Return tt,
          {| isInitialized := isInitialized s;
             mainContext := mainContext s; mainCallback := c;
             toolsContext := toolsContext s; toolsCallback := toolsCallback s;
             toolScheduler := toolScheduler s;
             mainAgentBus := mainAgentBus s; toolsAgentBus := toolsAgentBus s;
             releasedHistories := releasedHistories s;
             reads := reads s |}).

Definition setToolsContext (c : option AgentContext) : M unit :=
  fun s =>
    Some (Return tt,
          {| isInitialized := isInitialized s;
             mainContext := mainContext s; mainCallback := mainCallback s;
             toolsContext := c; toolsCallback := toolsCallback s;
             toolScheduler := toolScheduler s;
             mainAgentBus := mainAgentBus s; toolsAgentBus := toolsAgentBus s;
             releasedHistories := releasedHistories s;
             reads := reads s |}).

Definition setToolsCallback (c : option Callback) : M unit :=
  fun s =>
    Some (Return tt,
          {| isInitialized := isInitialized s;
             mainContext := mainContext s; mainCallback := mainCallback s;
             toolsContext := toolsContext s; toolsCallback := c;
             toolScheduler := toolScheduler s;
             mainAgentBus := mainAgentBus s; toolsAgentBus := toolsAgentBus s;
             releasedHistories := releasedHistories s;
             reads := reads s |}).

Definition setToolScheduler (t : CoreToolScheduler) : M unit :=
  fun s =>
    Some (Return tt,
          {| isInitialized := isInitialized s;
             mainContext := mainContext s; mainCallback := mainCallback s;
             toolsContext := toolsContext s; toolsCallback := toolsCallback s;
             toolScheduler := t;
             mainAgentBus := mainAgentBus s; toolsAgentBus := toolsAgentBus s;
             releasedHistories := releasedHistories s;
             reads := reads s |}).

Definition setBuses (mainBus toolsBus : list AgentA2AMessage) : M unit :=
  fun s =>
    Some (Return tt,
          {| isInitialized := isInitialized s;
             mainContext := mainContext s; mainCallback := mainCallback s;
             toolsContext := toolsContext s; toolsCallback := toolsCallback s;
             toolScheduler := toolScheduler s;
             mainAgentBus := mainBus; toolsAgentBus := toolsBus;
             releasedHistories := releasedHistories s;
             reads := reads s |}).

Definition setInitialized (b : bool) : M unit :=
  fun s =>
    Some (Return tt,
          {| isInitialized := b;
             mainContext := mainContext s; mainCallback := mainCallback s;
             toolsContext := toolsContext s; toolsCallback := toolsCallback s;
             toolScheduler := toolScheduler s;
             mainAgentBus := mainAgentBus s; toolsAgentBus := toolsAgentBus s;
             releasedHistories := releasedHistories s;
             reads := reads s |}).

Definition setReleasedHistories (l : list (list Content)) : M unit :=
  fun s =>
    Some (Return tt,
          {| isInitialized := isInitialized s;
             mainContext := mainContext s; mainCallback := mainCallback s;
             toolsContext := toolsContext s; toolsCallback := toolsCallback s;
             toolScheduler := toolScheduler s;
             mainAgentBus := mainAgentBus s; toolsAgentBus := toolsAgentBus s;
             releasedHistories := l;
             reads := reads s |}).

(** [this.context = context] of the main agent: the array of the context
    it held is its own no longer, and stays what it is. *)
Definition replaceMainContext (c : option AgentContext) : M unit :=
  s <- get ;;
  match mainContext s with
  | Some held =>
      setReleasedHistories (releasedHistories s ++ [conversationHistory held])%list
  | None => ret tt
  end ;;;
  setMainContext c.

(** [this.context.conversationHistory.push(...items)] of the main agent. *)
Definition pushMainHistory (items : list Content) : M unit :=
  s <- get ;;
  match mainContext s with
  | Some c =>
      setMainContext
        (Some {| sessionId := sessionId c;
                 conversationHistory := (conversationHistory c ++ items)%list;
                 currentTask := currentTask c |})
  | None => throw (ErrorObj "Cannot read properties of undefined (reading 'conversationHistory')")
  end.

(** [await callback(message)] for a registered callback; [send] is
    [sendMessage] of the agent's own bus. *)
Definition invoke (send : AgentA2AMessage -> M unit) (cb : Callback)
    (m : AgentA2AMessage) : M unit :=
  match cb with
  | ToOwnBus => send m
  | External f => lift (f m)
  end.

(** [createErrorResponse] of the scheduler module, and the text of
    [getMainAgentSystemPrompt()] of [prompts.ts]. *)
Variable createErrorResponse :
  Turn.ToolCallRequestInfo -> Thrown -> ToolCallResponseInfo.
Variable getMainAgentSystemPrompt : string.

(** *** MainAgent ([mainAgent.ts]) *)

Definition planningPrompt (situation : string) (availableTools : list string)
  : string :=
  "
You are the main planning agent. The tools agent is requesting guidance on how to handle this situation:

Situation: " ++ situation ++ "
Available Tools: " ++ JS.join ", " availableTools ++ "

Please provide a clear plan and specify which tools should be used in what order.
Focus on the strategy and approach, not the detailed execution.
".

Definition extractPlanFromResponse (response : string) : string := response.

Definition extractToolsFromResponse (response : string)
    (availableTools : list string) : list string :=
  filter (fun tool => JS.includes (JS.toLowerCase response) (JS.toLowerCase tool))
    availableTools.

(** [plan.split('\n').filter(step => step.trim())] *)
Definition nextStepsOf (plan : string) : list string :=
  filter (fun step => JS.truthy (JS.trim step)) (JS.split_lines plan).

Definition handlePlanningRequest (situation : string)
    (availableTools : list string) : M AgentA2AMessage :=
  response <- callGenerateContent (mainClient env)
                [textContent "user" (planningPrompt situation availableTools)] ;;
  let responseText := extractResponseText response in
  let plan := extractPlanFromResponse responseText in
  let toolsToUse := extractToolsFromResponse responseText availableTools in
  t1 <- now ;;
  t2 <- now ;;
  ret {| id := "planning_" ++ JS.decimal t1;
         fromAgent := MAIN;
         toAgent := TOOLS;
         timestamp := t2;
         content := responseText;
         metadata := None;
         payload := PlanningResponse plan (nextStepsOf plan) toolsToUse |}.

(** [result.resultDisplay || 'Executed successfully'] *)
Definition displayOrDefault (d : option string) : string :=
  match d with
  | Some x => if JS.truthy x then x else "Executed successfully"
  | None => "Executed successfully"
  end.

Definition synthesisPrompt (toolResults : list ToolCallResponseInfo) : string :=
  let resultsText :=
    JS.join (String JS.LF EmptyString)
      (map (fun result =>
              "Tool " ++ Scheduler.rCallId result ++ ": "
              ++ displayOrDefault (Scheduler.resultDisplay result))
           toolResults) in
  "
Based on the following tool execution results, provide a clear and helpful response to the user:

" ++ resultsText ++ "

Synthesize these results into a coherent response that directly addresses the user's needs.
".

Definition generateFinalResponseFromToolResults
    (toolResults : list ToolCallResponseInfo) : M string :=
  response <- callGenerateContent (mainClient env)
                [textContent "user" (synthesisPrompt toolResults)] ;;
  ret (extractResponseText response).

Definition handleToolExecutionResponse (toolResults : list ToolCallResponseInfo)
  : M (option AgentA2AMessage) :=
  s <- get ;;
  match mainContext s with
  | None => ret None
  | Some _ =>
      final <- generateFinalResponseFromToolResults toolResults ;;
      pushMainHistory [textContent "model" final] ;;;
      t1 <- now ;;
      t2 <- now ;;
      ret (Some {| id := "response_" ++ JS.decimal t1;
                   fromAgent := MAIN;
                   toAgent := TOOLS;
                   timestamp := t2;
                   content := final;
                   metadata := Some {| mToolResults := toolResults;
                                       finalResponse := true |};
                   payload := StatusUpdate "tool_results_processed" None |})
  end.

(** [MainAgent.processMessage] *)
Definition mainProcessMessage (message : AgentA2AMessage)
  : M (option AgentA2AMessage) :=
  match payload message with
  | PlanningRequest situation availableTools _ =>
      r <- handlePlanningRequest situation availableTools ;; ret (Some r)
  | ToolExecutionResponse toolResults _ _ =>
      handleToolExecutionResponse toolResults
  | StatusUpdate _ _ => ret None
  | _ => ret None
  end.

Definition mainShutdown : M unit :=
  replaceMainContext None ;;; setMainCallback None.

Definition mainInitialize (context : AgentContext) : M unit :=
  replaceMainContext (Some context) ;;;
  lift (clientInitialize (mainClient env)).

Definition toolKeywords : list string :=
  ["read file"; "write file"; "create file"; "delete file";
   "run command"; "execute"; "shell"; "terminal";
   "search"; "find"; "grep"; "list files";
   "edit"; "modify"; "update"; "change"].

Definition analyzeForToolExecution (response userInput : string) : bool :=
  existsb (fun keyword =>
             JS.includes (JS.toLowerCase userInput) keyword
             || JS.includes (JS.toLowerCase response) keyword)
    toolKeywords.

Definition createToolExecutionRequest (userInput planResponse : string)
  : M AgentA2AMessage :=
  t1 <- now ;;
  t2 <- now ;;
  s <- get ;;
  ret {| id := "tool_request_" ++ JS.decimal t1;
         fromAgent := MAIN;
         toAgent := TOOLS;
         timestamp := t2;
         content := "Execute tools for: " ++ userInput;
         metadata := None;
         payload := ToolExecutionRequest []
                      (option_map (fun _ => MainHistory (liveHistory s))
                         (mainContext s)) |}.

Definition coordinating : string :=
  "I've analyzed your request and am coordinating with the tools agent to execute the necessary operations. Please wait...".

(** [MainAgent.handleUserInput]; [send] is [sendMessage] of the main
    agent's bus. *)
Definition mainHandleUserInput (send : AgentA2AMessage -> M unit)
    (userInput : string) : M string :=
  s <- get ;;
  match mainContext s with
  | None => throw (ErrorObj "Agent not initialized")
  | Some context =>
      let conversationContent :=
        ([textContent "user" getMainAgentSystemPrompt;
          textContent "model"
            "I understand. I am the main planning agent and will work with the tools agent to help you."]
         ++ conversationHistory context
         ++ [textContent "user" userInput])%list in
      response <- callGenerateContent (mainClient env) conversationContent ;;
      let responseText := extractResponseText response in
      if analyzeForToolExecution responseText userInput then
        toolRequest <- createToolExecutionRequest userInput responseText ;;
        s1 <- get ;;
        match mainCallback s1 with
        | Some cb => invoke send cb toolRequest
        | None => ret tt
        end ;;;
        ret coordinating
      else
        pushMainHistory [textContent "user" userInput;
                         textContent "model" responseText] ;;;
        ret responseText
  end.

(** *** ToolsAgent ([toolsAgent.ts]) *)

Definition statusUpdate (idTime stamp : N) (status : string) : AgentA2AMessage :=
  {| id := "status_" ++ JS.decimal idTime;
     fromAgent := TOOLS;
     toAgent := MAIN;
     timestamp := stamp;
     content := status;
     metadata := None;
     payload := StatusUpdate status None |}.

(** [sendStatusUpdate]; [send] is [sendMessage] of the tools agent's bus. *)
Definition sendStatusUpdate (send : AgentA2AMessage -> M unit) (status : string)
  : M unit :=
  s <- get ;;
  match toolsCallback s with
  | Some cb =>
      t1 <- now ;;
      t2 <- now ;;
      invoke send cb (statusUpdate t1 t2 status)
  | None => ret tt
  end.

(** [request.context?.map(c => c.parts?.map(p => p.text).join('') || '').join('\n') || 'No context'] *)
Definition contextText (context : option (list Content)) : string :=
  match context with
  | None => "No context"
  | Some cs =>
      let joined :=
        JS.join (String JS.LF EmptyString)
          (map (fun c =>
                  match parts c with
                  | Some ps =>
                      JS.join_empty
                        (map (fun p => match text p with
                                       | Some t => t
                                       | None => EmptyString
                                       end) ps)
                  | None => EmptyString
                  end) cs) in
      if JS.truthy joined then joined else "No context"
  end.

Definition analysisPrompt (requestContent : string)
    (context : option (list Content)) : string :=
  "
You are the Tools Agent. Your job is to analyze the following request and determine what tools need to be executed.

Request: " ++ requestContent ++ "

Available context:
" ++ contextText context ++ "

Your role is to:
1. Identify what tools are needed
2. Determine the correct parameters for each tool
3. Plan the execution order

Focus on operational execution, not strategic planning.

Please analyze this request and provide a clear plan for tool execution.
".

(** [request.context], read now. *)
Definition requestContext (s : State) (context : option RequestContext)
  : option (list Content) :=
  match context with
  | Some (OwnArray contents) => Some contents
  | Some (MainHistory r) => historyAt s r
  | None => None
  end.

(** [analyzeAndCreateToolCalls]: the model is asked, and the empty array
    is returned. *)
Definition analyzeAndCreateToolCalls (requestContent : string)
    (context : option RequestContext) : M (list Turn.ToolCallRequestInfo) :=
  s <- get ;;
  response <- callGenerateContent (toolsClient env)
                [textContent "user"
                   (analysisPrompt requestContent (requestContext s context))] ;;
  let responseText := extractResponseText response in
  ret [].

(** [await this.toolScheduler.schedule(toolCalls, new AbortController().signal)] *)
Definition scheduleToolCalls (toolCalls : list Turn.ToolCallRequestInfo) : M unit :=
  k <- tick ;;
  s <- get ;;
  let '(r, sched') :=
    Scheduler.schedule createErrorResponse (dateNow env k) false
      (Scheduler.Many toolCalls) (toolScheduler s) in
  setToolScheduler sched' ;;;
  lift r.

Definition toolExecutionResponse (idTime stamp : N) (text : string)
    (ok : bool) (err : option string) : AgentA2AMessage :=
  {| id := "tool_response_" ++ JS.decimal idTime;
     fromAgent := TOOLS;
     toAgent := MAIN;
     timestamp := stamp;
     content := text;
     metadata := None;
     payload := ToolExecutionResponse [] ok err |}.

(** The [try] block of [handleToolExecutionRequest]. *)
Definition tryToolExecution (send : AgentA2AMessage -> M unit)
    (request : AgentA2AMessage) : M AgentA2AMessage :=
  sendStatusUpdate send "Starting tool execution..." ;;;
  toolCalls <- analyzeAndCreateToolCalls (content request)
                 (match payload request with
                  | ToolExecutionRequest _ context => context
                  | _ => None
                  end) ;;
  scheduleToolCalls toolCalls ;;;
  t1 <- now ;;
  t2 <- now ;;
  ret (toolExecutionResponse t1 t2 "Tool execution completed" true None).

Definition handleToolExecutionRequest (send : AgentA2AMessage -> M unit)
    (request : AgentA2AMessage) : M AgentA2AMessage :=
  tryCatch (tryToolExecution send request)
    (fun error =>
       t1 <- now ;;
       t2 <- now ;;
       ret (toolExecutionResponse t1 t2 "Tool execution failed" false
              (Some (messageOf error)))).

(** [ToolsAgent.processMessage] *)
Definition toolsProcessMessage (send : AgentA2AMessage -> M unit)
    (message : AgentA2AMessage) : M (option AgentA2AMessage) :=
  match payload message with
  | ToolExecutionRequest _ _ =>
      r <- handleToolExecutionRequest send message ;; ret (Some r)
  | StatusUpdate _ _ => ret None
  | _ => ret None
  end.

Definition toolsShutdown : M unit :=
  setToolsContext None ;;; setToolsCallback None.

Definition toolsInitialize (context : AgentContext) : M unit :=
  setToolsContext (Some context) ;;;
  lift (clientInitialize (toolsClient env)).

(** *** AgentCommunicationBus and AgentOrchestrator ([orchestrator.ts]) *)

(** [this.messageHistory.push(message)] of each bus. *)
Definition pushMainBus (m : AgentA2AMessage) : M unit :=
  s <- get ;; setBuses (mainAgentBus s ++ [m])%list (toolsAgentBus s).

Definition pushToolsBus (m : AgentA2AMessage) : M unit :=
  s <- get ;; setBuses (mainAgentBus s) (toolsAgentBus s ++ [m])%list.

(** [sendMessage] of the two buses with the listeners [setupCommunication]
    registers: a message on the main agent's bus that is addressed to the
    tools agent is processed by it and the response sent on the tools
    agent's bus, and the other way round.  The listeners are run to their
    end within the send (in the source they go on after [sendMessage] has
    resolved); what they throw is dropped either way.  The fuel bounds the
    depth of this routing. *)
Fixpoint mainBusSend (fuel : nat) (message : AgentA2AMessage) : M unit :=
  match fuel with
  | O => outOfFuel
  | S fuel' =>
      pushMainBus message ;;;
      if AgentType_eqb (toAgent message) TOOLS then
        detached
          (response <- toolsProcessMessage (toolsBusSend fuel') message ;;
           match response with
           | Some r => toolsBusSend fuel' r
           | None => ret tt
           end)
      else ret tt
  end
with toolsBusSend (fuel : nat) (message : AgentA2AMessage) : M unit :=
  match fuel with
  | O => outOfFuel
  | S fuel' =>
      pushToolsBus message ;;;
      if AgentType_eqb (toAgent message) MAIN then
        detached
          (response <- mainProcessMessage message ;;
           match response with
           | Some r => mainBusSend fuel' r
           | None => ret tt
           end)
      else ret tt
  end.

(** [new AgentOrchestrator(config)]: two agents without context, two empty
    buses, and the callbacks of [setupCommunication]. *)
Definition newOrchestrator (scheduler : CoreToolScheduler) : State :=
  {| isInitialized := false;
     mainContext := None; mainCallback := Some ToOwnBus;
     toolsContext := None; toolsCallback := Some ToOwnBus;
     toolScheduler := scheduler;
     mainAgentBus := []; toolsAgentBus := [];
     releasedHistories := [];
     reads := 0 |}.

Definition initialize (sessionId : string) : M unit :=
  s <- get ;;
  if isInitialized s then throw (ErrorObj "Agent orchestrator already initialized")
  else
    let context := {| sessionId := sessionId; conversationHistory := [];
                      currentTask := None |} in
    mainInitialize context ;;;
    toolsInitialize context ;;;
    setInitialized true.

Definition handleUserInput (fuel : nat) (userInput : string) : M string :=
  s <- get ;;
  if negb (isInitialized s) then throw (ErrorObj "Agent orchestrator not initialized")
  else
    tryCatch (mainHandleUserInput (mainBusSend fuel) userInput)
      (fun error => ret ("Error: " ++ messageOf error)).

Record CommunicationStats : Type := {
  mainAgentMessages : nat;
  toolsAgentMessages : nat;
  totalMessages : nat;
  messagesSent : nat;
  messagesReceived : nat;
  activeAgents : nat
}.

Definition getCommunicationStats (s : State) : CommunicationStats :=
  let mainMessages := length (mainAgentBus s) in
  let toolsMessages := length (toolsAgentBus s) in
  {| mainAgentMessages := mainMessages;
     toolsAgentMessages := toolsMessages;
     totalMessages := mainMessages + toolsMessages;
     messagesSent := mainMessages + toolsMessages;
     messagesReceived := mainMessages + toolsMessages;
     activeAgents := if isInitialized s then 2 else 0 |}.

Record OrchestratorStatus : Type := {
  initialized : bool;
  mainAgentType : AgentType;
  toolsAgentType : AgentType;
  communicationStats : CommunicationStats
}.

Definition getStatus (s : State) : OrchestratorStatus :=
  {| initialized := isInitialized s;
     mainAgentType := MAIN;
     toolsAgentType := TOOLS;
     communicationStats := getCommunicationStats s |}.

Definition clearHistory : M unit := setBuses [] [].

Definition shutdown : M unit :=
  s <- get ;;
  if negb (isInitialized s) then ret tt
  else
    mainShutdown ;;;
    toolsShutdown ;;;
    setInitialized false.

(** [reset]: two new buses, wired again. *)
Definition reset : M unit :=
  setInitialized false ;;;
  setBuses [] [] ;;;
  setMainCallback (Some ToOwnBus) ;;;
  setToolsCallback (Some ToOwnBus).

End WithResponses.

Arguments type {PartListUnion}.
Arguments ret {PartListUnion A} a.
Arguments throw {PartListUnion A} e.
Arguments bind {PartListUnion A B} c k.
Arguments tryCatch {PartListUnion A} c h.
Arguments detached {PartListUnion}.
Arguments lift {PartListUnion A} c.
Arguments get {PartListUnion}.
Arguments put {PartListUnion}.
Arguments outOfFuel {PartListUnion A}.
Arguments tick {PartListUnion}.
Arguments now {PartListUnion}.
Arguments callGenerateContent {PartListUnion}.
Arguments setMainContext {PartListUnion}.
Arguments setMainCallback {PartListUnion}.
Arguments setToolsContext {PartListUnion}.
Arguments setToolsCallback {PartListUnion}.
Arguments setToolScheduler {PartListUnion}.
Arguments setBuses {PartListUnion}.
Arguments setInitialized {PartListUnion}.
Arguments setReleasedHistories {PartListUnion}.
Arguments replaceMainContext {PartListUnion}.
Arguments liveHistory {PartListUnion}.
Arguments historyAt {PartListUnion}.
Arguments requestContext {PartListUnion}.
Arguments pushMainHistory {PartListUnion}.
Arguments invoke {PartListUnion}.
Arguments handlePlanningRequest {PartListUnion}.
Arguments synthesisPrompt {PartListUnion}.
Arguments generateFinalResponseFromToolResults {PartListUnion}.
Arguments handleToolExecutionResponse {PartListUnion}.
Arguments mainProcessMessage {PartListUnion}.
Arguments mainShutdown {PartListUnion}.
Arguments mainInitialize {PartListUnion}.
Arguments createToolExecutionRequest {PartListUnion}.
Arguments mainHandleUserInput {PartListUnion}.
Arguments statusUpdate {PartListUnion}.
Arguments sendStatusUpdate {PartListUnion}.
Arguments analyzeAndCreateToolCalls {PartListUnion}.
Arguments scheduleToolCalls {PartListUnion}.
Arguments toolExecutionResponse {PartListUnion}.
Arguments tryToolExecution {PartListUnion}.
Arguments handleToolExecutionRequest {PartListUnion}.
Arguments toolsProcessMessage {PartListUnion}.
Arguments toolsShutdown {PartListUnion}.
Arguments toolsInitialize {PartListUnion}.
Arguments pushMainBus {PartListUnion}.
Arguments pushToolsBus {PartListUnion}.
Arguments mainBusSend {PartListUnion}.
Arguments newOrchestrator {PartListUnion}.
Arguments initialize {PartListUnion}.
Arguments handleUserInput {PartListUnion}.
Arguments getCommunicationStats {PartListUnion}.
Arguments getStatus {PartListUnion}.
Arguments clearHistory {PartListUnion}.
Arguments shutdown {PartListUnion}.
Arguments reset {PartListUnion}.
Arguments toolsBusSend {PartListUnion}.
Arguments ToolExecutionRequest {PartListUnion}.
Arguments ToolExecutionResponse {PartListUnion}.
Arguments PlanningRequest {PartListUnion}.
Arguments PlanningResponse {PartListUnion}.
Arguments StatusUpdate {PartListUnion}.
Arguments ErrorMessage {PartListUnion}.
Arguments ToOwnBus {PartListUnion}.
Arguments External {PartListUnion}.
Arguments mToolResults {PartListUnion}.
Arguments finalResponse {PartListUnion}.
Arguments id {PartListUnion}.
Arguments fromAgent {PartListUnion}.
Arguments toAgent {PartListUnion}.
Arguments timestamp {PartListUnion}.
Arguments content {PartListUnion}.
Arguments metadata {PartListUnion}.
Arguments payload {PartListUnion}.
Arguments isInitialized {PartListUnion}.
Arguments mainContext {PartListUnion}.
Arguments mainCallback {PartListUnion}.
Arguments toolsContext {PartListUnion}.
Arguments toolsCallback {PartListUnion}.
Arguments toolScheduler {PartListUnion}.
Arguments mainAgentBus {PartListUnion}.
Arguments toolsAgentBus {PartListUnion}.
Arguments releasedHistories {PartListUnion}.
Arguments reads {PartListUnion}.
Arguments Build_Metadata {PartListUnion}.
Arguments Build_AgentA2AMessage {PartListUnion}.
Arguments Build_State {PartListUnion}.

End Agents.

(** * Properties *)

(** ** Strings *)

Section StringFacts.
Import JS.

Lemma trimStart_blank s : blank s = true -> trimStart s = EmptyString.
Proof.
  induction s as [|c s IH]; simpl; auto.
  intros H. apply andb_true_iff in H as [Hc Hs]. rewrite Hc. auto.
Qed.

Lemma trimEnd_empty_blank s : trimEnd s = EmptyString <-> blank s = true.
Proof.
  induction s as [|c s IH]; simpl.
  - tauto.
  - destruct (trimEnd s) eqn:E.
    + destruct (isWhiteSpace c); simpl.
      * rewrite <- IH. tauto.
      * split; discriminate.
    + split; [discriminate|].
      intros H. apply andb_true_iff in H as [_ H].
      apply IH in H. discriminate.
Qed.

Lemma blank_trimStart s : blank (trimStart s) = blank s.
Proof.
  induction s as [|c s IH]; simpl; auto.
  destruct (isWhiteSpace c) eqn:E; simpl; auto. now rewrite E.
Qed.

(** [s.trim()] is falsy exactly when [s] is blank. *)
Lemma truthy_trim s : truthy (trim s) = negb (blank s).
Proof.
  unfold trim.
  destruct (trimEnd (trimStart s)) eqn:E.
  - apply trimEnd_empty_blank in E. rewrite blank_trimStart in E.
    now rewrite E.
  - simpl. destruct (blank s) eqn:B; auto.
    rewrite trimStart_blank in E by assumption. discriminate.
Qed.

Lemma dashFree_app a b : dashFree (a ++ "-" ++ b) = false.
Proof.
  induction a as [|c a IH]; simpl in *; auto.
  rewrite IH. apply andb_false_r.
Qed.

Lemma append_assoc (a b c : string) : (a ++ b) ++ c = a ++ b ++ c.
Proof. induction a; simpl; congruence. Qed.

Lemma split_at_last_dash a a' b b' :
  dashFree b = true -> dashFree b' = true ->
  a ++ "-" ++ b = a' ++ "-" ++ b' -> a = a' /\ b = b'.
Proof.
  intros Hb Hb'. revert a'.
  induction a as [|c a IH]; intros [|c' a'] H; simpl in H.
  - inversion H. auto.
  - inversion H; subst. pose proof (dashFree_app a' b') as D. simpl in D.
    congruence.
  - inversion H; subst. pose proof (dashFree_app a b) as D. simpl in D.
    congruence.
  - inversion H; subst. destruct (IH _ H2) as [-> ->]. auto.
Qed.

Lemma decimal_dashFree d : dashFree (DecimalString.NilEmpty.string_of_uint d) = true.
Proof. induction d; simpl; auto. Qed.

Lemma hex_dashFree d : dashFree (HexadecimalString.NilEmpty.string_of_uint d) = true.
Proof. induction d; simpl; auto. Qed.

Lemma decimal_inj n m : decimal n = decimal m -> n = m.
Proof.
  unfold decimal. intros H.
  apply DecimalN.Unsigned.to_uint_inj.
  assert (E : Some (N.to_uint n) = Some (N.to_uint m)).
  { rewrite <- !DecimalString.NilEmpty.usu. now rewrite H. }
  now inversion E.
Qed.

Lemma hex_inj d e :
  HexadecimalString.NilEmpty.string_of_uint d =
  HexadecimalString.NilEmpty.string_of_uint e -> d = e.
Proof.
  intros H.
  assert (E : Some d = Some e).
  { rewrite <- !HexadecimalString.NilEmpty.usu. now rewrite H. }
  now inversion E.
Qed.

End StringFacts.

(** ** The thought pattern *)

Section ThoughtFacts.
Import ThoughtRegex.

Lemma stripStars_Some s r : stripStars s = Some r <-> s = "**" ++ r.
Proof.
  split.
  - destruct s as [|a [|b s]]; simpl; try discriminate.
    + destruct a as [[] [] [] [] [] [] [] []]; discriminate.
    + destruct a as [[] [] [] [] [] [] [] []]; try discriminate.
      destruct b as [[] [] [] [] [] [] [] []]; try discriminate.
      intros H; inversion H; reflexivity.
  - intros ->. reflexivity.
Qed.

Lemma match_two_stars s :
  match_here [Lit "*"; Lit "*"]%char s =
  match stripStars s with Some r => Some (EmptyString, r) | None => None end.
Proof.
  destruct s as [|a [|b s]]; simpl; auto.
  - destruct a as [[] [] [] [] [] [] [] []]; reflexivity.
  - destruct a as [[] [] [] [] [] [] [] []]; try reflexivity.
    destruct b as [[] [] [] [] [] [] [] []]; reflexivity.
Qed.

Lemma closing_eq s :
  closing s =
  match stripStars s with
  | Some r => Some (EmptyString, r)
  | None =>
      match s with
      | EmptyString => None
      | String d s' =>
          match closing s' with
          | Some (g, rest) => Some (String d g, rest)
          | None => None
          end
      end
  end.
Proof.
  unfold closing.
  destruct s as [|d s'].
  - reflexivity.
  - change (match_here [LazyAnyGroup; Lit "*"; Lit "*"]%char (String d s'))
      with (match match_here [Lit "*"; Lit "*"]%char (String d s') with
            | Some (_, rest) => Some (EmptyString, rest)
            | None =>
                match match_here [LazyAnyGroup; Lit "*"; Lit "*"]%char s' with
                | Some (g, rest) => Some (String d g, rest)
                | None => None
                end
            end).
    rewrite match_two_stars.
    destruct (stripStars (String d s')); reflexivity.
Qed.

Lemma match_bold_eq s :
  match_here bold s =
  match stripStars s with
  | Some r => closing r
  | None => None
  end.
Proof.
  destruct s as [|a [|b s]]; simpl; auto.
  - destruct a as [[] [] [] [] [] [] [] []]; reflexivity.
  - destruct a as [[] [] [] [] [] [] [] []]; try reflexivity.
    destruct b as [[] [] [] [] [] [] [] []]; reflexivity.
Qed.

Lemma starFree_cons c g :
  starFree (String c g) -> stripStars (String c g ++ "*") = None /\ starFree g.
Proof.
  unfold starFree. intros H.
  change (JS.startsWith (String c g ++ "*") "**" || JS.includes (g ++ "*") "**" = false) in H.
  apply orb_false_iff in H as [H1 H2]. split; auto.
  clear H2. revert H1. simpl.
  destruct (g ++ "*") as [|b r].
  - destruct c as [[] [] [] [] [] [] [] []]; reflexivity.
  - destruct c as [[] [] [] [] [] [] [] []]; try reflexivity.
    destruct b as [[] [] [] [] [] [] [] []]; try reflexivity.
    simpl. discriminate.
Qed.

Lemma stripStars_app_star c g rest :
  stripStars (String c g ++ "*") = None ->
  stripStars (String c g ++ "**" ++ rest) = None.
Proof.
  simpl. destruct g as [|b g]; simpl.
  - destruct c as [[] [] [] [] [] [] [] []]; try discriminate; auto.
  - destruct c as [[] [] [] [] [] [] [] []]; auto.
    destruct b as [[] [] [] [] [] [] [] []]; try discriminate; auto.
Qed.

Lemma closing_first g post :
  starFree g -> closing (g ++ "**" ++ post) = Some (g, post).
Proof.
  induction g as [|c g IH]; intros H.
  - rewrite closing_eq. reflexivity.
  - apply starFree_cons in H as [H1 H2].
    rewrite closing_eq.
    rewrite (stripStars_app_star c g post H1).
    simpl in IH |- *. rewrite (IH H2). reflexivity.
Qed.

Lemma closing_sound s g post :
  closing s = Some (g, post) -> s = g ++ "**" ++ post /\ starFree g.
Proof.
  revert g post.
  induction s as [|d s IH]; intros g post; rewrite closing_eq.
  - simpl. discriminate.
  - destruct (stripStars (String d s)) as [r|] eqn:E.
    + intros H; inversion H; subst. apply stripStars_Some in E.
      split; [exact E | reflexivity].
    + destruct (closing s) as [[g' rest]|] eqn:C; try discriminate.
      intros H; inversion H; subst.
      destruct (IH _ _ eq_refl) as [-> F]. split; [reflexivity|].
      unfold starFree in *. simpl JS.includes. rewrite F.
      rewrite orb_false_r.
      destruct (JS.startsWith (String d g' ++ "*") "**") eqn:S; auto.
      exfalso.
      assert (stripStars (String d (g' ++ "**" ++ post)) <> None).
      { clear - S. revert S. destruct g' as [|b g']; simpl.
        - destruct d as [[] [] [] [] [] [] [] []]; simpl; discriminate.
        - destruct d as [[] [] [] [] [] [] [] []]; simpl; try discriminate.
          destruct b as [[] [] [] [] [] [] [] []]; simpl; discriminate. }
      contradiction.
Qed.

Lemma closing_complete g post : closing (g ++ "**" ++ post) <> None.
Proof.
  induction g as [|c g IH]; rewrite closing_eq.
  - discriminate.
  - destruct (stripStars (String c g ++ "**" ++ post)); try discriminate.
    simpl in IH |- *.
    destruct (closing (g ++ String "*" (String "*" post))) as [[? ?]|];
      [discriminate | congruence].
Qed.

Lemma exec_eq s :
  exec bold s =
  match match_here bold s with
  | Some (g, rest) => Some {| before := EmptyString; group1 := g; after := rest |}
  | None =>
      match s with
      | EmptyString => None
      | String c s' =>
          match exec bold s' with
          | Some m => Some {| before := String c (before m);
                              group1 := group1 m; after := after m |}
          | None => None
          end
      end
  end.
Proof. destruct s; reflexivity. Qed.

Lemma exec_first pre g post :
  starFree pre -> starFree g ->
  exec bold (pre ++ "**" ++ g ++ "**" ++ post) =
  Some {| before := pre; group1 := g; after := post |}.
Proof.
  intros Hpre Hg. induction pre as [|c pre IH].
  - rewrite exec_eq, match_bold_eq. simpl.
    pose proof (closing_first g post Hg) as C. simpl in C. rewrite C.
    reflexivity.
  - apply starFree_cons in Hpre as [H1 H2].
    rewrite exec_eq, match_bold_eq.
    rewrite (stripStars_app_star c pre _ H1).
    simpl in IH |- *. rewrite (IH H2). reflexivity.
Qed.

Lemma exec_sound s m :
  exec bold s = Some m ->
  s = before m ++ "**" ++ group1 m ++ "**" ++ after m
  /\ starFree (group1 m).
Proof.
  revert m. induction s as [|c s IH]; intros m; rewrite exec_eq, match_bold_eq.
  - simpl. discriminate.
  - destruct (stripStars (String c s)) as [r|] eqn:E.
    + apply stripStars_Some in E.
      destruct (closing r) as [[g rest]|] eqn:C.
      * intros H; inversion H; subst; simpl.
        apply closing_sound in C as [-> F]. split; auto.
      * destruct (exec bold s) as [m'|] eqn:X; try discriminate.
        intros H; inversion H; subst; simpl.
        destruct (IH _ eq_refl) as [-> F]. split; auto.
    + destruct (exec bold s) as [m'|] eqn:X; try discriminate.
      intros H; inversion H; subst; simpl.
      destruct (IH _ eq_refl) as [-> F]. split; auto.
Qed.

Lemma exec_complete pre g post :
  exec bold (pre ++ "**" ++ g ++ "**" ++ post) <> None.
Proof.
  induction pre as [|c pre IH]; rewrite exec_eq, match_bold_eq.
  - simpl. pose proof (closing_complete g post) as H. simpl in H.
    destruct (closing (g ++ String "*" (String "*" post))) as [[? ?]|];
      [discriminate | congruence].
  - destruct (stripStars (String c pre ++ "**" ++ g ++ "**" ++ post)) as [r|].
    + destruct (closing r) as [[? ?]|]; try discriminate.
      simpl in IH |- *.
      destruct (exec bold (pre ++ String "*" (String "*" (g ++ String "*" (String "*" post)))));
        [discriminate | congruence].
    + simpl in IH |- *.
      destruct (exec bold (pre ++ String "*" (String "*" (g ++ String "*" (String "*" post)))));
        [discriminate | congruence].
Qed.

Lemma exec_before_starFree s m : exec bold s = Some m -> starFree (before m).
Proof.
  revert m. induction s as [|c s IH]; intros m; rewrite exec_eq, match_bold_eq.
  - simpl. discriminate.
  - destruct (stripStars (String c s)) as [r|] eqn:E.
    + apply stripStars_Some in E.
      destruct (closing r) as [[g rest]|] eqn:C.
      * intros H; inversion H; subst; reflexivity.
      * destruct (exec bold s) as [m'|] eqn:X; try discriminate.
        intros H; inversion H; subst; simpl. clear H.
        exfalso.
        destruct (exec_sound _ _ X) as [D _].
        simpl in E. inversion E; subst c. clear E.
        destruct (before m') as [|b pre].
        -- simpl in D. rewrite D in H1.
           inversion H1; subst r.
           pose proof (closing_complete ("*" ++ group1 m') (after m')) as K.
           simpl in K, C. congruence.
        -- simpl in D. rewrite D in H1.
           inversion H1; subst.
           pose proof (closing_complete pre (group1 m' ++ "**" ++ after m')) as K.
           simpl in K, C. congruence.
    + destruct (exec bold s) as [m'|] eqn:X; try discriminate.
      intros H; inversion H; subst; simpl. clear H.
      pose proof (IH _ eq_refl) as F.
      destruct (exec_sound _ _ X) as [D _].
      unfold starFree in *.
      change (JS.startsWith (String c (before m') ++ "*") "**"
              || JS.includes (before m' ++ "*") "**" = false).
      rewrite F, orb_false_r.
      destruct (JS.startsWith (String c (before m') ++ "*") "**") eqn:S; auto.
      exfalso. subst s. clear - S E. revert S E.
      destruct (before m') as [|b pre]; simpl.
      * destruct c as [[] [] [] [] [] [] [] []]; simpl; discriminate.
      * destruct c as [[] [] [] [] [] [] [] []]; simpl; try discriminate.
        destruct b as [[] [] [] [] [] [] [] []]; simpl; discriminate.
Qed.

(** Every text either has a first marker pair or holds no marker pair. *)
Lemma marker_pair_cases (s : string) :
  (exists pre g post,
      s = pre ++ "**" ++ g ++ "**" ++ post /\ starFree pre /\ starFree g)
  \/ (forall pre g post, s <> pre ++ "**" ++ g ++ "**" ++ post).
Proof.
  destruct (exec bold s) as [m|] eqn:X.
  - left. exists (before m), (group1 m), (after m).
    destruct (exec_sound _ _ X) as [D F].
    split; [exact D | split; [exact (exec_before_starFree _ _ X) | exact F]].
  - right. intros pre g post ->. now apply (exec_complete pre g post).
Qed.

Lemma parseThought_marked pre g post :
  starFree pre -> starFree g ->
  Turn.parseThought (pre ++ "**" ++ g ++ "**" ++ post) =
  {| Turn.subject := JS.trim g; Turn.description := JS.trim (pre ++ post) |}.
Proof.
  intros Hpre Hg. unfold Turn.parseThought, replace_empty.
  rewrite (exec_first pre g post Hpre Hg). reflexivity.
Qed.

Lemma parseThought_unmarked s :
  (forall pre g post, s <> pre ++ "**" ++ g ++ "**" ++ post) ->
  Turn.parseThought s =
  {| Turn.subject := EmptyString; Turn.description := JS.trim s |}.
Proof.
  intros H. unfold Turn.parseThought, replace_empty.
  destruct (exec bold s) as [m|] eqn:X; auto.
  destruct (exec_sound _ _ X) as [D _]. now apply H in D.
Qed.

End ThoughtFacts.

(** ** Turn *)

Lemma generatedCallId_inj n1 a1 n2 a2 :
  Turn.generatedCallId n1 a1 = Turn.generatedCallId n2 a2 <->
  Turn.templateName n1 = Turn.templateName n2
  /\ Turn.now a1 = Turn.now a2 /\ Turn.random a1 = Turn.random a2.
Proof.
  unfold Turn.generatedCallId, Turn.randomSuffix. split.
  - intros H.
    rewrite <- !(append_assoc (Turn.templateName _) "-" _) in H.
    rewrite <- !(append_assoc _ (JS.decimal _) _) in H.
    apply split_at_last_dash in H as [H1 H2]; try apply hex_dashFree.
    rewrite !append_assoc in H1.
    apply split_at_last_dash in H1 as [H0 H1]; try apply decimal_dashFree.
    auto using decimal_inj, hex_inj.
  - intros (-> & -> & ->). reflexivity.
Qed.

Section TurnFacts.
Import Genai.
Import ThoughtRegex.

Variable getResponseText : GenerateContentResponse -> option string.
Variable ambient : nat -> Turn.Ambient.

(** C7, as amended.  The [Thought] event of a thought part: the subject is
    the trimmed text between the first two adjacent stars of the fragment
    and the next two, the description is the trimmed fragment without that
    span; a fragment that holds no such pair of markers has the empty
    subject and the trimmed fragment as description. *)
Theorem thought_event_subject_description
    (resp : GenerateContentResponse) (p : Part) (t : Turn.Turn) :
  Turn.thoughtPart resp = Some p ->
  let rawText := match text p with Some x => x | None => EmptyString end in
  exists th,
    fst (Turn.processChunk getResponseText ambient resp t) = [Turn.Thought th]
    /\ (forall pre g post,
           rawText = pre ++ "**" ++ g ++ "**" ++ post ->
           starFree pre -> starFree g ->
           th = {| Turn.subject := JS.trim g;
                   Turn.description := JS.trim (pre ++ post) |})
    /\ ((forall pre g post, rawText <> pre ++ "**" ++ g ++ "**" ++ post) ->
        th = {| Turn.subject := EmptyString;
                Turn.description := JS.trim rawText |}).
Proof.
  intros Hp rawText. unfold Turn.processChunk. rewrite Hp.
  exists (Turn.parseThought rawText). simpl. split; [reflexivity|]. split.
  - intros pre g post E Hpre Hg. rewrite E. now apply parseThought_marked.
  - apply parseThought_unmarked.
Qed.

Lemma handleFunctionCalls_requests fns t :
  let '(evs, t') := Turn.handleFunctionCalls ambient fns t in
  Turn.pendingToolCalls t' =
    (Turn.pendingToolCalls t ++ Turn.toolCallRequests evs)%list
  /\ Turn.debugResponses t' = Turn.debugResponses t.
Proof.
  revert t. induction fns as [|f fns IH]; intros t; simpl.
  - now rewrite app_nil_r.
  - specialize (IH {| Turn.pendingToolCalls :=
                        (Turn.pendingToolCalls t
                         ++ [Turn.requestOf
                               (ambient (length (Turn.pendingToolCalls t))) f])%list;
                      Turn.debugResponses := Turn.debugResponses t |}).
    destruct (Turn.handleFunctionCalls ambient fns _) as [evs t2].
    simpl in *. destruct IH as [IH1 IH2]. rewrite IH1, <- app_assoc.
    split; [reflexivity | exact IH2].
Qed.

(** C6, as amended.  The call id of a request is the backend's id when
    the function call has one, and otherwise the tool name, the clock and
    the random suffix joined by hyphens; two function calls without an id,
    in two chunks of one turn, yield two requests whose generated call ids
    are equal exactly when tool name, clock and random suffix all agree. *)
Theorem callId_backend_or_generated :
  (forall (a : Turn.Ambient) (fnCall : FunctionCall) (t : Turn.Turn),
      exists r,
        Turn.handlePendingFunctionCall a fnCall t
        = (Turn.ToolCallRequest r,
           {| Turn.pendingToolCalls := (Turn.pendingToolCalls t ++ [r])%list;
              Turn.debugResponses := Turn.debugResponses t |})
        /\ Turn.callId r =
           match Genai.id fnCall with
           | Some backendId => backendId
           | None =>
               Turn.templateName (Genai.name fnCall) ++ "-"
               ++ JS.decimal (Turn.now a) ++ "-" ++ Turn.randomSuffix a
           end)
  /\ (forall (resp1 resp2 : GenerateContentResponse) (f1 f2 : FunctionCall),
         Turn.thoughtPart resp1 = None -> functionCalls resp1 = Some [f1] ->
         Turn.thoughtPart resp2 = None -> functionCalls resp2 = Some [f2] ->
         Genai.id f1 = None -> Genai.id f2 = None ->
         let '(evs, t) :=
           Turn.run getResponseText ambient [(false, resp1); (false, resp2)]
             Turn.new in
         exists r1 r2,
           Turn.toolCallRequests evs = [r1; r2]
           /\ Turn.pendingToolCalls t = [r1; r2]
           /\ Turn.callId r1 = Turn.generatedCallId (Genai.name f1) (ambient 0)
           /\ Turn.callId r2 = Turn.generatedCallId (Genai.name f2) (ambient 1)
           /\ (Turn.callId r1 = Turn.callId r2 <->
               Turn.templateName (Genai.name f1) = Turn.templateName (Genai.name f2)
               /\ Turn.now (ambient 0) = Turn.now (ambient 1)
               /\ Turn.random (ambient 0) = Turn.random (ambient 1))).
Proof.
  split.
  - intros a fnCall t. exists (Turn.requestOf a fnCall). split; [reflexivity|].
    unfold Turn.requestOf; simpl. destruct (Genai.id fnCall); reflexivity.
  - intros resp1 resp2 f1 f2 T1 F1 T2 F2 I1 I2.
    unfold Turn.run, Turn.processChunk. rewrite T1, T2, F1, F2.
    cbn -[Turn.requestOf].
    exists (Turn.requestOf (ambient 0) f1), (Turn.requestOf (ambient 1) f2).
    assert (C1 : Turn.callId (Turn.requestOf (ambient 0) f1)
                 = Turn.generatedCallId (Genai.name f1) (ambient 0))
      by (unfold Turn.requestOf; simpl; now rewrite I1).
    assert (C2 : Turn.callId (Turn.requestOf (ambient 1) f2)
                 = Turn.generatedCallId (Genai.name f2) (ambient 1))
      by (unfold Turn.requestOf; simpl; now rewrite I2).
    split; [|split; [reflexivity|split; [exact C1|split; [exact C2|]]]].
    + destruct (getResponseText resp1) as [x1|]; [destruct (JS.truthy x1)|];
        (destruct (getResponseText resp2) as [x2|]; [destruct (JS.truthy x2)|]);
        reflexivity.
    + rewrite C1, C2. apply generatedCallId_inj.
Qed.

End TurnFacts.

(** Sample chunks: a thought part, and a function call without an id. *)
Definition thoughtChunk (t : string) : Genai.GenerateContentResponse :=
  {| Genai.candidates :=
       Some [ {| Genai.content :=
                   Some {| Genai.role := "model";
                           Genai.parts :=
                             Some [ {| Genai.thought := true;
                                       Genai.text := Some t |} ] |} |} ];
     Genai.functionCalls := None |}.

Definition callWithoutId (n : string) : Genai.FunctionCall :=
  {| Genai.id := None; Genai.name := Some n; Genai.args := None |}.

Definition callChunk (n : string) : Genai.GenerateContentResponse :=
  {| Genai.candidates := None;
     Genai.functionCalls := Some [callWithoutId n] |}.

Definition noResponseText (_ : Genai.GenerateContentResponse) : option string :=
  None.

(** A clock that advances by one millisecond per generated id, and a clock
    and random source that stand still. *)
Definition tickingAmbient (k : nat) : Turn.Ambient :=
  {| Turn.now := (1700000000000 + N.of_nat k)%N;
     Turn.random := Hexadecimal.D8 (Hexadecimal.Df Hexadecimal.Nil) |}.

Definition frozenAmbient (_ : nat) : Turn.Ambient :=
  {| Turn.now := 1700000000000%N;
     Turn.random := Hexadecimal.D8 (Hexadecimal.Df Hexadecimal.Nil) |}.

Lemma thought_event_witness :
  (exists th,
      fst (Turn.processChunk noResponseText frozenAmbient
             (thoughtChunk "**Plan** do it") Turn.new) = [Turn.Thought th]
      /\ th = {| Turn.subject := "Plan"; Turn.description := "do it" |})
  /\ (exists th,
         fst (Turn.processChunk noResponseText frozenAmbient
                (thoughtChunk " a") Turn.new) = [Turn.Thought th]
         /\ th = {| Turn.subject := EmptyString; Turn.description := "a" |}).
Proof.
  split.
  - destruct (thought_event_subject_description noResponseText frozenAmbient
                (thoughtChunk "**Plan** do it")
                {| Genai.thought := true; Genai.text := Some "**Plan** do it" |}
                Turn.new eq_refl) as (th & E & Hm & _).
    exists th. split; [exact E|].
    apply (Hm EmptyString "Plan" " do it"); reflexivity.
  - destruct (thought_event_subject_description noResponseText frozenAmbient
                (thoughtChunk " a")
                {| Genai.thought := true; Genai.text := Some " a" |}
                Turn.new eq_refl) as (th & E & _ & Hu).
    exists th. split; [exact E|].
    apply Hu. intros pre g post H.
    destruct pre as [|c1 [|c2 [|c3 pre]]]; simpl in H; discriminate.
Defined.

(** C7 as stated fails: a fragment without markers that begins with a
    space does not come back whole as the description, and the subject of a
    span is not the text between the markers when that text has spaces
    around it. *)
Lemma thought_text_is_trimmed :
  (forall pre g post, " a" <> pre ++ "**" ++ g ++ "**" ++ post)
  /\ Turn.description (Turn.parseThought " a") <> " a"
  /\ Turn.subject (Turn.parseThought "** x **") <> " x ".
Proof.
  split; [|split].
  - intros pre g post H.
    destruct pre as [|c1 [|c2 [|c3 pre]]]; simpl in H; discriminate.
  - vm_compute. discriminate.
  - vm_compute. discriminate.
Qed.

Lemma callId_witness :
  let '(evs, t) :=
    Turn.run noResponseText tickingAmbient
      [(false, callChunk "ls"); (false, callChunk "ls")] Turn.new in
  exists r1 r2,
    Turn.toolCallRequests evs = [r1; r2]
    /\ Turn.pendingToolCalls t = [r1; r2]
    /\ Turn.callId r1 = Turn.generatedCallId (Some "ls") (tickingAmbient 0)
    /\ Turn.callId r2 = Turn.generatedCallId (Some "ls") (tickingAmbient 1)
    /\ (Turn.callId r1 = Turn.callId r2 <->
        Turn.templateName (Some "ls") = Turn.templateName (Some "ls")
        /\ Turn.now (tickingAmbient 0) = Turn.now (tickingAmbient 1)
        /\ Turn.random (tickingAmbient 0) = Turn.random (tickingAmbient 1)).
Proof.
  exact (proj2 (callId_backend_or_generated noResponseText tickingAmbient)
           (callChunk "ls") (callChunk "ls")
           (callWithoutId "ls") (callWithoutId "ls")
           eq_refl eq_refl eq_refl eq_refl eq_refl eq_refl).
Defined.

(** C6 as stated fails: two function calls without an id, for the same
    tool, read in the same millisecond with the same random draw, receive
    the same call id. *)
Lemma generated_callIds_collide :
  exists r1 r2,
    Turn.pendingToolCalls
      (snd (Turn.run noResponseText frozenAmbient
              [(false, callChunk "ls"); (false, callChunk "ls")] Turn.new))
    = [r1; r2]
    /\ Turn.callId r1 = Turn.callId r2.
Proof.
  eexists. eexists. split; reflexivity.
Qed.

(** ** The driver loop *)

Section DriverFacts.
Import Genai.
Import Client.

Variable getResponseText : GenerateContentResponse -> option string.
Variable env : nat -> TurnScript.

Lemma sendMessageStream_zero fuel depth request :
  sendMessageStream getResponseText env (S fuel) depth request 0 =
  {| events := []; interactions := []; budgets := [0%Z];
     returned := Some Turn.new |}.
Proof. reflexivity. Qed.

Lemma sendMessageStream_bounded fuel :
  forall depth request turns,
    (0 <= turns)%Z ->
    (Z.to_nat (Z.min turns MAX_TURNS) < fuel)%nat ->
    let r := sendMessageStream getResponseText env fuel depth request turns in
    returned r <> None
    /\ (length (budgets r) <= S (Z.to_nat (Z.min turns MAX_TURNS)))%nat
    /\ (backendTurns r <= Z.to_nat (Z.min turns MAX_TURNS))%nat
    /\ (exists rest, budgets r = turns :: rest)
    /\ oneUnitEach (budgets r).
Proof.
  unfold MAX_TURNS.
  induction fuel as [|fuel IH]; intros depth request turns Hpos Hfuel.
  - lia.
  - cbn [sendMessageStream]. unfold MAX_TURNS.
    destruct (Z.eqb_spec (Z.min turns 100) 0) as [E|E].
    + cbn. repeat split; try discriminate; try lia. now exists [].
    + destruct (Turn.run getResponseText (ambient (env depth))
                  (stream (env depth)) Turn.new) as [turnEvents turn].
      assert (Hb : (1 <= Z.min turns 100 <= 100)%Z) by lia.
      destruct ((length (Turn.pendingToolCalls turn) =? 0)%nat
                && negb (abortedAfter (env depth))).
      * destruct (nextSpeakerCheck (env depth)) as [[|]|].
        -- cbn. repeat split; try discriminate; try lia. now exists [].
        -- specialize (IH (S depth) pleaseContinue (Z.min turns 100 - 1)%Z).
           assert (Hm : Z.min (Z.min turns 100 - 1) 100 = (Z.min turns 100 - 1)%Z)
             by lia.
           rewrite Hm in IH.
           destruct IH as (R & L & B & (rest & Hrest) & O); try lia.
           set (r := sendMessageStream getResponseText env fuel (S depth)
                       pleaseContinue (Z.min turns 100 - 1)) in *.
           cbn. unfold backendTurns in *. cbn.
           split; [destruct (returned r); [discriminate | contradiction]|].
           split; [lia|]. split; [lia|]. split; [now exists (budgets r)|].
           rewrite Hrest in *. cbn. split; [reflexivity | exact O].
        -- cbn. repeat split; try discriminate; try lia. now exists [].
      * cbn. repeat split; try discriminate; try lia. now exists [].
Qed.

(** C4.  For a turn budget, a count of turns and so not negative, the call
    returns, makes at most [min(turns, 100)] recursive calls and sends at
    most that many turns to the backend; every recursive call receives
    the bounded budget of its caller less one; and a call with budget zero
    returns a fresh turn at once, with no event and no interaction. *)
Theorem sendMessageStream_budget (depth : nat) (request : list Part) (turns : Z) :
  (0 <= turns)%Z ->
  (forall fuel,
      (Z.to_nat (Z.min turns MAX_TURNS) < fuel)%nat ->
      let r := sendMessageStream getResponseText env fuel depth request turns in
      returned r <> None
      /\ (Z.of_nat (continuations r) <= Z.min turns MAX_TURNS)%Z
      /\ (Z.of_nat (backendTurns r) <= Z.min turns MAX_TURNS)%Z
      /\ oneUnitEach (budgets r))
  /\ (forall fuel,
         sendMessageStream getResponseText env (S fuel) depth request 0 =
         {| events := []; interactions := []; budgets := [0%Z];
            returned := Some Turn.new |}).
Proof.
  intros Hpos. split; [|intros; apply sendMessageStream_zero].
  intros fuel Hfuel.
  destruct (sendMessageStream_bounded fuel depth request turns Hpos Hfuel)
    as (R & L & B & _ & O).
  cbv zeta. unfold continuations, MAX_TURNS in *.
  repeat split; auto; lia.
Qed.

End DriverFacts.

(** A backend that never asks for a tool and always wants to go on. *)
Definition alwaysContinue (_ : nat) : Client.TurnScript :=
  {| Client.compressed := None;
     Client.stream := [];
     Client.ambient := frozenAmbient;
     Client.abortedAfter := false;
     Client.nextSpeakerCheck := Some Client.model |}.

Lemma sendMessageStream_budget_witness :
  let r := Client.sendMessageStream noResponseText alwaysContinue 2 0 [] 1 in
  Client.returned r <> None
  /\ (Z.of_nat (Client.continuations r) <= Z.min 1 Client.MAX_TURNS)%Z
  /\ (Z.of_nat (Client.backendTurns r) <= Z.min 1 Client.MAX_TURNS)%Z
  /\ Client.oneUnitEach (Client.budgets r).
Proof.
  apply (proj1 (sendMessageStream_budget noResponseText alwaysContinue 0 [] 1
                  ltac:(lia)) 2%nat).
  vm_compute. lia.
Defined.

(** Scenario D: with a budget of one and a backend that always wants to
    continue, one turn is sent and the single recursive call returns at
    once. *)
Example budget_one_runs_one_turn :
  let r := Client.sendMessageStream noResponseText alwaysContinue 5 0 [] 1 in
  Client.budgets r = [1%Z; 0%Z]
  /\ Client.backendTurns r = 1%nat
  /\ Client.returned r = Some Turn.new.
Proof. vm_compute. auto. Qed.

(** Why the budget is taken as a count: the loop stops on
    [!Math.min(turns, 100)], which holds of zero only.  No caller passes a
    negative number (the default is [MAX_TURNS], and the recursive call
    passes the bounded budget less one only when it is not zero); with one,
    and a backend that always wants to continue, every unit of fuel would be
    spent on one more call. *)
Lemma negative_budget_never_returns (fuel : nat) :
  forall depth request turns,
    (turns < 0)%Z ->
    let r := Client.sendMessageStream noResponseText alwaysContinue fuel depth
               request turns in
    Client.returned r = None /\ length (Client.budgets r) = fuel.
Proof.
  induction fuel as [|fuel IH]; intros depth request turns Hneg.
  - split; reflexivity.
  - cbn [Client.sendMessageStream]. unfold Client.MAX_TURNS.
    destruct (Z.eqb_spec (Z.min turns 100) 0) as [E|E]; [lia|].
    cbn. destruct (IH (S depth) Client.pleaseContinue (Z.min turns 100 - 1)%Z)
      as [R L]; [lia|].
    unfold Client.MAX_TURNS in *. rewrite R, L. split; reflexivity.
Qed.

(** ** The tool-call scheduler *)

Section SchedulerFacts.
Import Scheduler.

Variable PartListUnion : Type.
Variable createErrorResponse :
  Turn.ToolCallRequestInfo -> Thrown -> ToolCallResponseInfo PartListUnion.
Variable convertToFunctionResponse : string -> string -> string -> PartListUnion.

Local Abbreviation Sched := (CoreToolScheduler PartListUnion).
Local Abbreviation Call := (ToolCall PartListUnion).
Local Abbreviation setStatus := (@setStatusInternal PartListUnion).

Lemma setStatus_toolCalls cid ns aux (s : Sched) :
  toolCalls (setStatus cid ns aux s) = map (moved cid ns aux) (toolCalls s).
Proof. reflexivity. Qed.

Lemma moved_terminal cid ns aux (c : Call) :
  terminal (status c) = true -> moved cid ns aux c = c.
Proof. unfold moved. intros ->. now rewrite andb_false_r. Qed.

Lemma moved_request cid ns aux (c : Call) :
  request (moved cid ns aux c) = request c.
Proof. unfold moved. destruct (_ && _); reflexivity. Qed.

Lemma moved_tool cid ns aux (c : Call) :
  tool (moved cid ns aux c) = tool c.
Proof. unfold moved. destruct (_ && _); reflexivity. Qed.



(** The records a scheduler operation leaves in place: same length, every
    record keeps its request and tool, a terminal record is untouched. *)
Definition keeps (s s' : Sched) : Prop :=
  toolRegistry s' = toolRegistry s
  /\ approvalMode s' = approvalMode s
  /\ length (toolCalls s') = length (toolCalls s)
  /\ forall i c, nth_error (toolCalls s) i = Some c ->
       exists c', nth_error (toolCalls s') i = Some c'
                  /\ request c' = request c
                  /\ tool c' = tool c
                  /\ (terminal (status c) = true -> c' = c).

Lemma keeps_refl s : keeps s s.
Proof.
  repeat split; auto. intros i c H. exists c. auto.
Qed.

Lemma keeps_trans s1 s2 s3 : keeps s1 s2 -> keeps s2 s3 -> keeps s1 s3.
Proof.
  intros (R1 & A1 & L1 & K1) (R2 & A2 & L2 & K2).
  repeat split; try congruence.
  intros i c H.
  destruct (K1 i c H) as (c' & H' & Q1 & T1 & E1).
  destruct (K2 i c' H') as (c'' & H'' & Q2 & T2 & E2).
  exists c''. repeat split; try congruence.
  intros Ht. specialize (E1 Ht). subst c'. auto.
Qed.

Lemma keeps_setStatus cid ns aux s : keeps s (setStatus cid ns aux s).
Proof.
  repeat split; auto.
  - rewrite setStatus_toolCalls. apply length_map.
  - intros i c H. exists (moved cid ns aux c).
    rewrite setStatus_toolCalls, nth_error_map, H. simpl.
    repeat split; auto using moved_request, moved_tool, moved_terminal.
Qed.

Lemma keeps_withExecutions s l : keeps s (withExecutions s l).
Proof.
  repeat split; auto. intros i c H. exists c. auto.
Qed.

Lemma keeps_process ab s c :
  keeps s (processNewToolCall createErrorResponse ab s c).
Proof.
  unfold processNewToolCall.
  destruct (status c); try apply keeps_refl.
  destruct (tool c) as [t|]; try apply keeps_refl.
  destruct (approvalMode s); try apply keeps_setStatus;
    destruct (shouldConfirmExecute t _ ab) as [[d|]|e]; apply keeps_setStatus.
Qed.

Lemma keeps_fold_process ab l : forall s,
  keeps s (fold_left (processNewToolCall createErrorResponse ab) l s).
Proof.
  induction l as [|c l IH]; intros s; simpl.
  - apply keeps_refl.
  - eapply keeps_trans; [apply keeps_process | apply IH].
Qed.

Lemma keeps_executeEach l : forall s,
  keeps s (snd (executeEach l s)).
Proof.
  induction l as [|c l IH]; intros s; simpl.
  - apply keeps_refl.
  - destruct (tool c) as [t|]; simpl.
    + eapply keeps_trans; [apply keeps_setStatus|].
      eapply keeps_trans; [|apply IH]. apply keeps_withExecutions.
    + apply keeps_setStatus.
Qed.

(** A record that can still run holds the tool registered under its
    request's name. *)
Definition toolsFromRegistry (s : Sched) : Prop :=
  forall i c, nth_error (toolCalls s) i = Some c ->
    terminal (status c) = true
    \/ tool c = toolRegistry s (Turn.name (request c)).

Lemma keeps_toolsFromRegistry s s' :
  keeps s s' -> toolsFromRegistry s -> toolsFromRegistry s'.
Proof.
  intros (R & _ & L & K) Inv i c' H'.
  destruct (nth_error (toolCalls s) i) as [c|] eqn:H.
  - destruct (K i c H) as (c1 & H1 & Q & T & E).
    rewrite H' in H1. inversion H1; subst c1. clear H1.
    destruct (Inv i c H) as [Ht | Hr].
    + left. now rewrite (E Ht).
    + right. now rewrite T, Q, R.
  - apply nth_error_None in H. rewrite <- L in H.
    apply nth_error_None in H. congruence.
Qed.

Lemma isRunning_false_terminal (s : Sched) :
  isRunning s = false ->
  forall i c, nth_error (toolCalls s) i = Some c -> terminal (status c) = true.
Proof.
  unfold isRunning. intros H i c Hc.
  apply nth_error_In in Hc.
  destruct (terminal (status c)) eqn:T; auto.
  assert (X : existsb (fun c => negb (terminal (status c))) (toolCalls s) = true).
  { apply existsb_exists. exists c. now rewrite T. }
  congruence.
Qed.

Lemma newToolCall_fromRegistry reg now r :
  terminal (status (newToolCall createErrorResponse reg now r)) = true
  \/ tool (newToolCall createErrorResponse reg now r)
     = reg (Turn.name (request (newToolCall createErrorResponse reg now r))).
Proof.
  unfold newToolCall. destruct (reg (Turn.name r)) eqn:E; simpl; auto.
Qed.

(** The executions [executeEach] adds are of the given records' tools. *)
Lemma executeEach_executions l : forall (s : Sched),
  exists added,
    executions (snd (executeEach l s)) = (executions s ++ added)%list
    /\ Forall (fun ex => exists c, In c l /\ tool c = Some (exTool ex)
                                   /\ exRequest ex = request c) added.
Proof.
  induction l as [|c l IH]; intros s.
  - exists []. simpl. now rewrite app_nil_r.
  - cbn [executeEach]. destruct (tool c) as [t|] eqn:T.
    + match goal with
      | |- context [executeEach l ?s0] => destruct (IH s0) as (added & E & F)
      end.
      exists ({| exTool := t; exRequest := request c; settled := false |} :: added).
      split.
      * rewrite E. simpl. now rewrite <- app_assoc.
      * constructor.
        -- exists c. simpl. auto.
        -- eapply Forall_impl; [|exact F]. simpl.
           intros ex (c0 & I & X). exists c0. auto.
    + exists []. simpl. rewrite app_nil_r. split; auto.
Qed.

(** C3.  While the scheduler holds a record that is not in a terminal
    state, [schedule] throws and leaves the scheduler as it is. *)
Theorem schedule_rejects_while_running
    (now : N) (ab : bool) (r : ScheduleRequest) (s : Sched) :
  (exists c, In c (toolCalls s) /\ terminal (status c) = false) ->
  schedule createErrorResponse now ab r s = (Throw alreadyRunning, s).
Proof.
  intros (c & I & T). unfold schedule.
  assert (R : isRunning s = true).
  { apply existsb_exists. exists c. now rewrite T. }
  now rewrite R.
Qed.

(** The record [schedule] creates for a request whose tool is not
    registered. *)
Definition unknownToolRecord (reqInfo : Turn.ToolCallRequestInfo) : Call :=
  {| status := error; request := reqInfo; tool := None;
     response := Some (createErrorResponse reqInfo (toolNotFound reqInfo));
     confirmationDetails := None; cancelReason := None;
     startTime := None; durationMs := Some 0%N |}.

Lemma schedule_intake (now : N) (ab : bool) (r : ScheduleRequest) (s : Sched) :
  isRunning s = false ->
  let s' := snd (schedule createErrorResponse now ab r s) in
  keeps (withToolCalls s
           (toolCalls s
            ++ map (newToolCall createErrorResponse (toolRegistry s) now)
                 (requestsToProcess r))%list) s'
  /\ exists added,
       executions s' = (executions s ++ added)%list
       /\ Forall (fun ex => toolRegistry s (Turn.name (exRequest ex))
                            = Some (exTool ex)) added.
Proof.
  intros R. unfold schedule. rewrite R.
  set (new := map (newToolCall createErrorResponse (toolRegistry s) now)
                (requestsToProcess r)).
  set (s1 := withToolCalls s (toolCalls s ++ new)%list).
  set (s2 := fold_left (processNewToolCall createErrorResponse ab) new s1).
  assert (K12 : keeps s1 s2) by apply keeps_fold_process.
  assert (I1 : toolsFromRegistry s1).
  { intros i c H. unfold s1 in H. simpl in H.
    destruct (lt_dec i (length (toolCalls s))) as [L|L].
    - rewrite nth_error_app1 in H by assumption.
      left. eapply isRunning_false_terminal; eauto.
    - rewrite nth_error_app2 in H by lia.
      unfold new in H. rewrite nth_error_map in H.
      destruct (nth_error (requestsToProcess r) _) as [q|]; try discriminate.
      simpl in H. inversion H; subst c.
      apply newToolCall_fromRegistry. }
  assert (I2 : toolsFromRegistry s2) by (eapply keeps_toolsFromRegistry; eauto).
  unfold attemptExecutionOfScheduledCalls. cbv zeta. split.
  - eapply keeps_trans; [exact K12 | apply keeps_executeEach].
  - destruct (executeEach_executions
                (filter (fun call => Status_eqb (status call) scheduled) (toolCalls s2)) s2)
      as (added & E & F).
    exists added. split.
    + rewrite E. destruct K12 as (_ & _ & _ & _).
      assert (X : executions s2 = executions s1).
      { unfold s2. clear. generalize s1. induction new as [|c l IH]; intros s0; simpl; auto.
        rewrite IH. unfold processNewToolCall.
        destruct (status c); auto. destruct (tool c); auto.
        destruct (approvalMode s0); auto;
          destruct (shouldConfirmExecute _ _ _) as [[?|]|?]; auto. }
      rewrite X. reflexivity.
    + eapply Forall_impl; [|exact F]. simpl.
      intros ex (c & I & T & Q).
      apply filter_In in I as [I S].
      apply In_nth_error in I as [i I].
      destruct (I2 i c I) as [Ht | Hr].
      * destruct (status c); simpl in *; discriminate.
      * rewrite Q, <- T, Hr.
        destruct K12 as (Rg & _). rewrite Rg. reflexivity.
Qed.

Lemma markSettled_nth k : forall (l : list Execution) j ex',
  nth_error (markSettled k l) j = Some ex' ->
  exists ex, nth_error l j = Some ex
             /\ exTool ex = exTool ex' /\ exRequest ex = exRequest ex'.
Proof.
  induction k as [|k IH]; intros [|e l] j ex' H; simpl in H.
  - destruct j; discriminate.
  - destruct j as [|j]; simpl in *.
    + inversion H; subst. exists e. auto.
    + exists ex'. auto.
  - destruct j; discriminate.
  - destruct j as [|j]; simpl in *.
    + exists ex'. auto.
    + apply IH. exact H.
Qed.

Lemma keeps_onSettled ab ex o (s : Sched) :
  keeps s (onSettled createErrorResponse convertToFunctionResponse ab ex o s).
Proof.
  unfold onSettled. destruct o; [destruct ab|]; apply keeps_setStatus.
Qed.

Lemma onSettled_executions ab ex o (s : Sched) :
  executions (onSettled createErrorResponse convertToFunctionResponse ab ex o s)
  = executions s.
Proof.
  unfold onSettled. destruct o; [destruct ab|]; reflexivity.
Qed.

Local Abbreviation step' :=
  (step createErrorResponse convertToFunctionResponse).
Local Abbreviation steps' :=
  (steps createErrorResponse convertToFunctionResponse).

Lemma step_keeps (w : World PartListUnion) e : keeps (sched w) (sched (step' w e)).
Proof.
  destruct e as [|k o]; simpl; [apply keeps_refl|].
  destruct (nth_error (executions (sched w)) k) as [ex|]; [|apply keeps_refl].
  destruct (settled ex); [apply keeps_refl|]. simpl.
  eapply keeps_trans; [apply keeps_onSettled | apply keeps_withExecutions].
Qed.

Lemma step_executions (w : World PartListUnion) e j ex' :
  nth_error (executions (sched (step' w e))) j = Some ex' ->
  exists ex, nth_error (executions (sched w)) j = Some ex
             /\ exTool ex = exTool ex' /\ exRequest ex = exRequest ex'.
Proof.
  destruct e as [|k o]; simpl; [eauto|].
  destruct (nth_error (executions (sched w)) k) as [ex|]; [|eauto].
  destruct (settled ex); [eauto|]. simpl.
  rewrite onSettled_executions. apply markSettled_nth.
Qed.

Lemma steps_keeps evs : forall w : World PartListUnion, keeps (sched w) (sched (steps' w evs)).
Proof.
  induction evs as [|e evs IH]; intros w; simpl.
  - apply keeps_refl.
  - eapply keeps_trans; [apply step_keeps | apply IH].
Qed.

Lemma steps_executions evs : forall (w : World PartListUnion) j ex',
  nth_error (executions (sched (steps' w evs))) j = Some ex' ->
  exists ex, nth_error (executions (sched w)) j = Some ex
             /\ exTool ex = exTool ex' /\ exRequest ex = exRequest ex'.
Proof.
  induction evs as [|e evs IH]; intros w j ex' H; simpl in H.
  - eauto.
  - destruct (IH _ _ _ H) as (ex1 & H1 & T1 & Q1).
    destruct (step_executions _ _ _ _ H1) as (ex0 & H0 & T0 & Q0).
    exists ex0. repeat split; congruence.
Qed.

(** C2.  A request of a batch that names a tool the registry does not
    hold gets a record in the [error] state, with the response made from
    [Tool "name" not found], as soon as [schedule] returns; the record stays
    as it is whatever happens later, and no [execute] that [schedule]
    invokes is for a request with that tool name. *)
Theorem unknown_tool_is_error_and_never_executed
    (now : N) (ab : bool) (r : ScheduleRequest) (s : Sched)
    (i : nat) (reqInfo : Turn.ToolCallRequestInfo) :
  isRunning s = false ->
  nth_error (requestsToProcess r) i = Some reqInfo ->
  toolRegistry s (Turn.name reqInfo) = None ->
  forall (ab' : bool) (evs : list (Event)),
    let w := steps' {| sched := snd (schedule createErrorResponse now ab r s);
                       aborted := ab' |} evs in
    nth_error (toolCalls (sched w)) (length (toolCalls s) + i)
    = Some (unknownToolRecord reqInfo)
    /\ forall k ex,
         nth_error (executions (sched w)) k = Some ex ->
         length (executions s) <= k ->
         Turn.name (exRequest ex) <> Turn.name reqInfo.
Proof.
  intros R Hi Hreg ab' evs w.
  destruct (schedule_intake now ab r s R) as (K & added & E & F).
  set (s' := snd (schedule createErrorResponse now ab r s)) in *.
  split.
  - assert (K' : keeps (withToolCalls s
                          (toolCalls s
                           ++ map (newToolCall createErrorResponse (toolRegistry s) now)
                                (requestsToProcess r))%list) (sched w)).
    { eapply keeps_trans; [exact K|]. apply (steps_keeps evs {| sched := s'; aborted := ab' |}). }
    destruct K' as (_ & _ & _ & K').
    destruct (K' (length (toolCalls s) + i) (unknownToolRecord reqInfo))
      as (c' & H' & _ & _ & Eq).
    + simpl. rewrite nth_error_app2 by lia.
      replace (length (toolCalls s) + i - length (toolCalls s)) with i by lia.
      rewrite nth_error_map, Hi. simpl.
      unfold newToolCall, unknownToolRecord. now rewrite Hreg.
    + rewrite H'. f_equal. apply Eq. reflexivity.
  - intros k ex Hk Hlen Hname.
    destruct (steps_executions evs {| sched := s'; aborted := ab' |} k ex Hk)
      as (ex0 & H0 & T0 & Q0).
    simpl in H0. rewrite E in H0.
    rewrite nth_error_app2 in H0 by assumption.
    apply nth_error_In in H0.
    rewrite Forall_forall in F. specialize (F _ H0).
    rewrite Q0, Hname, Hreg in F. discriminate.
Qed.





End SchedulerFacts.

(** A sample scheduler: responses are plain strings, the registry holds
    the one tool [ls], and every call is approved ([YOLO]). *)
Definition sampleErrorResponse (reqInfo : Turn.ToolCallRequestInfo) (e : Thrown)
  : Scheduler.ToolCallResponseInfo string :=
  {| Scheduler.rCallId := Turn.callId reqInfo;
     Scheduler.responseParts := messageOf e;
     Scheduler.resultDisplay := Some (messageOf e);
     Scheduler.rError := Some e |}.

Definition sampleFunctionResponse (toolName callId llmContent : string) : string :=
  llmContent.

Definition lsTool : Scheduler.Tool :=
  {| Scheduler.toolName := "ls";
     Scheduler.shouldConfirmExecute := fun _ _ => Return None |}.

Definition sampleRegistry (n : string) : option Scheduler.Tool :=
  if String.eqb n "ls" then Some lsTool else None.

Definition idleScheduler : Scheduler.CoreToolScheduler string :=
  {| Scheduler.toolCalls := [];
     Scheduler.approvalMode := Scheduler.YOLO;
     Scheduler.toolRegistry := sampleRegistry;
     Scheduler.executions := [] |}.

Definition sampleRequest (cid n : string) : Turn.ToolCallRequestInfo :=
  {| Turn.callId := cid; Turn.name := n; Turn.args := [];
     Turn.isClientInitiated := false |}.

(** The scheduler after a batch of a known and an unknown tool. *)
Definition busyScheduler : Scheduler.CoreToolScheduler string :=
  snd (Scheduler.schedule sampleErrorResponse 0 false
         (Scheduler.Many [sampleRequest "c1" "ls"; sampleRequest "c2" "rm"])
         idleScheduler).

Example busyScheduler_statuses :
  map Scheduler.status (Scheduler.toolCalls busyScheduler)
  = [Scheduler.executing; Scheduler.error]
  /\ map Scheduler.exRequest (Scheduler.executions busyScheduler)
     = [sampleRequest "c1" "ls"].
Proof. vm_compute. auto. Qed.


(** C1, on the code.  A batch with a call of the tool [ls] is submitted and
    no execution has settled (the record is [executing]); the signal is
    aborted, and the [execute] promise of the call then rejects.  The record
    ends in [error]: the [catch] callback does not test [signal.aborted].
    Had the same promise resolved, the [then] callback, which makes the
    test, would have left the record [cancelled]. *)
Lemma aborted_then_rejected_is_error :
  let w := {| Scheduler.sched := busyScheduler; Scheduler.aborted := false |} in
  Scheduler.statusAt (Scheduler.sched w) 0 = Some Scheduler.executing
  /\ map Scheduler.settled (Scheduler.executions (Scheduler.sched w)) = [false]
  /\ Scheduler.statusAt
       (Scheduler.sched
          (Scheduler.steps sampleErrorResponse sampleFunctionResponse w
             [Scheduler.Abort;
              Scheduler.Settle 0 (Scheduler.Rejected (ErrorObj "boom"))])) 0
     = Some Scheduler.error
  /\ Scheduler.statusAt
       (Scheduler.sched
          (Scheduler.steps sampleErrorResponse sampleFunctionResponse w
             [Scheduler.Abort;
              Scheduler.Settle 0
                (Scheduler.Resolved
                   {| Scheduler.llmContent := "a.txt";
                      Scheduler.returnDisplay := "a.txt" |})])) 0
     = Some Scheduler.cancelled.
Proof. vm_compute. auto. Qed.

Lemma unknown_tool_witness :
  nth_error (Scheduler.toolCalls busyScheduler) 1
  = Some (unknownToolRecord string sampleErrorResponse (sampleRequest "c2" "rm"))
  /\ forall k ex,
       nth_error (Scheduler.executions busyScheduler) k = Some ex ->
       0 <= k ->
       Turn.name (Scheduler.exRequest ex) <> "rm".
Proof.
  exact (unknown_tool_is_error_and_never_executed string sampleErrorResponse
           sampleFunctionResponse 0%N false
           (Scheduler.Many [sampleRequest "c1" "ls"; sampleRequest "c2" "rm"])
           idleScheduler 1 (sampleRequest "c2" "rm")
           eq_refl eq_refl eq_refl false []).
Defined.

Lemma schedule_rejects_witness :
  Scheduler.schedule sampleErrorResponse 7 false
    (Scheduler.One (sampleRequest "c3" "ls")) busyScheduler
  = (Throw Scheduler.alreadyRunning, busyScheduler).
Proof.
  apply schedule_rejects_while_running.
  exists (Scheduler.transition Scheduler.executing Scheduler.NoData
            (Scheduler.transition Scheduler.scheduled Scheduler.NoData
               (Scheduler.newToolCall sampleErrorResponse sampleRegistry 0
                  (sampleRequest "c1" "ls")))).
  split; [left; reflexivity | reflexivity].
Defined.

(** ** The two agents and the orchestrator *)

Section MoreStringFacts.
Import JS.

Lemma split_lines_nonempty s : split_lines s <> [].
Proof.
  destruct s as [|c s]; simpl; [discriminate|].
  destruct (Ascii.eqb c LF); [discriminate|].
  destruct (split_lines s); discriminate.
Qed.

Lemma blank_split_lines s : blank s = forallb blank (split_lines s).
Proof.
  induction s as [|c s IH]; simpl; [reflexivity|].
  destruct (Ascii.eqb_spec c LF) as [->|N].
  - simpl. exact IH.
  - pose proof (split_lines_nonempty s) as NE.
    destruct (split_lines s) as [|h t]; [contradiction|].
    simpl in *. rewrite IH. now rewrite andb_assoc.
Qed.

Lemma filter_nil_forallb {A} (f : A -> bool) l :
  filter f l = [] <-> forallb (fun x => negb (f x)) l = true.
Proof.
  induction l as [|x l IH]; simpl; [tauto|].
  destruct (f x); simpl; [split; discriminate | exact IH].
Qed.

End MoreStringFacts.

Lemma nextSteps_nonempty (plan : string) :
  Agents.nextStepsOf plan <> [] <-> JS.blank plan = false.
Proof.
  unfold Agents.nextStepsOf.
  rewrite blank_split_lines.
  assert (E : forallb (fun x => negb (JS.truthy (JS.trim x))) (JS.split_lines plan)
              = forallb JS.blank (JS.split_lines plan)).
  { induction (JS.split_lines plan) as [|x l IH]; simpl; [reflexivity|].
    now rewrite IH, truthy_trim, negb_involutive. }
  rewrite <- E.
  pose proof (filter_nil_forallb (fun step => JS.truthy (JS.trim step))
                (JS.split_lines plan)) as F.
  destruct (forallb _ _); split; intros H; try congruence.
  - exfalso. apply H. now apply F.
  - intros X. apply F in X. discriminate.
Qed.

Section AgentFacts.
Import Genai.
Import Agents.

Variable PartListUnion : Type.
Variable env : Env.
Variable createErrorResponse :
  Turn.ToolCallRequestInfo -> Thrown -> Scheduler.ToolCallResponseInfo PartListUnion.
Variable getMainAgentSystemPrompt : string.

Local Abbreviation St := (State PartListUnion).
Local Abbreviation Msg := (AgentA2AMessage PartListUnion).
Local Abbreviation Mo := (M PartListUnion).
Local Abbreviation mainSend := (mainBusSend env createErrorResponse).
Local Abbreviation toolsSend := (toolsBusSend env createErrorResponse).

(** The computation ends, by a return or a throw, from every state. *)
Definition total {A} (c : Mo A) : Prop := forall s, c s <> None.

Lemma total_ret {A} (a : A) : total (ret a).
Proof. intros s. discriminate. Qed.

Lemma total_throw {A} e : total (@throw PartListUnion A e).
Proof. intros s. discriminate. Qed.

Lemma total_lift {A} (c : Completion A) : total (lift c).
Proof. intros s. discriminate. Qed.

Lemma total_get : total (@get PartListUnion).
Proof. intros s. discriminate. Qed.

Lemma total_tick : total (@tick PartListUnion).
Proof. intros s. discriminate. Qed.

Lemma total_bind {A B} (c : Mo A) (k : A -> Mo B) :
  total c -> (forall a, total (k a)) -> total (bind c k).
Proof.
  intros Hc Hk s. unfold bind. specialize (Hc s).
  destruct (c s) as [[[a|e] s']|]; [apply Hk | discriminate | contradiction].
Qed.

(** The same, when the continuation is only known to end on the values
    the first computation can return. *)
Lemma total_bind_on {A B} (c : Mo A) (k : A -> Mo B) (P : A -> Prop) :
  total c -> (forall s a s', c s = Some (Return a, s') -> P a) ->
  (forall a, P a -> total (k a)) -> total (bind c k).
Proof.
  intros Hc HP Hk s. unfold bind. specialize (Hc s).
  destruct (c s) as [[[a|e] s']|] eqn:E;
    [apply Hk; eapply HP; eauto | discriminate | contradiction].
Qed.

Lemma total_tryCatch {A} (c : Mo A) h :
  total c -> (forall e, total (h e)) -> total (tryCatch c h).
Proof.
  intros Hc Hh s. unfold tryCatch. specialize (Hc s).
  destruct (c s) as [[[a|e] s']|]; [discriminate | apply Hh | contradiction].
Qed.

Lemma total_detached (c : Mo unit) : total c -> total (detached c).
Proof. intros H. apply total_tryCatch; auto using total_ret. Qed.

Lemma total_now : total (now env (PartListUnion := PartListUnion)).
Proof. apply total_bind; auto using total_tick, total_ret. Qed.

Lemma total_callGenerateContent client contents :
  total (callGenerateContent (PartListUnion := PartListUnion) client contents).
Proof. apply total_bind; auto using total_tick, total_lift. Qed.

Ltac total_step :=
  first
    [ apply total_ret | apply total_throw | apply total_lift | apply total_get
    | apply total_tick | apply total_now | apply total_callGenerateContent
    | apply total_bind; [|intros ?]
    | apply total_tryCatch; [|intros ?]
    | apply total_detached
    | (intros ?; discriminate) ].

Lemma total_pushMainHistory items :
  total (pushMainHistory (PartListUnion := PartListUnion) items).
Proof.
  unfold pushMainHistory. apply total_bind; [apply total_get|].
  intros s. destruct (mainContext s); repeat total_step.
Qed.

Lemma total_handlePlanningRequest situation tools :
  total (handlePlanningRequest (PartListUnion := PartListUnion) env situation tools).
Proof. unfold handlePlanningRequest. repeat total_step. Qed.

Lemma total_handleToolExecutionResponse toolResults :
  total (handleToolExecutionResponse (PartListUnion := PartListUnion) env toolResults).
Proof.
  unfold handleToolExecutionResponse, generateFinalResponseFromToolResults.
  apply total_bind; [apply total_get|]. intros s.
  destruct (mainContext s); [|apply total_ret].
  apply total_bind; [repeat total_step|]. intros final.
  apply total_bind; [apply total_pushMainHistory|]. intros _.
  repeat total_step.
Qed.

Lemma total_mainProcessMessage (m : Msg) : total (mainProcessMessage env m).
Proof.
  unfold mainProcessMessage. destruct (payload m); try apply total_ret.
  - apply total_handleToolExecutionResponse.
  - apply total_bind; [apply total_handlePlanningRequest|]. intros; apply total_ret.
Qed.

(** What the main agent answers is never a tool-execution request. *)
Definition notExecutionRequest (m : Msg) : Prop :=
  match payload m with
  | ToolExecutionRequest _ _ => False
  | _ => True
  end.

Lemma mainProcessMessage_answer (m : Msg) s r s' :
  mainProcessMessage env m s = Some (Return (Some r), s') ->
  notExecutionRequest r /\ toAgent r = TOOLS.
Proof.
  unfold mainProcessMessage. destruct (payload m); try discriminate.
  - unfold handleToolExecutionResponse, bind, get.
    destruct (mainContext s); [|discriminate].
    destruct (generateFinalResponseFromToolResults env toolResults s)
      as [[[final|e] s1]|]; try discriminate.
    destruct (pushMainHistory _ s1) as [[[[]|e] s2]|]; try discriminate.
    unfold now, bind, tick, ret. simpl.
    intros H; inversion H; subst; simpl. split; exact I || reflexivity.
  - unfold bind at 1.
    destruct (handlePlanningRequest env situation availableTools s)
      as [[[x|e] s1]|] eqn:E; try discriminate.
    unfold ret. intros H; inversion H; subst.
    revert E. unfold handlePlanningRequest, bind at 1.
    destruct (callGenerateContent _ _ s) as [[[resp|e] s2]|]; try discriminate.
    unfold now, bind, tick, ret. simpl.
    intros H2; inversion H2; subst; simpl. split; exact I || reflexivity.
Qed.

(** Messages other than execution requests are not answered by the tools
    agent, whatever its bus function is. *)
Lemma toolsProcessMessage_silent send (m : Msg) s :
  notExecutionRequest m ->
  toolsProcessMessage env createErrorResponse send m s = Some (Return None, s).
Proof.
  unfold notExecutionRequest, toolsProcessMessage.
  destruct (payload m); intros H; try reflexivity. contradiction.
Qed.

Lemma total_pushMainBus (m : Msg) : total (pushMainBus m).
Proof. unfold pushMainBus. repeat total_step. Qed.

Lemma total_pushToolsBus (m : Msg) : total (pushToolsBus m).
Proof. unfold pushToolsBus. repeat total_step. Qed.

Lemma total_mainSend_plain fuel (m : Msg) :
  notExecutionRequest m -> total (mainSend (S fuel) m).
Proof.
  intros H. cbn [mainBusSend].
  apply total_bind; [apply total_pushMainBus|]. intros _.
  destruct (AgentType_eqb (toAgent m) TOOLS); [|apply total_ret].
  apply total_detached. intros s. unfold bind.
  rewrite toolsProcessMessage_silent by assumption. discriminate.
Qed.

Lemma total_toolsSend fuel (m : Msg) : total (toolsSend (S (S fuel)) m).
Proof.
  cbn [toolsBusSend].
  apply total_bind; [apply total_pushToolsBus|]. intros _.
  destruct (AgentType_eqb (toAgent m) MAIN); [|apply total_ret].
  apply total_detached.
  apply (total_bind_on _ _
           (fun r => match r with Some x => notExecutionRequest x | None => True end)).
  - apply total_mainProcessMessage.
  - intros s [r|] s' H; [|exact I].
    now apply mainProcessMessage_answer in H.
  - intros [r|] H; [|apply total_ret]. now apply total_mainSend_plain.
Qed.

Lemma total_invoke send cb (m : Msg) :
  (forall x, total (send x)) -> total (invoke send cb m).
Proof. intros H. destruct cb; simpl; [apply H | apply total_lift]. Qed.

Lemma total_scheduleToolCalls toolCalls :
  total (scheduleToolCalls env createErrorResponse toolCalls).
Proof.
  unfold scheduleToolCalls.
  apply total_bind; [apply total_tick|]. intros k.
  apply total_bind; [apply total_get|]. intros s.
  destruct (Scheduler.schedule _ _ _ _ _) as [r sched'].
  repeat total_step.
Qed.

Lemma total_handleToolExecutionRequest send (m : Msg) :
  (forall x, total (send x)) ->
  total (handleToolExecutionRequest env createErrorResponse send m).
Proof.
  intros H. unfold handleToolExecutionRequest, tryToolExecution.
  apply total_tryCatch; [|intros e; repeat total_step].
  apply total_bind.
  - unfold sendStatusUpdate. apply total_bind; [apply total_get|]. intros s.
    destruct (toolsCallback s); [|apply total_ret].
    apply total_bind; [apply total_now|]. intros t1.
    apply total_bind; [apply total_now|]. intros t2.
    now apply total_invoke.
  - intros _. apply total_bind.
    + unfold analyzeAndCreateToolCalls. repeat total_step.
    + intros toolCalls. apply total_bind; [apply total_scheduleToolCalls|].
      intros _. repeat total_step.
Qed.

Lemma total_toolsProcessMessage send (m : Msg) :
  (forall x, total (send x)) ->
  total (toolsProcessMessage env createErrorResponse send m).
Proof.
  intros H. unfold toolsProcessMessage.
  destruct (payload m); try apply total_ret.
  apply total_bind; [now apply total_handleToolExecutionRequest|].
  intros; apply total_ret.
Qed.

(** Three levels of routing are enough for every message. *)
Lemma total_mainSend fuel (m : Msg) : total (mainSend (S (S (S fuel))) m).
Proof.
  cbn [mainBusSend].
  apply total_bind; [apply total_pushMainBus|]. intros _.
  destruct (AgentType_eqb (toAgent m) TOOLS); [|apply total_ret].
  apply total_detached.
  apply total_bind.
  - apply total_toolsProcessMessage. intros x. apply total_toolsSend.
  - intros [r|]; [apply total_toolsSend | apply total_ret].
Qed.

Lemma total_mainHandleUserInput fuel userInput :
  total (mainHandleUserInput env getMainAgentSystemPrompt
           (mainSend (S (S (S fuel)))) userInput).
Proof.
  unfold mainHandleUserInput.
  apply total_bind; [apply total_get|]. intros s.
  destruct (mainContext s) as [context|]; [|apply total_throw].
  apply total_bind; [apply total_callGenerateContent|]. intros response.
  destruct (analyzeForToolExecution _ _).
  - apply total_bind.
    + unfold createToolExecutionRequest. repeat total_step.
    + intros toolRequest. apply total_bind; [apply total_get|]. intros s1.
      apply total_bind; [|intros; apply total_ret].
      destruct (mainCallback s1); [|apply total_ret].
      apply total_invoke. intros x. apply total_mainSend.
  - apply total_bind; [apply total_pushMainHistory | intros; apply total_ret].
Qed.

Lemma bind_returns {A B} (c : Mo A) (k : A -> Mo B) s b s' :
  bind c k s = Some (Return b, s') ->
  exists a s1, c s = Some (Return a, s1) /\ k a s1 = Some (Return b, s').
Proof.
  unfold bind. destruct (c s) as [[[a|e] s1]|]; try discriminate. eauto.
Qed.

(** C10.  On an initialized orchestrator [handleUserInput] returns a
    string and never throws: the main agent's answer when it returns one,
    and [Error: ] followed by the message of whatever it threw otherwise
    ([Unknown error] for a thrown value that is not an [Error]). *)
Theorem handleUserInput_never_throws (fuel : nat) (userInput : string) (s : St) :
  isInitialized s = true ->
  exists text s',
    handleUserInput env createErrorResponse getMainAgentSystemPrompt
      (3 + fuel) userInput s = Some (Return text, s')
    /\ match mainHandleUserInput env getMainAgentSystemPrompt
               (mainSend (3 + fuel)) userInput s with
       | Some (Return answer, s1) => text = answer /\ s' = s1
       | Some (Throw error, s1) => text = "Error: " ++ messageOf error /\ s' = s1
       | None => False
       end.
Proof.
  intros H. change (3 + fuel) with (S (S (S fuel))).
  unfold handleUserInput, bind, get. rewrite H. cbn [negb].
  unfold tryCatch. cbv beta iota.
  pose proof (total_mainHandleUserInput fuel userInput s) as T.
  destruct (mainHandleUserInput env getMainAgentSystemPrompt
              (mainSend (S (S (S fuel)))) userInput s) as [[[answer|e] s1]|].
  - exists answer, s1. auto.
  - exists ("Error: " ++ messageOf e), s1. auto.
  - contradiction.
Qed.

(** C9, as amended.  [initialize] on an initialized orchestrator throws;
    [handleUserInput] on an orchestrator that is not initialized (before
    [initialize], after [shutdown]) throws; [shutdown] returns normally,
    leaves the orchestrator uninitialized, clears the context and the
    callback of both agents when it was initialized, does nothing when it
    was not, and leaves both message histories as they are;
    [clearHistory] and [getStatus] return normally in every state. *)
Theorem orchestrator_lifecycle (s : St) :
  (isInitialized s = true ->
   forall sessionId,
     initialize env sessionId s
     = Some (Throw (ErrorObj "Agent orchestrator already initialized"), s))
  /\ (isInitialized s = false ->
      forall fuel userInput,
        handleUserInput env createErrorResponse getMainAgentSystemPrompt
          fuel userInput s
        = Some (Throw (ErrorObj "Agent orchestrator not initialized"), s))
  /\ (exists s',
         shutdown s = Some (Return tt, s')
         /\ isInitialized s' = false
         /\ mainAgentBus s' = mainAgentBus s
         /\ toolsAgentBus s' = toolsAgentBus s
         /\ (isInitialized s = true ->
             mainContext s' = None /\ toolsContext s' = None
             /\ mainCallback s' = None /\ toolsCallback s' = None)
         /\ (isInitialized s = false -> s' = s))
  /\ (exists s',
         clearHistory s = Some (Return tt, s')
         /\ mainAgentBus s' = [] /\ toolsAgentBus s' = []
         /\ isInitialized s' = isInitialized s)
  /\ initialized (getStatus s) = isInitialized s.
Proof.
  split; [|split; [|split; [|split]]].
  - intros H sessionId. unfold initialize, bind, get. now rewrite H.
  - intros H fuel userInput. unfold handleUserInput, bind, get. now rewrite H.
  - unfold shutdown, bind, get. destruct (isInitialized s) eqn:H; simpl.
    + unfold mainShutdown, replaceMainContext, bind, get.
      destruct (mainContext s); simpl;
        (eexists; split; [reflexivity|]; simpl;
         repeat split; auto; discriminate).
    + exists s. rewrite H. repeat split; auto; discriminate.
  - eexists. split; [reflexivity|]. simpl. auto.
  - reflexivity.
Qed.

(** The response of the main agent to a planning request, read at state
    [s], for the backend's answer [response]. *)
Definition planningResponse (s : St) (availableTools : list string)
    (response : GenerateContentResponse) : Msg :=
  let plan := extractResponseText response in
  {| id := "planning_" ++ JS.decimal (dateNow env (S (reads s)));
     fromAgent := MAIN;
     toAgent := TOOLS;
     timestamp := dateNow env (S (S (reads s)));
     content := plan;
     metadata := None;
     payload := PlanningResponse plan (nextStepsOf plan)
                  (extractToolsFromResponse plan availableTools) |}.

(** C8, as amended.  When the backend returns an answer, the main agent
    answers a planning request with one planning response, from the main
    agent to the tools agent, whose plan is the answer's text and whose
    next steps are the plan's lines that are not blank: the list is empty
    exactly when the plan is blank.  Sent on the tools agent's bus, the
    request adds this one response to the main agent's bus and nothing else
    to either bus. *)
Theorem planning_request_answered
    (fuel : nat) (request : Msg) (situation : string)
    (availableTools : list string) (ctx : option (list Content)) (s : St)
    (response : GenerateContentResponse) :
  payload request = PlanningRequest situation availableTools ctx ->
  toAgent request = MAIN ->
  generateContent (mainClient env) (reads s)
    [textContent "user" (planningPrompt situation availableTools)]
  = Return response ->
  let plan := extractResponseText response in
  let m := planningResponse s availableTools response in
  (exists s1, mainProcessMessage env request s = Some (Return (Some m), s1))
  /\ type m = PLANNING_RESPONSE
  /\ fromAgent m = MAIN /\ toAgent m = TOOLS
  /\ (nextStepsOf plan <> [] <-> JS.blank plan = false)
  /\ exists s2,
       toolsSend (2 + fuel) request s = Some (Return tt, s2)
       /\ mainAgentBus s2 = (mainAgentBus s ++ [m])%list
       /\ toolsAgentBus s2 = (toolsAgentBus s ++ [request])%list.
Proof.
  intros Hp Hto Hg plan m.
  split; [|split; [reflexivity|split; [reflexivity|split; [reflexivity|split]]]].
  - unfold mainProcessMessage. rewrite Hp.
    unfold handlePlanningRequest, callGenerateContent, now, bind, tick, lift, ret.
    simpl. rewrite Hg. eexists. reflexivity.
  - apply nextSteps_nonempty.
  - change (2 + fuel) with (S (S fuel)). cbn [toolsBusSend].
    unfold pushToolsBus, setBuses, bind at 1 2, get. cbv beta iota.
    rewrite Hto. cbn [AgentType_eqb].
    unfold detached, tryCatch, bind at 1.
    unfold mainProcessMessage. rewrite Hp.
    unfold handlePlanningRequest, callGenerateContent, now, bind, tick, lift, ret.
    simpl. rewrite Hg. simpl.
    eexists. split; [reflexivity|]. simpl. auto.
Qed.

Lemma no_scheduled_when_idle (sch : Scheduler.CoreToolScheduler PartListUnion) :
  Scheduler.isRunning sch = false ->
  filter (fun call => Scheduler.Status_eqb (Scheduler.status call) Scheduler.scheduled)
    (Scheduler.toolCalls sch) = [].
Proof.
  unfold Scheduler.isRunning.
  induction (Scheduler.toolCalls sch) as [|c l IH]; simpl; [reflexivity|].
  intros H. apply orb_false_iff in H as [H1 H2].
  apply negb_false_iff in H1.
  destruct (Scheduler.status c); simpl in *; try discriminate; auto.
Qed.

(** An empty batch: [schedule] throws when the scheduler is running and
    otherwise creates no record and invokes no tool. *)
Lemma schedule_empty now ab (sch : Scheduler.CoreToolScheduler PartListUnion) :
  Scheduler.schedule createErrorResponse now ab (Scheduler.Many []) sch
  = if Scheduler.isRunning sch then (Throw Scheduler.alreadyRunning, sch)
    else (Return tt,
          Scheduler.withToolCalls sch (Scheduler.toolCalls sch ++ [])%list).
Proof.
  unfold Scheduler.schedule. destruct (Scheduler.isRunning sch) eqn:R; [reflexivity|].
  simpl. unfold Scheduler.attemptExecutionOfScheduledCalls. simpl.
  rewrite app_nil_r. now rewrite no_scheduled_when_idle.
Qed.

End AgentFacts.

(** Sample backends: one that answers every call with the given text, one
    that fails every call. *)
Definition answering (t : string) : Genai.GenerateContentResponse :=
  {| Genai.candidates :=
       Some [ {| Genai.content := Some (Genai.textContent "model" t) |} ];
     Genai.functionCalls := None |}.

Definition answeringClient (t : string) : Agents.GeminiClient :=
  {| Agents.clientInitialize := Return tt;
     Agents.generateContent := fun _ _ => Return (answering t) |}.

Definition failingClient (message : string) : Agents.GeminiClient :=
  {| Agents.clientInitialize := Return tt;
     Agents.generateContent := fun _ _ => Throw (ErrorObj message) |}.

Definition sampleClock (k : nat) : N := (1700000000000 + N.of_nat k)%N.

Definition answeringEnv (t : string) : Agents.Env :=
  {| Agents.mainClient := answeringClient t;
     Agents.toolsClient := answeringClient "ok";
     Agents.dateNow := sampleClock |}.

Definition failingEnv : Agents.Env :=
  {| Agents.mainClient := failingClient "quota exceeded";
     Agents.toolsClient := answeringClient "ok";
     Agents.dateNow := sampleClock |}.

Definition freshOrchestrator : Agents.State string :=
  Agents.newOrchestrator idleScheduler.

(** The orchestrator after [initialize('session-1')]. *)
Definition startedOrchestrator : Agents.State string :=
  match Agents.initialize (answeringEnv "hello") "session-1" freshOrchestrator with
  | Some (_, s) => s
  | None => freshOrchestrator
  end.

Definition samplePlanningRequest : Agents.AgentA2AMessage string :=
  {| Agents.id := "req-1";
     Agents.fromAgent := Agents.TOOLS;
     Agents.toAgent := Agents.MAIN;
     Agents.timestamp := 1700000000000%N;
     Agents.content := "Planning request content";
     Agents.metadata := None;
     Agents.payload :=
       Agents.PlanningRequest "User wants to test the system"
         ["ReadFileTool"; "WriteFileTool"] None |}.

Lemma handleUserInput_never_throws_witness :
  exists text s',
    Agents.handleUserInput failingEnv sampleErrorResponse "system prompt"
      (3 + 0) "hello" startedOrchestrator = Some (Return text, s')
    /\ match Agents.mainHandleUserInput failingEnv "system prompt"
               (Agents.mainBusSend failingEnv sampleErrorResponse (3 + 0))
               "hello" startedOrchestrator with
       | Some (Return answer, s1) => text = answer /\ s' = s1
       | Some (Throw error, s1) => text = "Error: " ++ messageOf error /\ s' = s1
       | None => False
       end.
Proof.
  exact (handleUserInput_never_throws string failingEnv sampleErrorResponse
           "system prompt" 0 "hello" startedOrchestrator eq_refl).
Defined.

(** With a backend that fails, the user receives the error as text. *)
Example handleUserInput_reports_error :
  option_map fst
    (Agents.handleUserInput failingEnv sampleErrorResponse "system prompt"
       3 "hello" startedOrchestrator)
  = Some (Return "Error: quota exceeded").
Proof. vm_compute. reflexivity. Qed.

Lemma orchestrator_lifecycle_witness :
  Agents.initialize (answeringEnv "hello") "session-2" startedOrchestrator
  = Some (Throw (ErrorObj "Agent orchestrator already initialized"),
          startedOrchestrator)
  /\ Agents.handleUserInput (answeringEnv "hello") sampleErrorResponse
       "system prompt" 3 "hello" freshOrchestrator
     = Some (Throw (ErrorObj "Agent orchestrator not initialized"),
             freshOrchestrator).
Proof.
  split.
  - apply (proj1 (orchestrator_lifecycle string (answeringEnv "hello")
                    sampleErrorResponse "system prompt" startedOrchestrator)
             eq_refl).
  - apply (proj1 (proj2 (orchestrator_lifecycle string (answeringEnv "hello")
                           sampleErrorResponse "system prompt" freshOrchestrator))
             eq_refl).
Defined.

(** C9 as stated fails.  Before [initialize], [shutdown], [clearHistory]
    and [getStatus] return normally; and after a user input that sent
    messages over the buses, [shutdown] leaves the messages in both
    histories. *)
Lemma shutdown_keeps_histories :
  Agents.shutdown freshOrchestrator = Some (Return tt, freshOrchestrator)
  /\ Agents.clearHistory freshOrchestrator = Some (Return tt, freshOrchestrator)
  /\ Agents.initialized (Agents.getStatus freshOrchestrator) = false
  /\ exists s1 s2,
       Agents.handleUserInput (answeringEnv "I will read file a.txt")
         sampleErrorResponse "system prompt" 3 "show a.txt" startedOrchestrator
       = Some (Return Agents.coordinating, s1)
       /\ Agents.shutdown s1 = Some (Return tt, s2)
       /\ length (Agents.mainAgentBus s2) = 2
       /\ length (Agents.toolsAgentBus s2) = 2.
Proof.
  split; [reflexivity|]. split; [reflexivity|]. split; [reflexivity|].
  eexists. eexists. split; [vm_compute; reflexivity|].
  split; [vm_compute; reflexivity|]. split; reflexivity.
Qed.

Lemma planning_request_witness :
  let m := planningResponse string (answeringEnv "1. read
2. write") startedOrchestrator ["ReadFileTool"; "WriteFileTool"]
             (answering "1. read
2. write") in
  (exists s1,
      Agents.mainProcessMessage (answeringEnv "1. read
2. write") samplePlanningRequest startedOrchestrator
      = Some (Return (Some m), s1))
  /\ Agents.type m = Agents.PLANNING_RESPONSE
  /\ Agents.fromAgent m = Agents.MAIN /\ Agents.toAgent m = Agents.TOOLS
  /\ (Agents.nextStepsOf (Agents.extractResponseText (answering "1. read
2. write")) <> []
      <-> JS.blank (Agents.extractResponseText (answering "1. read
2. write")) = false)
  /\ exists s2,
       Agents.toolsBusSend (answeringEnv "1. read
2. write") sampleErrorResponse (2 + 0) samplePlanningRequest startedOrchestrator
       = Some (Return tt, s2)
       /\ Agents.mainAgentBus s2
          = (Agents.mainAgentBus startedOrchestrator ++ [m])%list
       /\ Agents.toolsAgentBus s2
          = (Agents.toolsAgentBus startedOrchestrator ++ [samplePlanningRequest])%list.
Proof.
  exact (planning_request_answered string (answeringEnv "1. read
2. write") sampleErrorResponse 0 samplePlanningRequest
           "User wants to test the system" ["ReadFileTool"; "WriteFileTool"]
           None startedOrchestrator (answering "1. read
2. write") eq_refl eq_refl eq_refl).
Defined.

Example planning_next_steps :
  Agents.nextStepsOf "1. read
2. write" = ["1. read"; "2. write"].
Proof. reflexivity. Qed.

(** C8 as stated fails: when the backend answers with a single space the
    plan text is not empty and the response's [nextSteps] is empty. *)
Lemma blank_plan_has_no_next_steps :
  exists m s1,
    Agents.mainProcessMessage (answeringEnv " ") samplePlanningRequest
      startedOrchestrator = Some (Return (Some m), s1)
    /\ Agents.payload m = Agents.PlanningResponse " " [] []
    /\ " " <> EmptyString.
Proof.
  eexists. eexists. split; [vm_compute; reflexivity|].
  split; [reflexivity | discriminate].
Qed.

(** * Further properties of the code *)

From Stdlib Require Import Permutation Sorted.

(** ** More about the turn *)

Section TurnStream.
Import Genai.

Variable getResponseText : GenerateContentResponse -> option string.

Lemma toolCallRequests_app evs evs' :
  Turn.toolCallRequests (evs ++ evs')%list
  = (Turn.toolCallRequests evs ++ Turn.toolCallRequests evs')%list.
Proof.
  induction evs as [|e evs IH]; simpl; [reflexivity|].
  destruct e; simpl; now rewrite IH.
Qed.

Lemma processChunk_pending ambient resp t :
  let '(evs, t') := Turn.processChunk getResponseText ambient resp t in
  Turn.pendingToolCalls t'
  = (Turn.pendingToolCalls t ++ Turn.toolCallRequests evs)%list
  /\ Turn.debugResponses t' = (Turn.debugResponses t ++ [resp])%list.
Proof.
  unfold Turn.processChunk.
  destruct (Turn.thoughtPart resp) as [p|].
  - simpl. now rewrite app_nil_r.
  - pose proof (handleFunctionCalls_requests ambient
                  (match functionCalls resp with Some l => l | None => [] end)
                  {| Turn.pendingToolCalls := Turn.pendingToolCalls t;
                     Turn.debugResponses := (Turn.debugResponses t ++ [resp])%list |})
      as H.
    destruct (Turn.handleFunctionCalls ambient _ _) as [evs t2].
    simpl in H. destruct H as [H1 H2].
    rewrite toolCallRequests_app.
    split; [|exact H2]. rewrite H1. f_equal.
    destruct (getResponseText resp) as [x|]; [destruct (JS.truthy x)|]; reflexivity.
Qed.

(** The chunks a run processes: those that arrive before the signal is
    seen aborted. *)
Fixpoint processed (stream : list (bool * GenerateContentResponse))
  : list GenerateContentResponse :=
  match stream with
  | [] => []
  | (aborted, resp) :: rest => if aborted then [] else resp :: processed rest
  end.

(** X1.  Every tool-call request a turn emits is also kept as pending, in
    the order of the events, after the requests that were pending before;
    and the turn keeps for debugging exactly the chunks that arrived before
    the signal was seen aborted. *)
Theorem run_pending_are_the_emitted_requests ambient
    (stream : list (bool * GenerateContentResponse)) (t : Turn.Turn) :
  let '(evs, t') := Turn.run getResponseText ambient stream t in
  Turn.pendingToolCalls t'
  = (Turn.pendingToolCalls t ++ Turn.toolCallRequests evs)%list
  /\ Turn.debugResponses t'
     = (Turn.debugResponses t ++ processed stream)%list.
Proof.
  revert t. induction stream as [|[ab resp] rest IH]; intros t; simpl.
  - now rewrite !app_nil_r.
  - destruct ab; simpl; [now rewrite !app_nil_r|].
    pose proof (processChunk_pending ambient resp t) as P.
    destruct (Turn.processChunk getResponseText ambient resp t) as [evs t1].
    specialize (IH t1).
    destruct (Turn.run getResponseText ambient rest t1) as [evs' t2].
    destruct P as [P1 P2], IH as [I1 I2].
    rewrite toolCallRequests_app, I1, I2, P1, P2, <- !app_assoc.
    split; reflexivity.
Qed.

(** X2.  Cancellation ends the turn: when a chunk arrives with the signal
    aborted, the events are those of the chunks before it followed by
    [UserCancelled], and neither that chunk nor any later one is looked
    at. *)
Theorem run_stops_at_abort ambient
    (before : list (bool * GenerateContentResponse))
    (resp : GenerateContentResponse)
    (rest : list (bool * GenerateContentResponse)) (t : Turn.Turn) :
  Forall (fun chunk => fst chunk = false) before ->
  Turn.run getResponseText ambient (before ++ (true, resp) :: rest)%list t
  = ((fst (Turn.run getResponseText ambient before t) ++ [Turn.UserCancelled])%list,
     snd (Turn.run getResponseText ambient before t)).
Proof.
  revert t. induction before as [|[ab r] before IH]; intros t H; simpl.
  - reflexivity.
  - inversion H as [|? ? Hab Hrest]; subst. simpl in Hab. subst ab.
    destruct (Turn.processChunk getResponseText ambient r t) as [evs t1].
    rewrite (IH t1 Hrest).
    destruct (Turn.run getResponseText ambient before t1) as [evs' t2]. simpl.
    now rewrite app_assoc.
Qed.


(** The event of a chunk whose first part is a thought. *)
Definition thoughtEvent (resp : GenerateContentResponse)
  : Turn.ServerGeminiStreamEvent :=
  Turn.Thought
    (Turn.parseThought
       (match Turn.thoughtPart resp with
        | Some {| text := Some x |} => x
        | _ => EmptyString
        end)).

(** X3.  A chunk whose first part is a thought yields its [Thought] event
    and nothing else: over a stream of such chunks the events are the
    thoughts, one per chunk, and no tool call becomes pending, whatever
    text and function calls the chunks carry. *)
Theorem thought_chunks_carry_no_tool_calls ambient
    (stream : list (bool * GenerateContentResponse)) (t : Turn.Turn) :
  Forall (fun chunk => fst chunk = false /\ Turn.thoughtPart (snd chunk) <> None)
    stream ->
  let '(evs, t') := Turn.run getResponseText ambient stream t in
  evs = map (fun chunk => thoughtEvent (snd chunk)) stream
  /\ Turn.pendingToolCalls t' = Turn.pendingToolCalls t.
Proof.
  revert t. induction stream as [|[ab resp] rest IH]; intros t H; simpl.
  - auto.
  - inversion H as [|? ? [Hab Hth] Hrest]; subst. simpl in Hab, Hth. subst ab.
    unfold Turn.processChunk, thoughtEvent.
    destruct (Turn.thoughtPart resp) as [p|]; [|contradiction].
    match goal with
    | |- context [Turn.run _ _ rest ?t1] => specialize (IH t1 Hrest);
        destruct (Turn.run getResponseText ambient rest t1) as [evs t2]
    end.
    destruct IH as [-> IH2]. simpl in *. split; [|exact IH2].
    f_equal. destruct p as [th [x|]]; reflexivity.
Qed.

(** Every function call of the chunks carries a backend id. *)
Definition allIdentified (stream : list (bool * GenerateContentResponse)) : Prop :=
  Forall (fun chunk =>
            Forall (fun fnCall => Genai.id fnCall <> None)
              (match functionCalls (snd chunk) with Some l => l | None => [] end))
    stream.

Lemma handleFunctionCalls_identified ambient ambient' fns t :
  Forall (fun fnCall => Genai.id fnCall <> None) fns ->
  Turn.handleFunctionCalls ambient fns t = Turn.handleFunctionCalls ambient' fns t.
Proof.
  revert t. induction fns as [|f fns IH]; intros t H; simpl; [reflexivity|].
  inversion H as [|? ? Hf Hfns]; subst.
  unfold Turn.handlePendingFunctionCall, Turn.requestOf.
  destruct (Genai.id f) as [i|]; [|contradiction].
  now rewrite IH.
Qed.

(** The function calls a run handles: those of the chunks it processes
    whose first part is not a thought. *)
Fixpoint handledCalls (stream : list (bool * GenerateContentResponse))
  : list FunctionCall :=
  match stream with
  | [] => []
  | (aborted, resp) :: rest =>
      if aborted then []
      else
        (match Turn.thoughtPart resp with
         | Some _ => []
         | None => match functionCalls resp with Some l => l | None => [] end
         end ++ handledCalls rest)%list
  end.

Lemma handleFunctionCalls_callIds ambient fns t :
  Forall (fun fnCall => Genai.id fnCall <> None) fns ->
  map (fun r => Some (Turn.callId r))
    (Turn.toolCallRequests (fst (Turn.handleFunctionCalls ambient fns t)))
  = map Genai.id fns.
Proof.
  revert t. induction fns as [|f fns IH]; intros t H; simpl; [reflexivity|].
  inversion H as [|? ? Hf Hfns]; subst.
  match goal with
  | |- context [Turn.handleFunctionCalls ambient fns ?t1] =>
      specialize (IH t1 Hfns);
      destruct (Turn.handleFunctionCalls ambient fns t1) as [evs t2]
  end.
  simpl in *. rewrite IH. f_equal.
  destruct (Genai.id f); [reflexivity | contradiction].
Qed.


(** X4.  When every function call carries a backend id, the clock and the
    random source play no part: the run is the same under any two
    environments, and the call ids of the emitted requests are the backend
    ids of the handled function calls, in order. *)
Theorem run_with_backend_ids_ignores_ambient ambient ambient'
    (stream : list (bool * GenerateContentResponse)) (t : Turn.Turn) :
  allIdentified stream ->
  Turn.run getResponseText ambient stream t
  = Turn.run getResponseText ambient' stream t
  /\ map (fun r => Some (Turn.callId r))
       (Turn.toolCallRequests (fst (Turn.run getResponseText ambient stream t)))
     = map Genai.id (handledCalls stream).
Proof.
  revert t. induction stream as [|[ab resp] rest IH]; intros t H; simpl.
  - auto.
  - inversion H as [|? ? Hresp Hrest]; subst. simpl in Hresp.
    destruct ab; [auto|].
    unfold Turn.processChunk.
    destruct (Turn.thoughtPart resp).
    + match goal with
      | |- context [Turn.run _ ambient rest ?t1] =>
          destruct (IH t1 Hrest) as [E1 E2]
      end.
      rewrite E1.
      match goal with
      | |- context [Turn.run _ ambient' rest ?t1] =>
          rewrite <- E1; destruct (Turn.run getResponseText ambient rest t1) as [evs t2]
      end.
      simpl in *. auto.
    + rewrite <- (handleFunctionCalls_identified ambient ambient' _ _ Hresp).
      pose proof (handleFunctionCalls_callIds ambient _
                    {| Turn.pendingToolCalls := Turn.pendingToolCalls t;
                       Turn.debugResponses := (Turn.debugResponses t ++ [resp])%list |}
                    Hresp) as C.
      destruct (Turn.handleFunctionCalls ambient _ _) as [evs t2].
      destruct (IH t2 Hrest) as [E1 E2]. rewrite <- E1.
      destruct (Turn.run getResponseText ambient rest t2) as [evs' t3].
      simpl in *. split; [reflexivity|].
      rewrite !toolCallRequests_app, !map_app, E2, C. f_equal.
      destruct (getResponseText resp) as [x|]; [destruct (JS.truthy x)|]; reflexivity.
Qed.

End TurnStream.

Lemma run_stops_at_abort_witness :
  Turn.run noResponseText frozenAmbient
    ([(false, callChunk "ls")] ++ (true, callChunk "rm") :: [(false, callChunk "cp")])%list
    Turn.new
  = ((fst (Turn.run noResponseText frozenAmbient [(false, callChunk "ls")] Turn.new)
      ++ [Turn.UserCancelled])%list,
     snd (Turn.run noResponseText frozenAmbient [(false, callChunk "ls")] Turn.new)).
Proof.
  apply (run_stops_at_abort noResponseText frozenAmbient
           [(false, callChunk "ls")] (callChunk "rm") [(false, callChunk "cp")]
           Turn.new).
  constructor; [reflexivity | constructor].
Defined.

(** A thought chunk that also carries a function call. *)
Definition thoughtWithCall (t n : string) : Genai.GenerateContentResponse :=
  {| Genai.candidates := Genai.candidates (thoughtChunk t);
     Genai.functionCalls := Some [callWithoutId n] |}.

Lemma thought_chunks_witness :
  let '(evs, t') :=
    Turn.run noResponseText frozenAmbient
      [(false, thoughtWithCall "**Plan** list the files" "ls")] Turn.new in
  evs = map (fun chunk => thoughtEvent (snd chunk))
          [(false, thoughtWithCall "**Plan** list the files" "ls")]
  /\ Turn.pendingToolCalls t' = Turn.pendingToolCalls Turn.new.
Proof.
  apply (thought_chunks_carry_no_tool_calls noResponseText frozenAmbient
           [(false, thoughtWithCall "**Plan** list the files" "ls")] Turn.new).
  constructor; [split; [reflexivity | simpl; discriminate] | constructor].
Defined.

Definition callWithId (i n : string) : Genai.FunctionCall :=
  {| Genai.id := Some i; Genai.name := Some n; Genai.args := None |}.

Definition identifiedChunk (i n : string) : Genai.GenerateContentResponse :=
  {| Genai.candidates := None;
     Genai.functionCalls := Some [callWithId i n] |}.

Lemma run_with_backend_ids_witness :
  Turn.run noResponseText frozenAmbient [(false, identifiedChunk "call-1" "ls")] Turn.new
  = Turn.run noResponseText tickingAmbient [(false, identifiedChunk "call-1" "ls")] Turn.new
  /\ map (fun r => Some (Turn.callId r))
       (Turn.toolCallRequests
          (fst (Turn.run noResponseText frozenAmbient
                  [(false, identifiedChunk "call-1" "ls")] Turn.new)))
     = map Genai.id (handledCalls [(false, identifiedChunk "call-1" "ls")]).
Proof.
  apply (run_with_backend_ids_ignores_ambient noResponseText frozenAmbient
           tickingAmbient [(false, identifiedChunk "call-1" "ls")] Turn.new).
  constructor; [simpl; constructor; [simpl; discriminate | constructor] | constructor].
Defined.

(** ** More about the driver loop *)

Section DriverRuns.
Import Genai.
Import Client.

Variable getResponseText : GenerateContentResponse -> option string.
Variable env : nat -> TurnScript.

(** The turn of a script asks for no tool, the signal is not aborted when
    it ends, and the next speaker is the model. *)
Definition wantsToContinue (script : TurnScript) : bool :=
  (length (Turn.pendingToolCalls
             (snd (Turn.run getResponseText (ambient script) (stream script)
                     Turn.new))) =? 0)%nat
  && negb (abortedAfter script)
  && match nextSpeakerCheck script with
     | Some model => true
     | _ => false
     end.

(** The requests sent to the backend, in order. *)
Fixpoint sentRequests (l : list Interaction) : list (list Part) :=
  match l with
  | [] => []
  | SendMessageStream request :: rest => request :: sentRequests rest
  | _ :: rest => sentRequests rest
  end.

Lemma sendMessageStream_step fuel depth request turns :
  sendMessageStream getResponseText env (S fuel) depth request turns
  = if (Z.min turns MAX_TURNS =? 0)%Z then
      {| events := []; interactions := []; budgets := [turns];
         returned := Some Turn.new |}
    else
      let script := env depth in
      let compressedEvents :=
        match compressed script with
        | Some c => [Turn.ChatCompressed c]
        | None => []
        end in
      let run := Turn.run getResponseText (ambient script) (stream script) Turn.new in
      let consulted :=
        (length (Turn.pendingToolCalls (snd run)) =? 0)%nat
        && negb (abortedAfter script) in
      if wantsToContinue script then
        let r := sendMessageStream getResponseText env fuel (S depth) pleaseContinue
                   (Z.min turns MAX_TURNS - 1) in
        {| events := (compressedEvents ++ fst run ++ events r)%list;
           interactions :=
             (TryCompressChat :: SendMessageStream request
                :: CheckNextSpeaker :: interactions r)%list;
           budgets := turns :: budgets r;
           returned := match returned r with
                       | Some _ => Some (snd run)
                       | None => None
                       end |}
      else
        {| events := (compressedEvents ++ fst run)%list;
           interactions :=
             if consulted
             then [TryCompressChat; SendMessageStream request; CheckNextSpeaker]
             else [TryCompressChat; SendMessageStream request];
           budgets := [turns];
           returned := Some (snd run) |}.
Proof.
  cbn [sendMessageStream]. unfold wantsToContinue.
  destruct (Z.min turns MAX_TURNS =? 0)%Z; [reflexivity|].
  cbv zeta.
  destruct (Turn.run getResponseText (ambient (env depth)) (stream (env depth))
              Turn.new) as [evs turn]. simpl fst. simpl snd.
  destruct ((length (Turn.pendingToolCalls turn) =? 0)%nat
            && negb (abortedAfter (env depth))); simpl; [|reflexivity].
  destruct (nextSpeakerCheck (env depth)) as [[|]|]; reflexivity.
Qed.

(** The budgets [b, b-1, ..., 0] below a bounded budget. *)
Fixpoint countdown (n : nat) : list Z :=
  match n with
  | O => []
  | S n' => Z.of_nat n' :: countdown n'
  end.

Lemma always_continue_run fuel :
  forall depth request turns,
    (forall d, wantsToContinue (env d) = true) ->
    (0 <= turns)%Z ->
    (Z.to_nat (Z.min turns MAX_TURNS) < fuel)%nat ->
    let r := sendMessageStream getResponseText env fuel depth request turns in
    budgets r = turns :: countdown (Z.to_nat (Z.min turns MAX_TURNS))
    /\ sentRequests (interactions r)
       = match Z.to_nat (Z.min turns MAX_TURNS) with
         | O => []
         | S n => request :: repeat pleaseContinue n
         end
    /\ returned r <> None.
Proof.
  unfold MAX_TURNS.
  induction fuel as [|fuel IH]; intros depth request turns Hc Hpos Hfuel; [lia|].
  rewrite sendMessageStream_step. unfold MAX_TURNS.
  destruct (Z.eqb_spec (Z.min turns 100) 0) as [E|E].
  - rewrite E. simpl. repeat split; discriminate.
  - rewrite Hc. cbv zeta.
    destruct (IH (S depth) pleaseContinue (Z.min turns 100 - 1)%Z Hc)
      as (B & S & R); try lia.
    replace (Z.min (Z.min turns 100 - 1) 100) with (Z.min turns 100 - 1)%Z in * by lia.
    destruct (Z.to_nat (Z.min turns 100)) as [|n] eqn:N; [lia|].
    replace (Z.to_nat (Z.min turns 100 - 1)) with n in * by lia.
    simpl budgets. simpl interactions. simpl returned. cbn [sentRequests].
    rewrite B, S. repeat split.
    + simpl. do 2 f_equal. lia.
    + f_equal. destruct n; reflexivity.
    + destruct (returned _); [discriminate | contradiction].
Qed.

(** X5.  The cap is exact: with a non-negative budget and a backend whose
    every turn asks for no tool and wants to go on, the driver sends
    exactly [min(turns, 100)] requests, the caller's request first and
    [Please continue.] each further time, passes the budgets
    [turns, b-1, ..., 0] down the recursion, and returns. *)
Theorem always_continuing_backend_uses_the_whole_budget
    (depth : nat) (request : list Part) (turns : Z) (fuel : nat) :
  (forall d, wantsToContinue (env d) = true) ->
  (0 <= turns)%Z ->
  (Z.to_nat (Z.min turns MAX_TURNS) < fuel)%nat ->
  let b := Z.to_nat (Z.min turns MAX_TURNS) in
  let r := sendMessageStream getResponseText env fuel depth request turns in
  backendTurns r = b
  /\ sentRequests (interactions r) = firstn b (request :: repeat pleaseContinue b)
  /\ budgets r = turns :: countdown b
  /\ returned r <> None.
Proof.
  intros Hc Hpos Hfuel b r.
  destruct (always_continue_run fuel depth request turns Hc Hpos Hfuel)
    as (B & Sq & R).
  fold r in B, Sq, R. fold b in B, Sq.
  assert (L : backendTurns r = length (sentRequests (interactions r))).
  { unfold backendTurns. generalize (interactions r).
    induction l as [|[| |] l IHl]; simpl; auto. }
  assert (S' : sentRequests (interactions r)
               = firstn b (request :: repeat pleaseContinue b)).
  { rewrite Sq. destruct b as [|n]; [reflexivity|].
    cbn [firstn]. f_equal.
    change (S n) with (1 + n)%nat. rewrite Nat.add_comm, repeat_app, firstn_app.
    rewrite repeat_length, Nat.sub_diag. simpl. rewrite app_nil_r.
    rewrite firstn_all2; [reflexivity | rewrite repeat_length; lia]. }
  split; [|split; [exact S'|split; [exact B|exact R]]].
  rewrite L, Sq. destruct b; simpl; auto. now rewrite repeat_length.
Qed.

(** X6.  The turn the driver returns is the turn of the outermost call:
    a fresh turn when the bounded budget is zero, and otherwise the turn
    that was run on the caller's request, never a turn of a recursive call.
    Since the driver recurses only when that turn asked for no tool, a run
    that made a recursive call returns a turn without pending tool calls,
    whatever tool-call requests the later turns put among the events. *)
Theorem returned_turn_is_the_first_turn
    (fuel depth : nat) (request : list Part) (turns : Z) (turn : Turn.Turn) :
  let r := sendMessageStream getResponseText env fuel depth request turns in
  returned r = Some turn ->
  turn = (if (Z.min turns MAX_TURNS =? 0)%Z then Turn.new
          else snd (Turn.run getResponseText (ambient (env depth))
                      (stream (env depth)) Turn.new))
  /\ (2 <= length (budgets r) -> Turn.pendingToolCalls turn = [])%nat.
Proof.
  destruct fuel as [|fuel]; [discriminate|].
  cbv zeta. rewrite sendMessageStream_step.
  destruct (Z.min turns MAX_TURNS =? 0)%Z.
  - simpl. intros H; inversion H; subst. split; [reflexivity | simpl; lia].
  - cbv zeta. destruct (wantsToContinue (env depth)) eqn:W.
    + simpl. destruct (returned _); [|discriminate].
      intros H; inversion H; subst. split; [reflexivity|]. intros _.
      unfold wantsToContinue in W.
      apply andb_true_iff in W as [W _]. apply andb_true_iff in W as [W _].
      apply Nat.eqb_eq in W. now apply length_zero_iff_nil.
    + simpl. intros H; inversion H; subst. split; [reflexivity | simpl; lia].
Qed.

End DriverRuns.

Lemma always_continuing_backend_witness :
  let b := Z.to_nat (Z.min 3 Client.MAX_TURNS) in
  let r := Client.sendMessageStream noResponseText alwaysContinue 5 0 [] 3 in
  Client.backendTurns r = b
  /\ sentRequests (Client.interactions r)
     = firstn b ([] :: repeat Client.pleaseContinue b)
  /\ Client.budgets r = 3%Z :: countdown b
  /\ Client.returned r <> None.
Proof.
  apply (always_continuing_backend_uses_the_whole_budget noResponseText
           alwaysContinue 0 [] 3 5).
  - intros d. reflexivity.
  - lia.
  - vm_compute. lia.
Defined.

(** A backend that thinks aloud in its first turn and wants to go on, and
    asks for the tool [ls] in every later turn. *)
Definition thinkThenCall (depth : nat) : Client.TurnScript :=
  {| Client.compressed := None;
     Client.stream :=
       match depth with
       | O => [(false, thoughtChunk "**Plan** list the files")]
       | S _ => [(false, callChunk "ls")]
       end;
     Client.ambient := frozenAmbient;
     Client.abortedAfter := false;
     Client.nextSpeakerCheck := Some Client.model |}.

(** The turn of the first call, which holds the thought chunk and no
    pending call, is returned; the call the second turn asked for is among
    the events only. *)
Lemma returned_turn_witness :
  let r := Client.sendMessageStream noResponseText thinkThenCall 5 0 [] 3 in
  let turn := {| Turn.pendingToolCalls := [];
                 Turn.debugResponses := [thoughtChunk "**Plan** list the files"] |} in
  Client.budgets r = [3%Z; 2%Z]
  /\ (exists request, In (Turn.ToolCallRequest request) (Client.events r))
  /\ Client.returned r = Some turn
  /\ turn = (if (Z.min 3 Client.MAX_TURNS =? 0)%Z then Turn.new
             else snd (Turn.run noResponseText
                         (Client.ambient (thinkThenCall 0))
                         (Client.stream (thinkThenCall 0)) Turn.new))
  /\ (2 <= length (Client.budgets r) -> Turn.pendingToolCalls turn = [])%nat.
Proof.
  split; [reflexivity|].
  split; [eexists; vm_compute; right; left; reflexivity|].
  split; [reflexivity|].
  apply (returned_turn_is_the_first_turn noResponseText thinkThenCall 5 0 [] 3
           {| Turn.pendingToolCalls := [];
              Turn.debugResponses := [thoughtChunk "**Plan** list the files"] |}).
  reflexivity.
Defined.

(** ** More about the scheduler: the intake of a batch *)

Section Intake.
Import Scheduler.

Variable PartListUnion : Type.
Variable createErrorResponse :
  Turn.ToolCallRequestInfo -> Thrown -> ToolCallResponseInfo PartListUnion.
Variable convertToFunctionResponse : string -> string -> string -> PartListUnion.

Local Abbreviation Sched := (CoreToolScheduler PartListUnion).
Local Abbreviation Call := (ToolCall PartListUnion).

Definition callIdOf (c : Call) : string := Turn.callId (request c).

Lemma map_moved_terminal cid ns aux (l : list Call) :
  Forall (fun c => terminal (status c) = true) l ->
  map (moved cid ns aux) l = l.
Proof.
  induction 1 as [|c l Hc _ IH]; simpl; [reflexivity|].
  now rewrite IH, moved_terminal.
Qed.

Lemma map_moved_other cid ns aux (l : list Call) :
  ~ In cid (map callIdOf l) -> map (moved cid ns aux) l = l.
Proof.
  induction l as [|c l IH]; simpl; intros H; [reflexivity|].
  rewrite IH by tauto. f_equal. unfold moved.
  destruct (String.eqb_spec (Turn.callId (request c)) cid) as [E|E]; [|reflexivity].
  exfalso. apply H. now left.
Qed.

(** The outcome of the approval step for a request of a registered tool. *)
Inductive Decision : Type :=
| Launch
| Ask (details : ToolCallConfirmationDetails)
| Fail (e : Thrown).

Definition approvalOf (mode : ApprovalMode) (ab : bool) (t : Tool)
    (q : Turn.ToolCallRequestInfo) : Decision :=
  match mode with
  | YOLO => Launch
  | _ =>
      match shouldConfirmExecute t (Turn.args q) ab with
      | Return None => Launch
      | Return (Some details) => Ask details
      | Throw e => Fail e
      end
  end.

(** What the intake loop makes of the record of one request. *)
Definition intakeRecord (mode : ApprovalMode) (ab : bool) (c : Call) : Call :=
  match status c, tool c with
  | validating, Some t =>
      match approvalOf mode ab t (request c) with
      | Launch => transition scheduled NoData c
      | Ask details => transition awaiting_approval (ConfirmationData details) c
      | Fail e =>
          transition error (ResponseData (createErrorResponse (request c) e)) c
      end
  | _, _ => c
  end.

Lemma intakeRecord_callId mode ab c : callIdOf (intakeRecord mode ab c) = callIdOf c.
Proof.
  unfold intakeRecord.
  destruct (status c); try reflexivity.
  destruct (tool c); try reflexivity.
  destruct (approvalOf _ _ _ _); reflexivity.
Qed.

Lemma NoDup_app_mid {A} (a b : list A) (x : A) :
  NoDup (a ++ x :: b) -> ~ In x a /\ ~ In x b.
Proof.
  intros H. apply NoDup_remove_2 in H. rewrite in_app_iff in H. tauto.
Qed.

Lemma setStatus_on_one cid ns aux (s : Sched) old done (c : Call) todo :
  toolCalls s = (old ++ done ++ c :: todo)%list ->
  Forall (fun c => terminal (status c) = true) old ->
  NoDup (map callIdOf (done ++ c :: todo)) ->
  callIdOf c = cid -> terminal (status c) = false ->
  toolCalls (setStatusInternal cid ns aux s)
  = (old ++ done ++ transition ns aux c :: todo)%list.
Proof.
  intros E Hold Hnd Hc Ht.
  rewrite setStatus_toolCalls, E, !map_app. simpl.
  rewrite map_app in Hnd. simpl in Hnd.
  apply NoDup_app_mid in Hnd as [N1 N2]. rewrite Hc in *.
  rewrite (map_moved_terminal _ _ _ old Hold).
  rewrite (map_moved_other _ _ _ done N1), (map_moved_other _ _ _ todo N2).
  do 2 f_equal. unfold moved. unfold callIdOf in Hc.
  now rewrite Hc, String.eqb_refl, Ht.
Qed.

Lemma process_fold ab (todo : list Call) : forall (s : Sched) old done,
  toolCalls s = (old ++ done ++ todo)%list ->
  Forall (fun c => terminal (status c) = true) old ->
  NoDup (map callIdOf (done ++ todo)) ->
  let s' := fold_left (processNewToolCall createErrorResponse ab) todo s in
  toolCalls s' = (old ++ done ++ map (intakeRecord (approvalMode s) ab) todo)%list
  /\ executions s' = executions s
  /\ toolRegistry s' = toolRegistry s
  /\ approvalMode s' = approvalMode s.
Proof.
  induction todo as [|c todo IH]; intros s old done E Hold Hnd; simpl.
  - auto.
  - assert (Step : exists s1,
               processNewToolCall createErrorResponse ab s c = s1
               /\ toolCalls s1
                  = (old ++ done ++ intakeRecord (approvalMode s) ab c :: todo)%list
               /\ executions s1 = executions s
               /\ toolRegistry s1 = toolRegistry s
               /\ approvalMode s1 = approvalMode s).
    { eexists. split; [reflexivity|].
      unfold processNewToolCall, intakeRecord, approvalOf.
      destruct (status c) eqn:St; auto.
      destruct (tool c) as [t|]; auto.
      destruct (approvalMode s) eqn:A;
        try (destruct (shouldConfirmExecute t (Turn.args (request c)) ab)
               as [[d|]|e]);
        (split; [apply setStatus_on_one; auto; now rewrite St
                | repeat split; simpl; auto]). }
    destruct Step as (s1 & -> & E1 & X1 & R1 & A1).
    assert (E1' : toolCalls s1
                  = (old ++ (done ++ [intakeRecord (approvalMode s) ab c]) ++ todo)%list)
      by (rewrite E1, <- app_assoc; reflexivity).
    assert (Hnd' : NoDup (map callIdOf
                            ((done ++ [intakeRecord (approvalMode s) ab c]) ++ todo)))
      by (rewrite <- app_assoc; simpl; rewrite !map_app in *; simpl in *;
          now rewrite intakeRecord_callId).
    destruct (IH s1 old (done ++ [intakeRecord (approvalMode s) ab c])%list
                E1' Hold Hnd') as (E2 & X2 & R2 & A2).
    rewrite A1 in E2. rewrite E2, X2, R2, A2. repeat split; auto.
    now rewrite <- app_assoc.
Qed.

(** What the execution phase makes of a record. *)
Definition launchRecord (c : Call) : Call :=
  if Status_eqb (status c) scheduled then transition executing NoData c else c.

Definition executionOf (c : Call) : list Execution :=
  match tool c with
  | Some t => [ {| exTool := t; exRequest := request c; settled := false |} ]
  | None => []
  end.

Lemma launchRecord_callId c : callIdOf (launchRecord c) = callIdOf c.
Proof. unfold launchRecord. destruct (Status_eqb _ _); reflexivity. Qed.

Lemma execute_fold (todo : list Call) : forall (s : Sched) old done,
  toolCalls s = (old ++ done ++ todo)%list ->
  Forall (fun c => terminal (status c) = true) old ->
  NoDup (map callIdOf (done ++ todo)) ->
  Forall (fun c => status c = scheduled -> tool c <> None) todo ->
  let scheduledNow := filter (fun c => Status_eqb (status c) scheduled) todo in
  exists s',
    executeEach scheduledNow s = (Return tt, s')
    /\ toolCalls s' = (old ++ done ++ map launchRecord todo)%list
    /\ executions s' = (executions s ++ flat_map executionOf scheduledNow)%list
    /\ toolRegistry s' = toolRegistry s
    /\ approvalMode s' = approvalMode s.
Proof.
  induction todo as [|c todo IH]; intros s old done E Hold Hnd Htools; simpl.
  - exists s. split; [reflexivity|]. rewrite E, !app_nil_r.
    repeat split; auto.
  - inversion Htools as [|? ? Hc Htodo]; subst.
    destruct (Status_eqb (status c) scheduled) eqn:Sc.
    + assert (St : status c = scheduled)
        by (destruct (status c); simpl in Sc; try discriminate; reflexivity).
      cbn [executeEach].
      destruct (tool c) as [t|] eqn:T; [|now exfalso; apply Hc].
      set (s1 := withExecutions
                   (setStatusInternal (Turn.callId (request c)) executing NoData s)
                   (executions
                      (setStatusInternal (Turn.callId (request c)) executing NoData s)
                    ++ [ {| exTool := t; exRequest := request c;
                            settled := false |} ])%list).
      assert (E1 : toolCalls s1 = (old ++ (done ++ [launchRecord c]) ++ todo)%list).
      { rewrite <- app_assoc. simpl. unfold launchRecord. rewrite Sc.
        apply (setStatus_on_one _ _ _ s); auto. now rewrite St. }
      assert (Hnd' : NoDup (map callIdOf ((done ++ [launchRecord c]) ++ todo)))
        by (rewrite <- app_assoc; simpl; rewrite !map_app in *; simpl in *;
            now rewrite launchRecord_callId).
      destruct (IH s1 old (done ++ [launchRecord c])%list E1 Hold Hnd' Htodo)
        as (s' & X & E' & Ex' & R' & A').
      exists s'. rewrite X. split; [reflexivity|].
      rewrite E', Ex', R', A'. simpl.
      unfold executionOf at 2. rewrite T. simpl.
      rewrite <- !app_assoc. simpl. auto.
    + assert (E1 : toolCalls s = (old ++ (done ++ [c]) ++ todo)%list)
        by (now rewrite <- app_assoc).
      assert (Hnd' : NoDup (map callIdOf ((done ++ [c]) ++ todo)))
        by (now rewrite <- app_assoc).
      destruct (IH s old (done ++ [c])%list E1 Hold Hnd' Htodo)
        as (s' & X & E' & Ex' & R' & A').
      exists s'. rewrite X. split; [reflexivity|].
      rewrite E', Ex'. unfold launchRecord at 2. rewrite Sc.
      rewrite <- !app_assoc. simpl. auto.
Qed.


(** The state in which [schedule] leaves the record of a request: [error]
    for an unknown tool or a confirmation hook that throws,
    [awaiting_approval] when the hook returns confirmation details, and
    [executing] otherwise. *)
Definition outcome (s : Sched) (ab : bool) (q : Turn.ToolCallRequestInfo)
  : Status :=
  match toolRegistry s (Turn.name q) with
  | None => error
  | Some t =>
      match approvalOf (approvalMode s) ab t q with
      | Launch => executing
      | Ask _ => awaiting_approval
      | Fail _ => error
      end
  end.

Definition launched (s : Sched) (ab : bool) (q : Turn.ToolCallRequestInfo) : bool :=
  Status_eqb (outcome s ab q) executing.

Definition recordOf (now : N) (s : Sched) (ab : bool)
    (q : Turn.ToolCallRequestInfo) : Call :=
  launchRecord
    (intakeRecord (approvalMode s) ab
       (newToolCall createErrorResponse (toolRegistry s) now q)).

Lemma recordOf_request now s ab q : request (recordOf now s ab q) = q.
Proof.
  unfold recordOf, launchRecord, intakeRecord, newToolCall.
  destruct (toolRegistry s (Turn.name q)) as [t|]; simpl; [|reflexivity].
  destruct (approvalOf _ _ _ _); reflexivity.
Qed.

Lemma recordOf_status now s ab q :
  status (recordOf now s ab q) = outcome s ab q.
Proof.
  unfold recordOf, outcome, launchRecord, intakeRecord, newToolCall.
  destruct (toolRegistry s (Turn.name q)) as [t|]; simpl; [|reflexivity].
  destruct (approvalOf _ _ _ _); reflexivity.
Qed.

Lemma intake_scheduled_iff now s ab q :
  Status_eqb
    (status (intakeRecord (approvalMode s) ab
               (newToolCall createErrorResponse (toolRegistry s) now q)))
    scheduled
  = launched s ab q.
Proof.
  unfold launched, outcome, intakeRecord, newToolCall.
  destruct (toolRegistry s (Turn.name q)) as [t|]; simpl; [|reflexivity].
  destruct (approvalOf _ _ _ _); reflexivity.
Qed.

Lemma intake_executions now s ab (reqs : list Turn.ToolCallRequestInfo) :
  map exRequest
    (flat_map executionOf
       (filter (fun c => Status_eqb (status c) scheduled)
          (map (fun q => intakeRecord (approvalMode s) ab
                           (newToolCall createErrorResponse (toolRegistry s) now q))
             reqs)))
  = filter (launched s ab) reqs
  /\ Forall (fun ex => toolRegistry s (Turn.name (exRequest ex)) = Some (exTool ex)
                       /\ settled ex = false)
       (flat_map executionOf
          (filter (fun c => Status_eqb (status c) scheduled)
             (map (fun q => intakeRecord (approvalMode s) ab
                              (newToolCall createErrorResponse (toolRegistry s) now q))
                reqs))).
Proof.
  induction reqs as [|q reqs [IH1 IH2]]; [simpl; auto|].
  rewrite map_cons. cbn [filter]. rewrite intake_scheduled_iff.
  destruct (launched s ab q) eqn:L; [|auto].
  cbn [flat_map]. rewrite map_app, IH1.
  unfold launched, outcome in L.
  unfold executionOf at 1 2. unfold intakeRecord, newToolCall.
  destruct (toolRegistry s (Turn.name q)) as [t|] eqn:R; [|discriminate].
  cbn [status tool request]. destruct (approvalOf _ _ _ _); try discriminate.
  simpl. split; [reflexivity|]. constructor; auto.
Qed.

(** The executions [schedule] starts for a batch. *)
Definition startedBy (now : N) (s : Sched) (ab : bool)
    (reqs : list Turn.ToolCallRequestInfo) : list Execution :=
  flat_map executionOf
    (filter (fun c => Status_eqb (status c) scheduled)
       (map (fun q => intakeRecord (approvalMode s) ab
                        (newToolCall createErrorResponse (toolRegistry s) now q))
          reqs)).

Lemma schedule_batch_state
    (now : N) (ab : bool) (r : ScheduleRequest) (s : Sched) :
  isRunning s = false ->
  NoDup (map Turn.callId (requestsToProcess r)) ->
  exists s',
    schedule createErrorResponse now ab r s = (Return tt, s')
    /\ toolCalls s'
       = (toolCalls s ++ map (recordOf now s ab) (requestsToProcess r))%list
    /\ executions s'
       = (executions s ++ startedBy now s ab (requestsToProcess r))%list.
Proof.
  intros Idle Hnd. unfold schedule. rewrite Idle.
  set (reqs := requestsToProcess r) in *.
  set (new := map (newToolCall createErrorResponse (toolRegistry s) now) reqs).
  set (s1 := withToolCalls s (toolCalls s ++ new)%list).
  assert (Hold : Forall (fun c => terminal (status c) = true) (toolCalls s)).
  { apply Forall_forall. intros c Hc. apply In_nth_error in Hc as [i Hi].
    eapply isRunning_false_terminal; eauto. }
  assert (Hnew : NoDup (map callIdOf ([] ++ new))).
  { simpl. unfold new. rewrite map_map.
    replace (map (fun x => callIdOf (newToolCall createErrorResponse (toolRegistry s) now x)) reqs)
      with (map Turn.callId reqs); [exact Hnd|].
    apply map_ext. intros q. unfold callIdOf, newToolCall.
    destruct (toolRegistry s (Turn.name q)); reflexivity. }
  destruct (process_fold ab new s1 (toolCalls s) [] eq_refl Hold Hnew)
    as (E2 & X2 & R2 & A2).
  set (s2 := fold_left (processNewToolCall createErrorResponse ab) new s1) in *.
  simpl in E2, X2, R2, A2.
  unfold attemptExecutionOfScheduledCalls.
  assert (F : filter (fun call => Status_eqb (status call) scheduled) (toolCalls s2)
              = filter (fun call => Status_eqb (status call) scheduled)
                  (map (intakeRecord (approvalMode s) ab) new)).
  { rewrite E2, filter_app.
    replace (filter _ (toolCalls s)) with (@nil Call); [reflexivity|].
    symmetry. clear - Hold. induction Hold as [|c l Hc _ IH]; simpl; auto.
    destruct (status c); simpl in *; try discriminate; auto. }
  rewrite F.
  assert (Hnd2 : NoDup (map callIdOf ([] ++ map (intakeRecord (approvalMode s) ab) new))).
  { simpl. rewrite map_map.
    replace (map (fun x => callIdOf (intakeRecord (approvalMode s) ab x)) new)
      with (map callIdOf new); [exact Hnew|].
    apply map_ext. intros c. now rewrite intakeRecord_callId. }
  assert (Htools : Forall (fun c => status c = scheduled -> tool c <> None)
                     (map (intakeRecord (approvalMode s) ab) new)).
  { apply Forall_forall. intros c Hc. apply in_map_iff in Hc as (c0 & <- & Hc0).
    unfold new in Hc0. apply in_map_iff in Hc0 as (q & <- & _).
    unfold intakeRecord, newToolCall.
    destruct (toolRegistry s (Turn.name q)) as [t|]; simpl; [|discriminate].
    destruct (approvalOf _ _ _ _); simpl; discriminate. }
  destruct (execute_fold (map (intakeRecord (approvalMode s) ab) new) s2
              (toolCalls s) [] E2 Hold Hnd2 Htools) as (s' & X & E' & Ex' & R' & A').
  cbv zeta in X. exists s'.
  split; [exact X|]. split.
  - rewrite E'. simpl. unfold new. now rewrite !map_map.
  - rewrite Ex', X2. unfold startedBy, new. now rewrite map_map.
Qed.

(** X7.  On an idle scheduler, for a batch whose call ids are distinct,
    [schedule] returns without throwing; it keeps the earlier records and
    adds one record per request, in order: [error] for an unknown tool or a
    confirmation hook that throws, [awaiting_approval] when the hook asks
    for confirmation, [executing] otherwise (always, for a known tool, under
    [YOLO]).  It invokes [execute] once for each request it leaves
    [executing], in order, with the registered tool, and for no other. *)
Theorem schedule_outcome_of_a_batch
    (now : N) (ab : bool) (r : ScheduleRequest) (s : Sched) :
  isRunning s = false ->
  NoDup (map Turn.callId (requestsToProcess r)) ->
  exists s' records added,
    schedule createErrorResponse now ab r s = (Return tt, s')
    /\ toolCalls s' = (toolCalls s ++ records)%list
    /\ map request records = requestsToProcess r
    /\ map status records = map (outcome s ab) (requestsToProcess r)
    /\ executions s' = (executions s ++ added)%list
    /\ map exRequest added = filter (launched s ab) (requestsToProcess r)
    /\ Forall (fun ex => toolRegistry s (Turn.name (exRequest ex)) = Some (exTool ex)
                         /\ settled ex = false) added.
Proof.
  intros Idle Hnd.
  destruct (schedule_batch_state now ab r s Idle Hnd) as (s' & X & E & Ex).
  exists s', (map (recordOf now s ab) (requestsToProcess r)),
    (startedBy now s ab (requestsToProcess r)).
  split; [exact X|]. split; [exact E|].
  split. { rewrite map_map. rewrite <- (map_id (requestsToProcess r)) at 2.
           apply map_ext, recordOf_request. }
  split. { rewrite map_map. apply map_ext, recordOf_status. }
  split; [exact Ex|]. apply intake_executions.
Qed.


(** *** Completion of a batch *)

Local Abbreviation stepI := (step createErrorResponse convertToFunctionResponse).
Local Abbreviation stepsI := (steps createErrorResponse convertToFunctionResponse).

(** Every record that is not in a terminal state is [executing] and has a
    pending execution with its call id. *)
Definition covered (s : Sched) : Prop :=
  forall c, In c (toolCalls s) -> terminal (status c) = false ->
    status c = executing
    /\ exists k ex, nth_error (executions s) k = Some ex
                    /\ settled ex = false
                    /\ Turn.callId (exRequest ex) = callIdOf c.

Definition settledAt (s : Sched) (k : nat) : Prop :=
  forall ex, nth_error (executions s) k = Some ex -> settled ex = true.

Lemma markSettled_other k : forall (l : list Execution) j,
  j <> k -> nth_error (markSettled k l) j = nth_error l j.
Proof.
  induction k as [|k IH]; intros [|e l] j H; simpl; auto.
  - destruct j; [contradiction | reflexivity].
  - destruct j as [|j]; simpl; auto.
Qed.

Lemma markSettled_same k : forall (l : list Execution) ex,
  nth_error (markSettled k l) k = Some ex -> settled ex = true.
Proof.
  induction k as [|k IH]; intros [|e l] ex H; simpl in H; try discriminate.
  - inversion H; reflexivity.
  - eauto.
Qed.

Lemma markSettled_settled k : forall (l : list Execution) j ex ex',
  nth_error l j = Some ex -> settled ex = true ->
  nth_error (markSettled k l) j = Some ex' -> settled ex' = true.
Proof.
  intros l j ex ex' H Hs H'.
  destruct (Nat.eq_dec j k) as [->|N].
  - eapply markSettled_same; eauto.
  - rewrite markSettled_other in H' by exact N. congruence.
Qed.

Lemma markSettled_length k : forall (l : list Execution),
  length (markSettled k l) = length l.
Proof.
  induction k as [|k IH]; intros [|e l]; simpl; auto.
Qed.

Lemma onSettled_form ab ex o (s : Sched) :
  exists st aux,
    terminal st = true
    /\ onSettled createErrorResponse convertToFunctionResponse ab ex o s
       = setStatusInternal (Turn.callId (exRequest ex)) st aux s.
Proof.
  unfold onSettled. destruct o; [destruct ab|]; eexists _, _; split;
    try reflexivity; reflexivity.
Qed.

Lemma step_covered (w : World PartListUnion) e :
  covered (sched w) -> covered (sched (stepI w e)).
Proof.
  intros C. destruct e as [|k o]; simpl; [exact C|].
  destruct (nth_error (executions (sched w)) k) as [ex|] eqn:K; [|exact C].
  destruct (settled ex) eqn:Sx; [exact C|]. simpl.
  destruct (onSettled_form (aborted w) ex o (sched w)) as (st & aux & T & ->).
  intros c' Hc' Hn. simpl in Hc'.
  apply in_map_iff in Hc' as (c & <- & Hc).
  unfold moved in *.
  destruct (String.eqb_spec (Turn.callId (request c)) (Turn.callId (exRequest ex)))
    as [E|E]; simpl in *.
  - destruct (terminal (status c)) eqn:Tc; simpl in *; congruence.
  - destruct (C c Hc Hn) as (St & k' & ex' & K' & S' & I').
    split; [exact St|]. exists k', ex'.
    rewrite markSettled_other; [auto|].
    intros ->. rewrite K in K'. inversion K'; subst ex'.
    apply E. symmetry. exact I'.
Qed.

Lemma step_settledAt (w : World PartListUnion) e j :
  settledAt (sched w) j -> settledAt (sched (stepI w e)) j.
Proof.
  intros H. destruct e as [|k o]; simpl; [exact H|].
  destruct (nth_error (executions (sched w)) k) as [ex|] eqn:K; [|exact H].
  destruct (settled ex) eqn:Sx; [exact H|]. simpl.
  intros ex' H'. unfold settledAt in H. simpl in H'.
  rewrite onSettled_executions in H'.
  pose proof (H : forall ex, nth_error (executions (sched w)) j = Some ex ->
                              settled ex = true) as H0.
  destruct (nth_error (executions (sched w)) j) as [ex0|] eqn:J.
  - exact (markSettled_settled k _ j ex0 ex' J (H0 ex0 eq_refl) H').
  - apply nth_error_None in J.
    assert (nth_error (markSettled k (executions (sched w))) j = None) as N.
    { apply nth_error_None. now rewrite markSettled_length. }
    congruence.
Qed.

Lemma step_settles (w : World PartListUnion) k o :
  settledAt (sched (stepI w (Settle k o))) k.
Proof.
  unfold settledAt. simpl.
  destruct (nth_error (executions (sched w)) k) as [ex|] eqn:K.
  - destruct (settled ex) eqn:Sx.
    + intros ex' H'. congruence.
    + simpl. intros ex' H'. rewrite onSettled_executions in H'.
      eapply markSettled_same; eauto.
  - intros ex' H'. congruence.
Qed.

Lemma steps_covered evs : forall w : World PartListUnion,
  covered (sched w) -> covered (sched (stepsI w evs)).
Proof.
  induction evs as [|e evs IH]; intros w C; simpl; auto using step_covered.
Qed.

Lemma steps_settledAt evs : forall (w : World PartListUnion) j,
  settledAt (sched w) j -> settledAt (sched (stepsI w evs)) j.
Proof.
  induction evs as [|e evs IH]; intros w j H; simpl; auto using step_settledAt.
Qed.

Lemma steps_settles evs : forall (w : World PartListUnion) k o,
  In (Settle k o) evs -> settledAt (sched (stepsI w evs)) k.
Proof.
  induction evs as [|e evs IH]; intros w k o H; simpl; [contradiction|].
  destruct H as [->|H].
  - apply steps_settledAt, step_settles.
  - eapply IH; eauto.
Qed.

Lemma covered_all_settled (s : Sched) :
  covered s -> (forall k, settledAt s k) -> isRunning s = false.
Proof.
  intros C A. unfold isRunning.
  destruct (existsb _ _) eqn:X; [|reflexivity].
  apply existsb_exists in X as (c & Hc & N).
  apply negb_true_iff in N.
  destruct (C c Hc N) as (_ & k & ex & K & Sx & _).
  specialize (A k ex K). congruence.
Qed.

Lemma startedBy_covers now s ab (reqs : list Turn.ToolCallRequestInfo) q :
  In q reqs -> outcome s ab q = executing ->
  exists ex, In ex (startedBy now s ab reqs)
             /\ settled ex = false /\ exRequest ex = q.
Proof.
  intros Hq O.
  destruct (intake_executions now s ab reqs) as [E F].
  fold (startedBy now s ab reqs) in E, F.
  assert (I : In q (map exRequest (startedBy now s ab reqs))).
  { rewrite E. apply filter_In. split; [exact Hq|]. unfold launched. now rewrite O. }
  apply in_map_iff in I as (ex & Q & I).
  exists ex. rewrite Forall_forall in F. destruct (F ex I). auto.
Qed.

(** X8.  A batch runs to completion: when no request of the batch is left
    waiting for approval, once the promise of every execution has settled
    -- in any order, resolved or rejected, with or without an abort in
    between -- every record is in a terminal state, so the scheduler is
    idle and accepts the next batch. *)
Theorem batch_completes_when_all_settle
    (now : N) (ab ab' : bool) (r : ScheduleRequest) (s : Sched)
    (evs : list Event) :
  isRunning s = false ->
  NoDup (map Turn.callId (requestsToProcess r)) ->
  Forall (fun q => outcome s ab q <> awaiting_approval) (requestsToProcess r) ->
  let s' := snd (schedule createErrorResponse now ab r s) in
  (forall k, (k < length (executions s'))%nat -> exists o, In (Settle k o) evs) ->
  let final := sched (stepsI {| sched := s'; aborted := ab' |} evs) in
  isRunning final = false
  /\ forall now2 ab2 r2,
       NoDup (map Turn.callId (requestsToProcess r2)) ->
       fst (schedule createErrorResponse now2 ab2 r2 final) = Return tt.
Proof.
  intros Idle Hnd Hno s' Hall final.
  assert (R : isRunning final = false).
  { apply covered_all_settled.
    - apply steps_covered. simpl. subst s'.
      destruct (schedule_batch_state now ab r s Idle Hnd) as (s1 & X & E & Ex).
      rewrite X. simpl. intros c Hc Hn. rewrite E in Hc.
      apply in_app_or in Hc as [Hc|Hc].
      + apply In_nth_error in Hc as [i Hi].
        assert (terminal (status c) = true)
          by (eapply isRunning_false_terminal; eauto).
        congruence.
      + apply in_map_iff in Hc as (q & <- & Hq).
        rewrite recordOf_status in *.
        rewrite Forall_forall in Hno. specialize (Hno q Hq).
        assert (O : outcome s ab q = executing).
        { unfold outcome in *. destruct (toolRegistry s (Turn.name q)); [|discriminate].
          destruct (approvalOf _ _ _ _); try discriminate; congruence. }
        split; [exact O|].
        destruct (startedBy_covers now s ab _ q Hq O) as (ex & I & Sx & Q).
        apply In_nth_error in I as [k K].
        exists (length (executions s) + k)%nat, ex.
        rewrite Ex, nth_error_app2 by lia.
        replace (length (executions s) + k - length (executions s))%nat with k by lia.
        unfold callIdOf. rewrite recordOf_request, Q. auto.
    - intros k ex K.
      assert (L : (k < length (executions s'))%nat).
      { pose proof K as K1. apply steps_executions in K1 as (ex0 & K0 & _).
        simpl in K0. apply nth_error_Some. congruence. }
      destruct (Hall k L) as [o Ho].
      exact (steps_settles evs _ k o Ho ex K). }
  split; [exact R|].
  intros now2 ab2 r2 Hnd2.
  destruct (schedule_batch_state now2 ab2 r2 final R Hnd2) as (s2 & X & _).
  now rewrite X.
Qed.


End Intake.

Arguments outcome {PartListUnion}.
Arguments launched {PartListUnion}.

Definition sampleBatch : Scheduler.ScheduleRequest :=
  Scheduler.Many [sampleRequest "c1" "ls"; sampleRequest "c2" "rm"].

Lemma sampleBatch_distinct :
  NoDup (map Turn.callId (Scheduler.requestsToProcess sampleBatch)).
Proof.
  constructor; [simpl; intros [H|[]]; discriminate H|].
  constructor; [simpl; tauto | constructor].
Defined.

Lemma schedule_outcome_witness :
  exists s' records added,
    Scheduler.schedule sampleErrorResponse 0 false sampleBatch idleScheduler
    = (Return tt, s')
    /\ Scheduler.toolCalls s' = (Scheduler.toolCalls idleScheduler ++ records)%list
    /\ map Scheduler.request records = Scheduler.requestsToProcess sampleBatch
    /\ map Scheduler.status records
       = map (outcome idleScheduler false) (Scheduler.requestsToProcess sampleBatch)
    /\ Scheduler.executions s' = (Scheduler.executions idleScheduler ++ added)%list
    /\ map Scheduler.exRequest added
       = filter (launched idleScheduler false) (Scheduler.requestsToProcess sampleBatch)
    /\ Forall (fun ex =>
                 Scheduler.toolRegistry idleScheduler
                   (Turn.name (Scheduler.exRequest ex))
                 = Some (Scheduler.exTool ex)
                 /\ Scheduler.settled ex = false) added.
Proof.
  apply (schedule_outcome_of_a_batch string sampleErrorResponse
           sampleFunctionResponse 0%N false sampleBatch idleScheduler).
  - reflexivity.
  - exact sampleBatch_distinct.
Defined.

Lemma batch_completes_witness :
  let s' := snd (Scheduler.schedule sampleErrorResponse 0 false sampleBatch
                   idleScheduler) in
  let final :=
    Scheduler.sched
      (Scheduler.steps sampleErrorResponse sampleFunctionResponse
         {| Scheduler.sched := s'; Scheduler.aborted := false |}
         [Scheduler.Abort;
          Scheduler.Settle 0
            (Scheduler.Resolved {| Scheduler.llmContent := "a.txt";
                                   Scheduler.returnDisplay := "1 file" |})]) in
  Scheduler.isRunning final = false
  /\ forall now2 ab2 r2,
       NoDup (map Turn.callId (Scheduler.requestsToProcess r2)) ->
       fst (Scheduler.schedule sampleErrorResponse now2 ab2 r2 final) = Return tt.
Proof.
  apply (batch_completes_when_all_settle string sampleErrorResponse
           sampleFunctionResponse 0%N false false sampleBatch idleScheduler).
  - reflexivity.
  - exact sampleBatch_distinct.
  - constructor; [vm_compute; discriminate|].
    constructor; [vm_compute; discriminate | constructor].
  - intros k H. vm_compute in H.
    assert (k = 0)%nat as -> by lia.
    eexists. right. left. reflexivity.
Defined.

(** ** More about the agents *)

Section Delegation.
Import Genai.
Import Agents.

Variable PartListUnion : Type.
Variable env : Env.
Variable createErrorResponse :
  Turn.ToolCallRequestInfo -> Thrown -> Scheduler.ToolCallResponseInfo PartListUnion.
Variable getMainAgentSystemPrompt : string.

Local Abbreviation St := (State PartListUnion).
Local Abbreviation Msg := (AgentA2AMessage PartListUnion).
Local Abbreviation Mo := (M PartListUnion).
Local Abbreviation mainSend := (mainBusSend env createErrorResponse).
Local Abbreviation toolsSend := (toolsBusSend env createErrorResponse).

(** The user's input names a tool keyword. *)
Definition mentionsTool (userInput : string) : bool :=
  existsb (fun keyword => JS.includes (JS.toLowerCase userInput) keyword)
    toolKeywords.

Lemma mentionsTool_delegates response userInput :
  mentionsTool userInput = true ->
  analyzeForToolExecution response userInput = true.
Proof.
  unfold mentionsTool, analyzeForToolExecution. intros H.
  apply existsb_exists in H as (kw & I & H).
  apply existsb_exists. exists kw. split; [exact I|]. now rewrite H.
Qed.

(** State updates, as functions of the state. *)
Definition bump (n : nat) (s : St) : St :=
  {| isInitialized := isInitialized s;
     mainContext := mainContext s; mainCallback := mainCallback s;
     toolsContext := toolsContext s; toolsCallback := toolsCallback s;
     toolScheduler := toolScheduler s;
     mainAgentBus := mainAgentBus s; toolsAgentBus := toolsAgentBus s;
     releasedHistories := releasedHistories s;
     reads := n + reads s |}.

Definition onMainBus (m : Msg) (s : St) : St :=
  {| isInitialized := isInitialized s;
     mainContext := mainContext s; mainCallback := mainCallback s;
     toolsContext := toolsContext s; toolsCallback := toolsCallback s;
     toolScheduler := toolScheduler s;
     mainAgentBus := (mainAgentBus s ++ [m])%list; toolsAgentBus := toolsAgentBus s;
     releasedHistories := releasedHistories s;
     reads := reads s |}.

Definition onToolsBus (m : Msg) (s : St) : St :=
  {| isInitialized := isInitialized s;
     mainContext := mainContext s; mainCallback := mainCallback s;
     toolsContext := toolsContext s; toolsCallback := toolsCallback s;
     toolScheduler := toolScheduler s;
     mainAgentBus := mainAgentBus s; toolsAgentBus := (toolsAgentBus s ++ [m])%list;
     releasedHistories := releasedHistories s;
     reads := reads s |}.

Definition remembering (c : AgentContext) (items : list Content) (s : St) : St :=
  {| isInitialized := isInitialized s;
     mainContext :=
       Some {| sessionId := sessionId c;
               conversationHistory := (conversationHistory c ++ items)%list;
               currentTask := currentTask c |};
     mainCallback := mainCallback s;
     toolsContext := toolsContext s; toolsCallback := toolsCallback s;
     toolScheduler := toolScheduler s;
     mainAgentBus := mainAgentBus s; toolsAgentBus := toolsAgentBus s;
     releasedHistories := releasedHistories s;
     reads := reads s |}.

Definition withScheduler (t : Scheduler.CoreToolScheduler PartListUnion) (s : St)
  : St :=
  {| isInitialized := isInitialized s;
     mainContext := mainContext s; mainCallback := mainCallback s;
     toolsContext := toolsContext s; toolsCallback := toolsCallback s;
     toolScheduler := t;
     mainAgentBus := mainAgentBus s; toolsAgentBus := toolsAgentBus s;
     releasedHistories := releasedHistories s;
     reads := reads s |}.

Lemma bind_step {A B} (c : Mo A) (k : A -> Mo B) s a s1 :
  c s = Some (Return a, s1) -> bind c k s = k a s1.
Proof. unfold bind. now intros ->. Qed.

Lemma bind_throws {A B} (c : Mo A) (k : A -> Mo B) s e s1 :
  c s = Some (Throw e, s1) -> bind c k s = Some (Throw e, s1).
Proof. unfold bind. now intros ->. Qed.

Lemma now_step s :
  now env s = Some (Return (dateNow env (reads s)), bump 1 s).
Proof. reflexivity. Qed.

Lemma callGenerateContent_step client contents s :
  callGenerateContent client contents s
  = Some (generateContent client (reads s) contents, bump 1 s).
Proof. reflexivity. Qed.

Lemma pushMainBus_step (m : Msg) s :
  pushMainBus m s = Some (Return tt, onMainBus m s).
Proof. reflexivity. Qed.

Lemma pushToolsBus_step (m : Msg) s :
  pushToolsBus m s = Some (Return tt, onToolsBus m s).
Proof. reflexivity. Qed.

Lemma pushMainHistory_step items s c :
  mainContext s = Some c ->
  pushMainHistory items s = Some (Return tt, remembering c items s).
Proof.
  intros H. unfold pushMainHistory, bind, get. now rewrite H.
Qed.

Lemma mainSend_S fuel (message : Msg) :
  mainSend (S fuel) message
  = bind (pushMainBus message)
      (fun _ =>
         if AgentType_eqb (toAgent message) TOOLS then
           detached
             (bind (toolsProcessMessage env createErrorResponse (toolsSend fuel) message)
                (fun response =>
                   match response with
                   | Some r => toolsSend fuel r
                   | None => ret tt
                   end))
         else ret tt).
Proof. reflexivity. Qed.

Lemma toolsSend_S fuel (message : Msg) :
  toolsSend (S fuel) message
  = bind (pushToolsBus message)
      (fun _ =>
         if AgentType_eqb (toAgent message) MAIN then
           detached
             (bind (mainProcessMessage env message)
                (fun response =>
                   match response with
                   | Some r => mainSend fuel r
                   | None => ret tt
                   end))
         else ret tt).
Proof. reflexivity. Qed.

(** A message to the main agent that it does not answer is recorded on the
    tools agent's bus and nothing else happens. *)
Lemma toolsSend_unanswered fuel (m : Msg) s s1 :
  toAgent m = MAIN ->
  mainProcessMessage env m (onToolsBus m s) = Some (Return None, s1) ->
  toolsSend (S fuel) m s = Some (Return tt, s1).
Proof.
  intros To H. rewrite toolsSend_S.
  rewrite (bind_step _ _ _ _ _ (pushToolsBus_step m s)).
  rewrite To. cbn [AgentType_eqb]. unfold detached, tryCatch.
  now rewrite (bind_step _ _ _ _ _ H).
Qed.

Lemma sendStatusUpdate_routed fuel status s :
  toolsCallback s = Some ToOwnBus ->
  sendStatusUpdate env (toolsSend (S fuel)) status s
  = Some (Return tt,
          onToolsBus (statusUpdate (dateNow env (reads s))
                        (dateNow env (S (reads s))) status)
            (bump 2 s)).
Proof.
  intros H. unfold sendStatusUpdate, bind at 1, get. rewrite H.
  rewrite (bind_step _ _ _ _ _ (now_step s)).
  rewrite (bind_step _ _ _ _ _ (now_step _)).
  cbn [invoke]. apply toolsSend_unanswered; reflexivity.
Qed.

Lemma scheduleToolCalls_empty s :
  Scheduler.isRunning (toolScheduler s) = false ->
  scheduleToolCalls env createErrorResponse [] s
  = Some (Return tt,
          withScheduler
            (Scheduler.withToolCalls (toolScheduler s)
               (Scheduler.toolCalls (toolScheduler s) ++ [])%list)
            (bump 1 s)).
Proof.
  intros H. unfold scheduleToolCalls, bind at 1, tick. cbv beta iota.
  unfold bind at 1, get. cbv beta iota. cbn [toolScheduler].
  rewrite schedule_empty, H. reflexivity.
Qed.

(** The state and the answer of the tools agent after a tool-execution
    request, when its backend answers and the scheduler is idle. *)
Definition afterExecution (s : St) : St :=
  bump 2
    (withScheduler
       (Scheduler.withToolCalls (toolScheduler s)
          (Scheduler.toolCalls (toolScheduler s) ++ [])%list)
       (bump 2
          (onToolsBus
             (statusUpdate (dateNow env (reads s)) (dateNow env (S (reads s)))
                "Starting tool execution...")
             (bump 2 s)))).

Definition executionAnswer (s : St) : Msg :=
  toolExecutionResponse (dateNow env (4 + reads s)) (dateNow env (5 + reads s))
    "Tool execution completed" true None.

Lemma callGenerateContent_returns client contents s r :
  generateContent client (reads s) contents = Return r ->
  callGenerateContent client contents s = Some (Return r, bump 1 s).
Proof. intros H. now rewrite callGenerateContent_step, H. Qed.

Lemma callGenerateContent_throws client contents s e :
  generateContent client (reads s) contents = Throw e ->
  callGenerateContent client contents s = Some (Throw e, bump 1 s).
Proof. intros H. now rewrite callGenerateContent_step, H. Qed.

(** What the tools agent asks its backend about a request, in state [s]. *)
Definition analysisOf (requestContent : string) (context : option RequestContext)
    (s : St) : Completion GenerateContentResponse :=
  generateContent (toolsClient env) (reads s)
    [textContent "user"
       (analysisPrompt requestContent (requestContext s context))].

Lemma analyzeAndCreateToolCalls_step requestContent context s :
  analyzeAndCreateToolCalls env requestContent context s
  = Some (match analysisOf requestContent context s with
          | Return _ => Return []
          | Throw e => Throw e
          end, bump 1 s).
Proof.
  unfold analyzeAndCreateToolCalls, analysisOf, bind at 1, get.
  cbv beta match. unfold bind. rewrite callGenerateContent_step.
  now destruct (generateContent _ _ _).
Qed.

Lemma analyzeAndCreateToolCalls_returns requestContent context s :
  (forall k c, exists r, generateContent (toolsClient env) k c = Return r) ->
  analyzeAndCreateToolCalls env requestContent context s
  = Some (Return [], bump 1 s).
Proof.
  intros H. rewrite analyzeAndCreateToolCalls_step. unfold analysisOf.
  destruct (H (reads s)
              [textContent "user"
                 (analysisPrompt requestContent (requestContext s context))])
    as [r E].
  now rewrite E.
Qed.

Lemma handleToolExecutionRequest_run fuel (request : Msg) s :
  toolsCallback s = Some ToOwnBus ->
  Scheduler.isRunning (toolScheduler s) = false ->
  (forall k c, exists r, generateContent (toolsClient env) k c = Return r) ->
  handleToolExecutionRequest env createErrorResponse (toolsSend (S fuel)) request s
  = Some (Return (executionAnswer s), afterExecution s).
Proof.
  intros Ht Hr Htools. unfold handleToolExecutionRequest, tryCatch, tryToolExecution.
  rewrite (bind_step _ _ _ _ _ (sendStatusUpdate_routed fuel _ s Ht)).
  rewrite (bind_step _ _ _ _ _ (analyzeAndCreateToolCalls_returns _ _ _ Htools)).
  rewrite (bind_step _ _ _ _ _
             (scheduleToolCalls_empty (bump 1 (onToolsBus _ (bump 2 s))) Hr)).
  rewrite (bind_step _ _ _ _ _ (now_step _)).
  rewrite (bind_step _ _ _ _ _ (now_step _)).
  reflexivity.
Qed.

Lemma sendStatusUpdate_unwired (send : Msg -> Mo unit) status (s : St) :
  toolsCallback s = None ->
  sendStatusUpdate env send status s = Some (Return tt, s).
Proof. intros H. unfold sendStatusUpdate, bind, get. now rewrite H. Qed.

Lemma sendStatusUpdate_external (send : Msg -> Mo unit) status (s : St) f :
  toolsCallback s = Some (External f) ->
  sendStatusUpdate env send status s
  = Some (f (statusUpdate (dateNow env (reads s)) (dateNow env (S (reads s)))
               status),
          bump 2 s).
Proof.
  intros H. unfold sendStatusUpdate, bind at 1, get. rewrite H.
  rewrite (bind_step _ _ _ _ _ (now_step s)).
  rewrite (bind_step _ _ _ _ _ (now_step _)).
  reflexivity.
Qed.

Lemma scheduleToolCalls_running s :
  Scheduler.isRunning (toolScheduler s) = true ->
  scheduleToolCalls env createErrorResponse [] s
  = Some (Throw Scheduler.alreadyRunning,
          withScheduler (toolScheduler s) (bump 1 s)).
Proof.
  intros H. unfold scheduleToolCalls, bind at 1, tick. cbv beta iota.
  unfold bind at 1, get. cbv beta iota. cbn [toolScheduler].
  rewrite schedule_empty, H. reflexivity.
Qed.

(** What the tools agent reports about a request once its status update
    is out, in state [s]: the failure of its backend, or that of
    [schedule], or success. *)
Definition verdict (requestContent : string) (context : option RequestContext)
    (s : St) : Payload PartListUnion :=
  match analysisOf requestContent context s with
  | Throw thrown => ToolExecutionResponse [] false (Some (messageOf thrown))
  | Return _ =>
      if Scheduler.isRunning (toolScheduler s)
      then ToolExecutionResponse [] false
             (Some (messageOf Scheduler.alreadyRunning))
      else ToolExecutionResponse [] true None
  end.

(** The [catch] block of [handleToolExecutionRequest]. *)
Lemma failure_reported (send : Msg -> Mo unit) (request : Msg) s thrown s1 :
  tryToolExecution env createErrorResponse send request s
  = Some (Throw thrown, s1) ->
  handleToolExecutionRequest env createErrorResponse send request s
  = Some (Return (toolExecutionResponse (dateNow env (reads s1))
                    (dateNow env (S (reads s1))) "Tool execution failed" false
                    (Some (messageOf thrown))),
          bump 2 s1).
Proof.
  intros E. unfold handleToolExecutionRequest, tryCatch. rewrite E.
  rewrite (bind_step _ _ _ _ _ (now_step _)).
  rewrite (bind_step _ _ _ _ _ (now_step _)).
  reflexivity.
Qed.

Lemma handleToolExecutionRequest_after_status (send : Msg -> Mo unit)
    (request : Msg) calls context s s1 :
  payload request = ToolExecutionRequest calls context ->
  sendStatusUpdate env send "Starting tool execution..." s = Some (Return tt, s1) ->
  exists reply s',
    handleToolExecutionRequest env createErrorResponse send request s
    = Some (Return reply, s')
    /\ fromAgent reply = TOOLS /\ toAgent reply = MAIN
    /\ Scheduler.toolCalls (toolScheduler s') = Scheduler.toolCalls (toolScheduler s1)
    /\ Scheduler.executions (toolScheduler s')
       = Scheduler.executions (toolScheduler s1)
    /\ payload reply = verdict (content request) context s1.
Proof.
  intros Hp E. unfold verdict.
  pose proof (analyzeAndCreateToolCalls_step (content request) context s1) as Ea.
  destruct (analysisOf (content request) context s1) as [r|e].
  - destruct (Scheduler.isRunning (toolScheduler s1)) eqn:R.
    + eexists _, _. split.
      * apply failure_reported. unfold tryToolExecution.
        rewrite (bind_step _ _ _ _ _ E), Hp.
        rewrite (bind_step _ _ _ _ _ Ea).
        exact (bind_throws _ _ _ _ _ (scheduleToolCalls_running (bump 1 s1) R)).
      * simpl. auto.
    + eexists _, _. split.
      * unfold handleToolExecutionRequest, tryCatch, tryToolExecution.
        rewrite (bind_step _ _ _ _ _ E), Hp.
        rewrite (bind_step _ _ _ _ _ Ea).
        rewrite (bind_step _ _ _ _ _ (scheduleToolCalls_empty (bump 1 s1) R)).
        rewrite (bind_step _ _ _ _ _ (now_step _)).
        rewrite (bind_step _ _ _ _ _ (now_step _)).
        reflexivity.
      * simpl. rewrite app_nil_r. auto.
  - eexists _, _. split.
    + apply failure_reported. unfold tryToolExecution.
      rewrite (bind_step _ _ _ _ _ E), Hp.
      exact (bind_throws _ _ _ _ _ Ea).
    + simpl. auto.
Qed.

Lemma verdict_cases requestContent context s :
  verdict requestContent context s = ToolExecutionResponse [] true None
  \/ exists thrown,
       verdict requestContent context s
       = ToolExecutionResponse [] false (Some (messageOf thrown)).
Proof.
  unfold verdict. destruct (analysisOf _ _ _) as [r|e]; [|eauto].
  destruct (Scheduler.isRunning _); eauto.
Qed.

(** C5, on the code.  The tools agent answers every tool-execution request
    with a tool-execution response to the main agent, and never throws:
    what its [try] block throws is reported with [success = false] and the
    message as [error].  But the calls the request names are not what it
    schedules: whatever [toolCalls] holds, the scheduler has the records
    and the executions it had before, no tool is invoked, and [toolResults]
    is empty also when the response reports success.  With the
    orchestrator's wiring the response is decided by the backend's answer
    to the analysis prompt and by whether the scheduler is running. *)
Theorem requested_calls_are_not_scheduled
    (fuel : nat) (request : Msg) (calls : list Turn.ToolCallRequestInfo)
    (context : option RequestContext) (s : St) :
  payload request = ToolExecutionRequest calls context ->
  exists reply s',
    handleToolExecutionRequest env createErrorResponse (toolsSend (2 + fuel))
      request s = Some (Return reply, s')
    /\ type reply = TOOL_EXECUTION_RESPONSE
    /\ fromAgent reply = TOOLS /\ toAgent reply = MAIN
    /\ (payload reply = ToolExecutionResponse [] true None
        \/ exists thrown,
             payload reply
             = ToolExecutionResponse [] false (Some (messageOf thrown)))
    /\ Scheduler.toolCalls (toolScheduler s') = Scheduler.toolCalls (toolScheduler s)
    /\ Scheduler.executions (toolScheduler s')
       = Scheduler.executions (toolScheduler s)
    /\ (toolsCallback s = Some ToOwnBus ->
        payload reply
        = match generateContent (toolsClient env) (2 + reads s)
                  [textContent "user"
                     (analysisPrompt (content request)
                        (requestContext s context))] with
          | Throw thrown =>
              ToolExecutionResponse [] false (Some (messageOf thrown))
          | Return _ =>
              if Scheduler.isRunning (toolScheduler s)
              then ToolExecutionResponse [] false
                     (Some (messageOf Scheduler.alreadyRunning))
              else ToolExecutionResponse [] true None
          end).
Proof.
  intros Hp. change (2 + fuel) with (S (S fuel)).
  assert (T : forall reply : Msg,
             (exists ok err, payload reply = ToolExecutionResponse [] ok err) ->
             type reply = TOOL_EXECUTION_RESPONSE).
  { intros reply (ok & err & P). unfold type. now rewrite P. }
  destruct (toolsCallback s) as [[|f]|] eqn:Ht.
  - destruct (handleToolExecutionRequest_after_status _ request calls context s _
                Hp (sendStatusUpdate_routed (S fuel) _ s Ht))
      as (reply & s' & E & F & To & C & X & P).
    exists reply, s'. split; [exact E|].
    split; [apply T; rewrite P; destruct (verdict_cases (content request) context
              (onToolsBus (statusUpdate (dateNow env (reads s))
                             (dateNow env (S (reads s)))
                             "Starting tool execution...") (bump 2 s)))
              as [V|[thrown V]]; rewrite V; eauto|].
    split; [exact F|]. split; [exact To|].
    split; [rewrite P; apply verdict_cases|].
    split; [exact C|]. split; [exact X|].
    intros _. exact P.
  - pose proof (sendStatusUpdate_external (toolsSend (S (S fuel)))
                  "Starting tool execution..." s f Ht) as Es.
    destruct (f _) as [[]|thrown].
    + destruct (handleToolExecutionRequest_after_status _ request calls context s _
                  Hp Es)
        as (reply & s' & E & F & To & C & X & P).
      exists reply, s'. split; [exact E|].
      split; [apply T; rewrite P; destruct (verdict_cases (content request) context
                (bump 2 s)) as [V|[thrown V]]; rewrite V; eauto|].
      split; [exact F|]. split; [exact To|].
      split; [rewrite P; apply verdict_cases|].
      split; [exact C|]. split; [exact X|]. discriminate.
    + eexists _, _. split.
      * apply failure_reported. unfold tryToolExecution.
        exact (bind_throws _ _ _ _ _ Es).
      * simpl. repeat split; eauto. discriminate.
  - destruct (handleToolExecutionRequest_after_status _ request calls context s _
                Hp (sendStatusUpdate_unwired (toolsSend (S (S fuel))) _ s Ht))
      as (reply & s' & E & F & To & C & X & P).
    exists reply, s'. split; [exact E|].
    split; [apply T; rewrite P; destruct (verdict_cases (content request) context s)
              as [V|[thrown V]]; rewrite V; eauto|].
    split; [exact F|]. split; [exact To|].
    split; [rewrite P; apply verdict_cases|].
    split; [exact C|]. split; [exact X|]. discriminate.
Qed.

(** The state and the answer of the main agent after a tool-execution
    response, when it has a context and its backend answers [r]. *)
Definition afterResults (c : AgentContext) (r : GenerateContentResponse) (s : St)
  : St :=
  bump 2 (remembering c [textContent "model" (extractResponseText r)] (bump 1 s)).

Definition resultsAnswer
    (toolResults : list (Scheduler.ToolCallResponseInfo PartListUnion))
    (r : GenerateContentResponse) (s : St) : Msg :=
  {| id := "response_" ++ JS.decimal (dateNow env (1 + reads s));
     fromAgent := MAIN;
     toAgent := TOOLS;
     timestamp := dateNow env (2 + reads s);
     content := extractResponseText r;
     metadata := Some {| mToolResults := toolResults; finalResponse := true |};
     payload := StatusUpdate "tool_results_processed" None |}.

Lemma handleToolExecutionResponse_run toolResults s c r :
  mainContext s = Some c ->
  generateContent (mainClient env) (reads s)
    [textContent "user" (synthesisPrompt toolResults)] = Return r ->
  handleToolExecutionResponse env toolResults s
  = Some (Return (Some (resultsAnswer toolResults r s)), afterResults c r s).
Proof.
  intros Hc Hg. unfold handleToolExecutionResponse, bind at 1, get. rewrite Hc.
  unfold generateFinalResponseFromToolResults.
  rewrite (bind_step _ _ _ _ _
             (bind_step _ _ _ _ _ (callGenerateContent_returns _ _ _ _ Hg))).
  unfold ret at 1.
  rewrite (bind_step _ _ _ _ _ (pushMainHistory_step _ (bump 1 s) c Hc)).
  rewrite (bind_step _ _ _ _ _ (now_step _)).
  rewrite (bind_step _ _ _ _ _ (now_step _)).
  reflexivity.
Qed.

(** A message to the tools agent that is not an execution request is
    recorded on the main agent's bus and nothing else happens. *)
Lemma mainSend_unanswered fuel (m : Msg) s :
  notExecutionRequest PartListUnion m ->
  mainSend (S fuel) m s = Some (Return tt, onMainBus m s).
Proof.
  intros H. rewrite mainSend_S.
  rewrite (bind_step _ _ _ _ _ (pushMainBus_step m s)).
  destruct (AgentType_eqb (toAgent m) TOOLS); [|reflexivity].
  unfold detached, tryCatch.
  now rewrite (bind_step _ _ _ _ _
                 (toolsProcessMessage_silent PartListUnion env createErrorResponse
                    _ m _ H)).
Qed.

(** A tool-execution response sent on the tools agent's bus: the main
    agent synthesizes the final text, records it in its history and reports
    on its own bus. *)
Lemma toolsSend_results fuel (m : Msg) toolResults ok err s c r :
  toAgent m = MAIN ->
  payload m = ToolExecutionResponse toolResults ok err ->
  mainContext s = Some c ->
  generateContent (mainClient env) (reads s)
    [textContent "user" (synthesisPrompt toolResults)] = Return r ->
  toolsSend (S (S fuel)) m s
  = Some (Return tt,
          onMainBus (resultsAnswer toolResults r (onToolsBus m s))
            (afterResults c r (onToolsBus m s))).
Proof.
  intros To Hp Hc Hg. rewrite toolsSend_S.
  rewrite (bind_step _ _ _ _ _ (pushToolsBus_step m s)).
  rewrite To. cbn [AgentType_eqb]. unfold detached, tryCatch.
  assert (P : mainProcessMessage env m (onToolsBus m s)
              = Some (Return (Some (resultsAnswer toolResults r (onToolsBus m s))),
                      afterResults c r (onToolsBus m s))).
  { unfold mainProcessMessage. rewrite Hp.
    now apply handleToolExecutionResponse_run. }
  rewrite (bind_step _ _ _ _ _ P). cbv beta match.
  rewrite mainSend_unanswered by exact I. reflexivity.
Qed.

Definition delegationRequest (userInput : string) (s : St) : Msg :=
  {| id := "tool_request_" ++ JS.decimal (dateNow env (reads s));
     fromAgent := MAIN;
     toAgent := TOOLS;
     timestamp := dateNow env (S (reads s));
     content := "Execute tools for: " ++ userInput;
     metadata := None;
     payload := ToolExecutionRequest []
                  (option_map (fun _ => MainHistory (liveHistory s))
                     (mainContext s)) |}.

Lemma createToolExecutionRequest_step userInput planResponse s :
  createToolExecutionRequest env userInput planResponse s
  = Some (Return (delegationRequest userInput s), bump 2 s).
Proof. reflexivity. Qed.

(** A tool-execution request sent on the main agent's bus, when both
    backends answer and the scheduler is idle. *)
Lemma mainSend_request fuel (m : Msg) toolCalls context s c :
  toAgent m = TOOLS ->
  payload m = ToolExecutionRequest toolCalls context ->
  mainContext s = Some c ->
  toolsCallback s = Some ToOwnBus ->
  Scheduler.isRunning (toolScheduler s) = false ->
  (forall k c, exists r, generateContent (mainClient env) k c = Return r) ->
  (forall k c, exists r, generateContent (toolsClient env) k c = Return r) ->
  exists r,
    let s1 := onMainBus m s in
    let s2 := onToolsBus (executionAnswer s1) (afterExecution s1) in
    mainSend (S (S (S fuel))) m s
    = Some (Return tt, onMainBus (resultsAnswer [] r s2) (afterResults c r s2)).
Proof.
  intros To Hp Hc Ht Hr Hmain Htools.
  destruct (Hmain (reads (onToolsBus (executionAnswer (onMainBus m s))
                            (afterExecution (onMainBus m s))))
              [textContent "user" (synthesisPrompt (PartListUnion := PartListUnion) [])])
    as [r E].
  exists r. cbv zeta. rewrite mainSend_S.
  rewrite (bind_step _ _ _ _ _ (pushMainBus_step m s)).
  rewrite To. cbn [AgentType_eqb]. unfold detached, tryCatch.
  assert (P : toolsProcessMessage env createErrorResponse (toolsSend (S (S fuel))) m
                (onMainBus m s)
              = Some (Return (Some (executionAnswer (onMainBus m s))),
                      afterExecution (onMainBus m s))).
  { unfold toolsProcessMessage. rewrite Hp.
    now rewrite (bind_step _ _ _ _ _
                   (handleToolExecutionRequest_run (S fuel) m (onMainBus m s) Ht Hr Htools)). }
  rewrite (bind_step _ _ _ _ _ P). cbv beta match.
  now rewrite (toolsSend_results fuel (executionAnswer (onMainBus m s)) [] true None
                 (afterExecution (onMainBus m s)) c r eq_refl eq_refl Hc E).
Qed.

Lemma historyAt_live (s : St) :
  historyAt s (liveHistory s) = option_map conversationHistory (mainContext s).
Proof.
  unfold historyAt.
  replace (nth_error (releasedHistories s) (liveHistory s))
    with (@None (list Content)).
  - now rewrite Nat.eqb_refl.
  - symmetry. apply nth_error_None. unfold liveHistory. lia.
Qed.

(** As long as the main agent holds its context, the array a request was
    given reads as the history of that context. *)
Lemma historyAt_held (s s' : St) :
  releasedHistories s' = releasedHistories s ->
  historyAt s' (liveHistory s)
  = option_map conversationHistory (mainContext s').
Proof.
  intros H. rewrite <- (historyAt_live s'). unfold liveHistory. now rewrite H.
Qed.

(** X9.  A delegated input, once the routing it sets off has run to its
    end: when the input names a tool keyword, both backends answer and the
    scheduler is idle, [handleUserInput] returns the coordinating notice;
    the main agent's bus receives the tool-execution request and then the
    [tool_results_processed] status update, the tools agent's bus the
    [Starting tool execution...] status update and then a successful
    tool-execution response without results; the history gains the
    synthesized final text only, not the user's input; and no tool is
    executed.  The request carries the main agent's history array itself:
    read when the input arrives it is the history as it was, and read
    from the bus in the end it shows the final text as well. *)
Theorem delegation_round_trip
    (fuel : nat) (userInput : string) (s : St) (ctx : AgentContext) :
  isInitialized s = true ->
  mainContext s = Some ctx ->
  mainCallback s = Some ToOwnBus ->
  toolsCallback s = Some ToOwnBus ->
  Scheduler.isRunning (toolScheduler s) = false ->
  (forall k c, exists r, generateContent (mainClient env) k c = Return r) ->
  (forall k c, exists r, generateContent (toolsClient env) k c = Return r) ->
  mentionsTool userInput = true ->
  exists s' request starting response processed final,
    handleUserInput env createErrorResponse getMainAgentSystemPrompt
      (3 + fuel) userInput s = Some (Return coordinating, s')
    /\ mainAgentBus s' = (mainAgentBus s ++ [request; processed])%list
    /\ toolsAgentBus s' = (toolsAgentBus s ++ [starting; response])%list
    /\ payload request = ToolExecutionRequest [] (Some (MainHistory (liveHistory s)))
    /\ historyAt s (liveHistory s) = Some (conversationHistory ctx)
    /\ historyAt s' (liveHistory s)
       = Some (conversationHistory ctx ++ [textContent "model" final])%list
    /\ content request = "Execute tools for: " ++ userInput
    /\ payload starting = StatusUpdate "Starting tool execution..." None
    /\ payload response = ToolExecutionResponse [] true None
    /\ payload processed = StatusUpdate "tool_results_processed" None
    /\ metadata processed = Some {| mToolResults := []; finalResponse := true |}
    /\ content processed = final
    /\ option_map conversationHistory (mainContext s')
       = Some (conversationHistory ctx ++ [textContent "model" final])%list
    /\ Scheduler.executions (toolScheduler s') = Scheduler.executions (toolScheduler s).
Proof.
  intros Hi Hc Hm Ht Hr Hmain Htools Hk.
  change (3 + fuel) with (S (S (S fuel))).
  unfold handleUserInput, bind at 1, get. rewrite Hi. cbn [negb].
  unfold tryCatch, mainHandleUserInput, bind at 1, get. rewrite Hc.
  match goal with
  | |- context [callGenerateContent (mainClient env) ?c] =>
      destruct (Hmain (reads s) c) as [r1 E1];
      rewrite (bind_step _ _ _ _ _ (callGenerateContent_returns _ _ _ _ E1))
  end.
  rewrite (mentionsTool_delegates _ _ Hk).
  rewrite (bind_step _ _ _ _ _ (createToolExecutionRequest_step _ _ _)).
  unfold bind at 1, get. cbn [mainCallback bump]. rewrite Hm. cbn [invoke].
  destruct (mainSend_request fuel (delegationRequest userInput (bump 1 s))
              [] (Some (MainHistory (liveHistory s))) (bump 2 (bump 1 s)) ctx)
    as [r3 E3]; auto.
  { simpl. now rewrite Hc. }
  cbv zeta in E3.
  rewrite (bind_step _ _ _ _ _ E3). unfold ret.
  eexists _, _, _, _, _, _. split; [reflexivity|].
  cbn [mainAgentBus toolsAgentBus onMainBus afterResults afterExecution bump
       remembering onToolsBus withScheduler mainContext toolScheduler option_map
       conversationHistory].
  rewrite <- !app_assoc. cbn [List.app].
  rewrite historyAt_live, (historyAt_held s) by reflexivity. rewrite Hc.
  repeat split; try reflexivity.
  simpl. now rewrite Hc.
Qed.


(** The conversation the main agent sends to its backend for an input. *)
Definition conversationFor (ctx : AgentContext) (userInput : string)
  : list Content :=
  ([textContent "user" getMainAgentSystemPrompt;
    textContent "model"
      "I understand. I am the main planning agent and will work with the tools agent to help you."]
   ++ conversationHistory ctx ++ [textContent "user" userInput])%list.

(** X10.  An input that is not delegated: when the backend answers and
    neither the input nor the answer names a tool keyword, the answer's
    text is returned and the input and the answer are appended to the
    conversation history; when the backend throws, [Error: ] and the
    message are returned and the history is left as it was.  Either way no
    message is sent on a bus and the scheduler is not touched. *)
Theorem undelegated_input_outcome
    (fuel : nat) (userInput : string) (s : St) (ctx : AgentContext) :
  isInitialized s = true ->
  mainContext s = Some ctx ->
  let answer := generateContent (mainClient env) (reads s)
                  (conversationFor ctx userInput) in
  match answer with
  | Return r => analyzeForToolExecution (extractResponseText r) userInput = false
  | Throw _ => True
  end ->
  exists s',
    handleUserInput env createErrorResponse getMainAgentSystemPrompt
      fuel userInput s
    = Some (Return match answer with
                   | Return r => extractResponseText r
                   | Throw e => "Error: " ++ messageOf e
                   end, s')
    /\ option_map conversationHistory (mainContext s')
       = Some match answer with
              | Return r =>
                  (conversationHistory ctx
                   ++ [textContent "user" userInput;
                       textContent "model" (extractResponseText r)])%list
              | Throw _ => conversationHistory ctx
              end
    /\ mainAgentBus s' = mainAgentBus s
    /\ toolsAgentBus s' = toolsAgentBus s
    /\ toolScheduler s' = toolScheduler s.
Proof.
  intros Hi Hc answer Ha.
  unfold handleUserInput, bind at 1, get. rewrite Hi. cbn [negb].
  unfold tryCatch, mainHandleUserInput, bind at 1, get. rewrite Hc.
  fold (conversationFor ctx userInput).
  destruct answer as [r|e] eqn:Hg; subst answer.
  - rewrite (bind_step _ _ _ _ _ (callGenerateContent_returns _ _ _ _ Hg)).
    rewrite Ha.
    rewrite (bind_step _ _ _ _ _ (pushMainHistory_step _ (bump 1 s) ctx Hc)).
    eexists. split; [reflexivity|]. simpl. auto.
  - rewrite (bind_throws _ _ _ _ _ (callGenerateContent_throws _ _ _ _ Hg)).
    eexists. split; [reflexivity|]. simpl. rewrite Hc. auto.
Qed.

(** *** What routing keeps *)

(** What the main agent puts on its bus in answer to a message, and what
    the tools agent puts on its own. *)
Definition mainReply (m : Msg) : Prop :=
  fromAgent m = MAIN /\ toAgent m = TOOLS
  /\ (type m = PLANNING_RESPONSE \/ type m = STATUS_UPDATE).

Definition toolsReply (m : Msg) : Prop :=
  fromAgent m = TOOLS /\ toAgent m = MAIN
  /\ (type m = STATUS_UPDATE \/ type m = TOOL_EXECUTION_RESPONSE).

Definition historyGrows (o o' : option AgentContext) : Prop :=
  match o, o' with
  | None, None => True
  | Some c, Some c' =>
      sessionId c' = sessionId c
      /\ exists h, conversationHistory c' = (conversationHistory c ++ h)%list
  | _, _ => False
  end.

(** From [s] to [s'] both message histories have only grown, by replies
    of the agents, the conversation history has only grown, and the wiring
    is the same. *)
Definition grows (s s' : St) : Prop :=
  (exists a, mainAgentBus s' = (mainAgentBus s ++ a)%list /\ Forall mainReply a)
  /\ (exists b, toolsAgentBus s' = (toolsAgentBus s ++ b)%list /\ Forall toolsReply b)
  /\ historyGrows (mainContext s) (mainContext s')
  /\ isInitialized s' = isInitialized s
  /\ mainCallback s' = mainCallback s
  /\ toolsCallback s' = toolsCallback s
  /\ toolsContext s' = toolsContext s.

Definition growing {A} (c : Mo A) : Prop :=
  forall s r s', c s = Some (r, s') -> grows s s'.

Lemma historyGrows_refl o : historyGrows o o.
Proof.
  destruct o as [c|]; simpl; auto. split; auto. exists []. now rewrite app_nil_r.
Qed.

Lemma historyGrows_trans o1 o2 o3 :
  historyGrows o1 o2 -> historyGrows o2 o3 -> historyGrows o1 o3.
Proof.
  destruct o1 as [c1|], o2 as [c2|], o3 as [c3|]; simpl; try tauto.
  intros (S1 & h1 & H1) (S2 & h2 & H2). split; [congruence|].
  exists (h1 ++ h2)%list. now rewrite H2, H1, app_assoc.
Qed.

Lemma grows_simple s s' :
  mainAgentBus s' = mainAgentBus s -> toolsAgentBus s' = toolsAgentBus s ->
  mainContext s' = mainContext s -> isInitialized s' = isInitialized s ->
  mainCallback s' = mainCallback s -> toolsCallback s' = toolsCallback s ->
  toolsContext s' = toolsContext s -> grows s s'.
Proof.
  intros A B C D E F G. unfold grows. rewrite A, B, C.
  repeat split; auto using historyGrows_refl;
    exists []; (split; [now rewrite app_nil_r | constructor]).
Qed.

Lemma grows_refl s : grows s s.
Proof. now apply grows_simple. Qed.

Lemma grows_trans s1 s2 s3 : grows s1 s2 -> grows s2 s3 -> grows s1 s3.
Proof.
  intros ((a1 & A1 & Fa1) & (b1 & B1 & Fb1) & H1 & I1 & M1 & T1 & C1)
         ((a2 & A2 & Fa2) & (b2 & B2 & Fb2) & H2 & I2 & M2 & T2 & C2).
  unfold grows. repeat split; try congruence.
  - exists (a1 ++ a2)%list. split; [now rewrite A2, A1, app_assoc|].
    apply Forall_app; auto.
  - exists (b1 ++ b2)%list. split; [now rewrite B2, B1, app_assoc|].
    apply Forall_app; auto.
  - eapply historyGrows_trans; eauto.
Qed.

Lemma growing_pure {A} (c : Mo A) :
  (forall s, exists r, c s = Some (r, s)) -> growing c.
Proof.
  intros H s r s' E. destruct (H s) as [r0 E0]. rewrite E0 in E.
  inversion E; subst. apply grows_refl.
Qed.

Lemma growing_ret {A} (a : A) : growing (ret a).
Proof. apply growing_pure. intros s. eexists. reflexivity. Qed.

Lemma growing_throw {A} e : growing (@throw PartListUnion A e).
Proof. apply growing_pure. intros s. eexists. reflexivity. Qed.

Lemma growing_lift {A} (c : Completion A) : growing (lift c).
Proof. apply growing_pure. intros s. eexists. reflexivity. Qed.

Lemma growing_get : growing (@get PartListUnion).
Proof. apply growing_pure. intros s. eexists. reflexivity. Qed.

Lemma growing_step {A} (c : Mo A) (f : St -> St) (r : St -> Completion A) :
  (forall s, c s = Some (r s, f s)) -> (forall s, grows s (f s)) -> growing c.
Proof.
  intros H G s r0 s' E. rewrite H in E. inversion E; subst. apply G.
Qed.

Lemma growing_tick : growing (@tick PartListUnion).
Proof.
  apply (growing_step _ (bump 1) (fun s => Return (reads s))); [reflexivity|].
  intros s. now apply grows_simple.
Qed.

(** The continuation need only keep the histories on the values the
    first computation returns. *)
Lemma growing_bind_on {A B} (c : Mo A) (k : A -> Mo B) (P : A -> Prop) :
  growing c -> (forall s a s', c s = Some (Return a, s') -> P a) ->
  (forall a, P a -> growing (k a)) -> growing (bind c k).
Proof.
  intros Hc HP Hk s r s' E. unfold bind in E.
  destruct (c s) as [[[a|e] s1]|] eqn:C; try discriminate.
  - eapply grows_trans; [eapply Hc; eauto | eapply Hk; eauto].
  - inversion E; subst. eapply Hc; eauto.
Qed.

Lemma growing_bind {A B} (c : Mo A) (k : A -> Mo B) :
  growing c -> (forall a, growing (k a)) -> growing (bind c k).
Proof.
  intros Hc Hk. apply (growing_bind_on c k (fun _ => True)); auto.
Qed.

Lemma growing_tryCatch {A} (c : Mo A) h :
  growing c -> (forall e, growing (h e)) -> growing (tryCatch c h).
Proof.
  intros Hc Hh s r s' E. unfold tryCatch in E.
  destruct (c s) as [[[a|e] s1]|] eqn:C; try discriminate.
  - inversion E; subst. eapply Hc; eauto.
  - eapply grows_trans; [eapply Hc; eauto | eapply Hh; eauto].
Qed.

Lemma growing_detached (c : Mo unit) : growing c -> growing (detached c).
Proof. intros H. apply growing_tryCatch; auto using growing_ret. Qed.

Lemma growing_now : growing (now env (PartListUnion := PartListUnion)).
Proof. apply growing_bind; auto using growing_tick, growing_ret. Qed.

Lemma growing_callGenerateContent client contents :
  growing (callGenerateContent (PartListUnion := PartListUnion) client contents).
Proof. apply growing_bind; auto using growing_tick, growing_lift. Qed.

Ltac growing_step :=
  first
    [ apply growing_ret | apply growing_throw | apply growing_lift
    | apply growing_get | apply growing_tick | apply growing_now
    | apply growing_callGenerateContent
    | apply growing_bind; [|intros ?]
    | apply growing_tryCatch; [|intros ?]
    | apply growing_detached ].

Lemma growing_pushMainBus (m : Msg) : mainReply m -> growing (pushMainBus m).
Proof.
  intros R.
  apply (growing_step _ (onMainBus m) (fun _ => Return tt)); [reflexivity|].
  intros s. unfold grows. simpl.
  repeat split; auto using historyGrows_refl.
  - exists [m]. auto.
  - exists []. split; [now rewrite app_nil_r | constructor].
Qed.

Lemma growing_pushToolsBus (m : Msg) : toolsReply m -> growing (pushToolsBus m).
Proof.
  intros R.
  apply (growing_step _ (onToolsBus m) (fun _ => Return tt)); [reflexivity|].
  intros s. unfold grows. simpl.
  repeat split; auto using historyGrows_refl.
  - exists []. split; [now rewrite app_nil_r | constructor].
  - exists [m]. auto.
Qed.

Lemma growing_pushMainHistory items :
  growing (pushMainHistory (PartListUnion := PartListUnion) items).
Proof.
  intros s r s' E. unfold pushMainHistory, bind, get in E.
  destruct (mainContext s) as [c|] eqn:C.
  - inversion E; subst. unfold grows. simpl. rewrite C. simpl.
    repeat split; eauto;
      exists []; (split; [now rewrite app_nil_r | constructor]).
  - inversion E; subst. apply grows_refl.
Qed.

Lemma growing_setToolScheduler t :
  growing (setToolScheduler (PartListUnion := PartListUnion) t).
Proof.
  apply (growing_step _ (withScheduler t) (fun _ => Return tt)); [reflexivity|].
  intros s. now apply grows_simple.
Qed.

Lemma growing_mainProcessMessage (m : Msg) : growing (mainProcessMessage env m).
Proof.
  unfold mainProcessMessage. destruct (payload m); try apply growing_ret.
  - unfold handleToolExecutionResponse.
    apply growing_bind; [apply growing_get|]. intros s.
    destruct (mainContext s); [|apply growing_ret].
    unfold generateFinalResponseFromToolResults.
    apply growing_bind; [repeat growing_step|]. intros final.
    apply growing_bind; [apply growing_pushMainHistory|]. intros _.
    repeat growing_step.
  - unfold handlePlanningRequest. repeat growing_step.
Qed.

(** What the main agent answers is a reply of the main agent. *)
Lemma mainProcessMessage_reply (m : Msg) s r s' :
  mainProcessMessage env m s = Some (Return (Some r), s') -> mainReply r.
Proof.
  unfold mainProcessMessage, mainReply, type. destruct (payload m); try discriminate.
  - unfold handleToolExecutionResponse, bind, get.
    destruct (mainContext s); [|discriminate].
    destruct (generateFinalResponseFromToolResults env toolResults s)
      as [[[final|e] s1]|]; try discriminate.
    destruct (pushMainHistory _ s1) as [[[[]|e] s2]|]; try discriminate.
    unfold now, bind, tick, ret. simpl.
    intros H; inversion H; subst; simpl. auto.
  - unfold bind at 1.
    destruct (handlePlanningRequest env situation availableTools s)
      as [[[x|e] s1]|] eqn:E; try discriminate.
    unfold ret. intros H; inversion H; subst.
    revert E. unfold handlePlanningRequest, bind at 1.
    destruct (callGenerateContent _ _ s) as [[[resp|e] s2]|]; try discriminate.
    unfold now, bind, tick, ret. simpl.
    intros H2; inversion H2; subst; simpl. auto.
Qed.

Lemma mainReply_notExecutionRequest (m : Msg) :
  mainReply m -> notExecutionRequest PartListUnion m.
Proof.
  unfold mainReply, notExecutionRequest, type.
  intros (_ & _ & T). destruct (payload m); auto.
  destruct T; discriminate.
Qed.

Lemma growing_invoke send cb (m : Msg) :
  growing (send m) -> growing (invoke send cb m).
Proof. intros H. destruct cb; simpl; [apply H | apply growing_lift]. Qed.

(** The tools agent hands its bus nothing but its status updates. *)
Lemma growing_handleToolExecutionRequest send (m : Msg) :
  (forall x, toolsReply x -> growing (send x)) ->
  growing (handleToolExecutionRequest env createErrorResponse send m).
Proof.
  intros H. unfold handleToolExecutionRequest, tryToolExecution.
  apply growing_tryCatch; [|intros e; repeat growing_step].
  apply growing_bind.
  - unfold sendStatusUpdate. apply growing_bind; [apply growing_get|]. intros s.
    destruct (toolsCallback s); [|apply growing_ret].
    apply growing_bind; [apply growing_now|]. intros t1.
    apply growing_bind; [apply growing_now|]. intros t2.
    apply growing_invoke. apply H. unfold toolsReply, type. simpl. auto.
  - intros _. apply growing_bind.
    + unfold analyzeAndCreateToolCalls. repeat growing_step.
    + intros calls. apply growing_bind.
      * unfold scheduleToolCalls.
        apply growing_bind; [apply growing_tick|]. intros k.
        apply growing_bind; [apply growing_get|]. intros s.
        destruct (Scheduler.schedule _ _ _ _ _) as [r sched'].
        apply growing_bind; [apply growing_setToolScheduler|]. intros _.
        apply growing_lift.
      * intros _. repeat growing_step.
Qed.

(** What the tools agent answers is a reply of the tools agent. *)
Lemma handleToolExecutionRequest_reply send (m : Msg) s r s' :
  handleToolExecutionRequest env createErrorResponse send m s
  = Some (Return r, s') ->
  toolsReply r.
Proof.
  unfold handleToolExecutionRequest, tryCatch.
  destruct (tryToolExecution env createErrorResponse send m s)
    as [[[resp|e] s1]|] eqn:E; try discriminate.
  - intros H; inversion H; subst. revert E. unfold tryToolExecution.
    intros E. apply bind_returns in E as ([] & sa & _ & E).
    apply bind_returns in E as (calls & sb & _ & E).
    apply bind_returns in E as ([] & sc & _ & E).
    revert E. unfold now, bind, tick, ret. simpl.
    intros X; inversion X; subst. unfold toolsReply, type. simpl. auto.
  - unfold now, bind, tick, ret. simpl.
    intros X; inversion X; subst. unfold toolsReply, type. simpl. auto.
Qed.

Lemma growing_toolsRouting send (later : Msg -> Mo unit) (m : Msg) :
  (forall x, toolsReply x -> growing (send x)) ->
  (forall x, toolsReply x -> growing (later x)) ->
  growing
    (bind (toolsProcessMessage env createErrorResponse send m)
       (fun response =>
          match response with
          | Some r => later r
          | None => ret tt
          end)).
Proof.
  intros Hs Hl.
  apply (growing_bind_on _ _
           (fun response => match response with
                            | Some r => toolsReply r
                            | None => True
                            end)).
  - unfold toolsProcessMessage. destruct (payload m); try apply growing_ret.
    apply growing_bind; [now apply growing_handleToolExecutionRequest|].
    intros; apply growing_ret.
  - intros s [r|] s' E; [|exact I].
    revert E. unfold toolsProcessMessage. destruct (payload m); try discriminate.
    intros E. apply bind_returns in E as (r0 & s1 & E & R).
    inversion R; subst. eapply handleToolExecutionRequest_reply; eauto.
  - intros [r|] R; [now apply Hl | apply growing_ret].
Qed.

Lemma growing_mainRouting (later : Msg -> Mo unit) (m : Msg) :
  (forall x, mainReply x -> growing (later x)) ->
  growing
    (bind (mainProcessMessage env m)
       (fun response =>
          match response with
          | Some r => later r
          | None => ret tt
          end)).
Proof.
  intros Hl.
  apply (growing_bind_on _ _
           (fun response => match response with
                            | Some r => mainReply r
                            | None => True
                            end)).
  - apply growing_mainProcessMessage.
  - intros s [r|] s' E; [|exact I]. eapply mainProcessMessage_reply; eauto.
  - intros [r|] R; [now apply Hl | apply growing_ret].
Qed.

(** Sending a reply keeps the histories as replies. *)
Lemma growing_sends fuel :
  (forall m : Msg, mainReply m -> growing (mainSend fuel m))
  /\ (forall m : Msg, toolsReply m -> growing (toolsSend fuel m)).
Proof.
  induction fuel as [|fuel [IHm IHt]].
  - split; intros m _ s r s' E; discriminate.
  - split; intros m R.
    + rewrite mainSend_S.
      apply growing_bind; [now apply growing_pushMainBus|]. intros _.
      destruct (AgentType_eqb (toAgent m) TOOLS); [|apply growing_ret].
      apply growing_detached. now apply growing_toolsRouting.
    + rewrite toolsSend_S.
      apply growing_bind; [now apply growing_pushToolsBus|]. intros _.
      destruct (AgentType_eqb (toAgent m) MAIN); [|apply growing_ret].
      apply growing_detached. now apply growing_mainRouting.
Qed.

Lemma detached_returns (c : Mo unit) s r s' :
  detached c s = Some (r, s') -> r = Return tt.
Proof.
  unfold detached, tryCatch, ret.
  destruct (c s) as [[[[]|e] s1]|]; intros E; inversion E; reflexivity.
Qed.

(** X11.  [sendMessage] never rejects, whatever the listeners do: sending
    a message on either bus returns normally and the message is the first
    addition to that bus's history.  Once the routing has run to its end,
    everything else added to the main agent's bus is a planning response or
    a status update from the main agent to the tools agent, and everything
    else added to the tools agent's bus a status update or a tool-execution
    response from the tools agent to the main agent; the conversation
    history has only grown, and the initialization flag and the agents'
    callbacks are as before. *)
Theorem sendMessage_only_appends (fuel : nat) (m : Msg) (s : St) :
  (exists s' a b,
      mainSend (3 + fuel) m s = Some (Return tt, s')
      /\ mainAgentBus s' = (mainAgentBus s ++ m :: a)%list
      /\ toolsAgentBus s' = (toolsAgentBus s ++ b)%list
      /\ Forall mainReply a /\ Forall toolsReply b
      /\ historyGrows (mainContext s) (mainContext s')
      /\ isInitialized s' = isInitialized s
      /\ mainCallback s' = mainCallback s
      /\ toolsCallback s' = toolsCallback s)
  /\ (exists s' a b,
         toolsSend (3 + fuel) m s = Some (Return tt, s')
         /\ mainAgentBus s' = (mainAgentBus s ++ a)%list
         /\ toolsAgentBus s' = (toolsAgentBus s ++ m :: b)%list
         /\ Forall mainReply a /\ Forall toolsReply b
         /\ historyGrows (mainContext s) (mainContext s')
         /\ isInitialized s' = isInitialized s
         /\ mainCallback s' = mainCallback s
         /\ toolsCallback s' = toolsCallback s).
Proof.
  change (3 + fuel) with (S (S (S fuel))). split.
  - pose proof (total_mainSend PartListUnion env createErrorResponse fuel m s) as T.
    destruct (mainSend (S (S (S fuel))) m s) as [[r s']|] eqn:E; [|contradiction].
    rewrite mainSend_S in E.
    rewrite (bind_step _ _ _ _ _ (pushMainBus_step m s)) in E.
    assert (R : r = Return tt /\ grows (onMainBus m s) s').
    { destruct (AgentType_eqb (toAgent m) TOOLS).
      - split; [eapply detached_returns; eauto|].
        revert E. apply growing_detached.
        apply growing_toolsRouting; apply growing_sends.
      - inversion E; subst. split; [reflexivity | apply grows_refl]. }
    destruct R as [-> ((a & A & Fa) & (b & B & Fb) & H & I & Cm & Ct & _)].
    simpl in A, B, H, I, Cm, Ct.
    exists s', a, b. rewrite A, B, <- app_assoc. repeat split; auto.
  - pose proof (total_toolsSend PartListUnion env createErrorResponse (S fuel) m s) as T.
    destruct (toolsSend (S (S (S fuel))) m s) as [[r s']|] eqn:E; [|contradiction].
    rewrite toolsSend_S in E.
    rewrite (bind_step _ _ _ _ _ (pushToolsBus_step m s)) in E.
    assert (R : r = Return tt /\ grows (onToolsBus m s) s').
    { destruct (AgentType_eqb (toAgent m) MAIN).
      - split; [eapply detached_returns; eauto|].
        revert E. apply growing_detached.
        apply growing_mainRouting. apply growing_sends.
      - inversion E; subst. split; [reflexivity | apply grows_refl]. }
    destruct R as [-> ((a & A & Fa) & (b & B & Fb) & H & I & Cm & Ct & _)].
    simpl in A, B, H, I, Cm, Ct.
    exists s', a, b. rewrite A, B, <- app_assoc. repeat split; auto.
Qed.

(** *** The life cycle of the orchestrator *)

(** [initialize]'s context for a session. *)
Definition freshContext (sessionId : string) : AgentContext :=
  {| sessionId := sessionId; conversationHistory := []; currentTask := None |}.

(** The released arrays once the main agent's context has been replaced. *)
Definition releasing (s : St) : list (list Content) :=
  match mainContext s with
  | Some held => (releasedHistories s ++ [conversationHistory held])%list
  | None => releasedHistories s
  end.

Definition withMainContext (c : option AgentContext) (s : St) : St :=
  {| isInitialized := isInitialized s;
     mainContext := c; mainCallback := mainCallback s;
     toolsContext := toolsContext s; toolsCallback := toolsCallback s;
     toolScheduler := toolScheduler s;
     mainAgentBus := mainAgentBus s; toolsAgentBus := toolsAgentBus s;
     releasedHistories := releasing s;
     reads := reads s |}.

Lemma replaceMainContext_step c s :
  replaceMainContext c s = Some (Return tt, withMainContext c s).
Proof.
  unfold replaceMainContext, withMainContext, releasing, bind, get.
  now destruct (mainContext s).
Qed.

(** X12.  [initialize] on an orchestrator that is not initialized: it
    fails with the error of the first client whose initialization throws,
    the main agent's first, and succeeds when neither does.  The
    orchestrator is initialized exactly when it succeeds, so a failed
    [initialize] can be repeated; but the main agent has been given the new
    context even when its client failed, and the tools agent whenever the
    main agent's client did not.  The message histories and the callbacks
    are as before. *)
Theorem initialize_outcome (sessionId : string) (s : St) :
  isInitialized s = false ->
  let outcome :=
    match clientInitialize (mainClient env) with
    | Throw e => Throw e
    | Return _ => clientInitialize (toolsClient env)
    end in
  exists s',
    initialize env sessionId s = Some (outcome, s')
    /\ isInitialized s' = match outcome with Return _ => true | Throw _ => false end
    /\ mainContext s' = Some (freshContext sessionId)
    /\ toolsContext s'
       = match clientInitialize (mainClient env) with
         | Return _ => Some (freshContext sessionId)
         | Throw _ => toolsContext s
         end
    /\ mainAgentBus s' = mainAgentBus s /\ toolsAgentBus s' = toolsAgentBus s
    /\ mainCallback s' = mainCallback s /\ toolsCallback s' = toolsCallback s.
Proof.
  intros H outcome. subst outcome.
  unfold initialize, bind at 1, get. rewrite H.
  unfold mainInitialize, toolsInitialize, bind, setToolsContext,
    setInitialized, lift. rewrite replaceMainContext_step. cbv beta iota.
  destruct (clientInitialize (mainClient env)) as [[]|e].
  - destruct (clientInitialize (toolsClient env)) as [[]|e];
      eexists; (split; [reflexivity|]); simpl; rewrite ?H; repeat split; auto.
  - eexists. split; [reflexivity|]. simpl. rewrite ?H. repeat split; auto.
Qed.

(** The state after a successful [initialize]. *)
Definition initializedWith (sessionId : string) (s : St) : St :=
  {| isInitialized := true;
     mainContext := Some (freshContext sessionId);
     mainCallback := mainCallback s;
     toolsContext := Some (freshContext sessionId);
     toolsCallback := toolsCallback s;
     toolScheduler := toolScheduler s;
     mainAgentBus := mainAgentBus s; toolsAgentBus := toolsAgentBus s;
     releasedHistories := releasing s;
     reads := reads s |}.

Lemma initialize_returns sessionId s :
  isInitialized s = false ->
  clientInitialize (mainClient env) = Return tt ->
  clientInitialize (toolsClient env) = Return tt ->
  initialize env sessionId s = Some (Return tt, initializedWith sessionId s).
Proof.
  intros H Im It. unfold initialize, bind at 1, get. rewrite H.
  unfold mainInitialize, toolsInitialize, bind, setToolsContext,
    setInitialized, lift. rewrite replaceMainContext_step. cbv beta iota.
  rewrite Im, It. reflexivity.
Qed.

(** The state after [shutdown] of an initialized orchestrator. *)
Definition stopped (s : St) : St :=
  {| isInitialized := false;
     mainContext := None; mainCallback := None;
     toolsContext := None; toolsCallback := None;
     toolScheduler := toolScheduler s;
     mainAgentBus := mainAgentBus s; toolsAgentBus := toolsAgentBus s;
     releasedHistories := releasing s;
     reads := reads s |}.

Lemma shutdown_returns s :
  isInitialized s = true -> shutdown s = Some (Return tt, stopped s).
Proof.
  intros H. unfold shutdown, bind at 1, get. rewrite H. cbn [negb].
  unfold mainShutdown, bind. now rewrite replaceMainContext_step.
Qed.

(** X13.  [shutdown] unwires the agents and [initialize] does not wire
    them again: after a shutdown and a new [initialize], an input that
    names a tool keyword is answered with the coordinating notice, yet no
    message is sent on either bus and the input is not recorded.  After
    [reset] and a new [initialize] both agents have their callbacks. *)
Theorem restart_loses_the_wiring
    (fuel : nat) (sessionId userInput : string) (s : St) :
  isInitialized s = true ->
  clientInitialize (mainClient env) = Return tt ->
  clientInitialize (toolsClient env) = Return tt ->
  (forall k c, exists r, generateContent (mainClient env) k c = Return r) ->
  mentionsTool userInput = true ->
  (exists s1 s2 s3,
      shutdown s = Some (Return tt, s1)
      /\ initialize env sessionId s1 = Some (Return tt, s2)
      /\ handleUserInput env createErrorResponse getMainAgentSystemPrompt
           fuel userInput s2 = Some (Return coordinating, s3)
      /\ mainAgentBus s3 = mainAgentBus s
      /\ toolsAgentBus s3 = toolsAgentBus s
      /\ mainContext s3 = Some (freshContext sessionId))
  /\ (exists s1 s2,
         reset s = Some (Return tt, s1)
         /\ initialize env sessionId s1 = Some (Return tt, s2)
         /\ mainCallback s2 = Some ToOwnBus
         /\ toolsCallback s2 = Some ToOwnBus
         /\ mainAgentBus s2 = [] /\ toolsAgentBus s2 = []).
Proof.
  intros Hi Im It Hmain Hk. split.
  - exists (stopped s), (initializedWith sessionId (stopped s)).
    assert (exists s3,
               handleUserInput env createErrorResponse getMainAgentSystemPrompt
                 fuel userInput (initializedWith sessionId (stopped s))
               = Some (Return coordinating, s3)
               /\ mainAgentBus s3 = mainAgentBus s
               /\ toolsAgentBus s3 = toolsAgentBus s
               /\ mainContext s3 = Some (freshContext sessionId)) as (s3 & H3).
    { unfold handleUserInput, bind at 1, get. cbn [isInitialized initializedWith negb].
      unfold tryCatch, mainHandleUserInput, bind at 1, get.
      cbn [mainContext initializedWith].
      match goal with
      | |- context [callGenerateContent (mainClient env) ?c] =>
          destruct (Hmain (reads s) c) as [r1 E1];
          rewrite (bind_step _ _ _ _ _
                     (callGenerateContent_returns _ _
                        (initializedWith sessionId (stopped s)) _ E1))
      end.
      rewrite (mentionsTool_delegates _ _ Hk).
      rewrite (bind_step _ _ _ _ _ (createToolExecutionRequest_step _ _ _)).
      eexists. split; [reflexivity|]. simpl. auto. }
    exists s3. split; [now apply shutdown_returns|].
    split; [now apply initialize_returns | exact H3].
  - eexists. eexists. split; [reflexivity|].
    split; [now apply initialize_returns | simpl; auto].
Qed.

(** Once the main agent has let go of its context, the array a request
    was given reads as what it held then. *)
Lemma historyAt_released (s s' : St) history :
  releasedHistories s' = (releasedHistories s ++ [history])%list ->
  historyAt s' (liveHistory s) = Some history.
Proof.
  intros H. unfold historyAt, liveHistory. rewrite H.
  rewrite nth_error_app2 by lia. now rewrite Nat.sub_diag.
Qed.

(** X25.  A request outlives the context it was built in.  After
    [shutdown] and a new [initialize] the main agent has a new, empty
    history array; the array of the earlier session, which the requests of
    that session on the bus still carry, reads as that session's history,
    and what the main agent records from then on goes to the new array
    only. *)
Theorem earlier_history_is_kept
    (sessionId : string) (s : St) (ctx : AgentContext) (items : list Content) :
  isInitialized s = true ->
  mainContext s = Some ctx ->
  clientInitialize (mainClient env) = Return tt ->
  clientInitialize (toolsClient env) = Return tt ->
  exists s1 s2 s3,
    shutdown s = Some (Return tt, s1)
    /\ initialize env sessionId s1 = Some (Return tt, s2)
    /\ pushMainHistory items s2 = Some (Return tt, s3)
    /\ historyAt s (liveHistory s) = Some (conversationHistory ctx)
    /\ historyAt s1 (liveHistory s) = Some (conversationHistory ctx)
    /\ historyAt s2 (liveHistory s) = Some (conversationHistory ctx)
    /\ historyAt s3 (liveHistory s) = Some (conversationHistory ctx)
    /\ liveHistory s2 = S (liveHistory s)
    /\ historyAt s2 (liveHistory s2) = Some []
    /\ historyAt s3 (liveHistory s2) = Some items
    /\ mainAgentBus s3 = mainAgentBus s /\ toolsAgentBus s3 = toolsAgentBus s.
Proof.
  intros Hi Hc Im It.
  assert (R : releasing s = (releasedHistories s ++ [conversationHistory ctx])%list)
    by (unfold releasing; now rewrite Hc).
  exists (stopped s), (initializedWith sessionId (stopped s)),
    (remembering (freshContext sessionId) items
       (initializedWith sessionId (stopped s))).
  split; [now apply shutdown_returns|].
  split; [now apply initialize_returns|].
  split; [now apply pushMainHistory_step|].
  split; [rewrite historyAt_live; now rewrite Hc|].
  split; [now apply historyAt_released|].
  split; [now apply historyAt_released|].
  split; [now apply historyAt_released|].
  split; [unfold liveHistory; simpl; unfold releasing; simpl; rewrite R,
            length_app; simpl; lia|].
  split; [now rewrite historyAt_live|].
  split; [|split; reflexivity].
  rewrite (historyAt_held (initializedWith sessionId (stopped s))) by reflexivity.
  reflexivity.
Qed.

End Delegation.


Definition samplePrompt : string := "You are the main planning agent.".

Lemma answering_always (t : string) k c :
  exists r, Agents.generateContent (answeringClient t) k c = Return r.
Proof. eexists. reflexivity. Defined.

(** A request as the integration test sends one, with one call and an
    empty array as context; the call is of the tool [ls], which the
    registry of the sample scheduler holds. *)
Definition listingRequest : Agents.AgentA2AMessage string :=
  {| Agents.id := "test-tool-request";
     Agents.fromAgent := Agents.MAIN;
     Agents.toAgent := Agents.TOOLS;
     Agents.timestamp := 1700000000000%N;
     Agents.content := "Execute list tool";
     Agents.metadata := None;
     Agents.payload :=
       Agents.ToolExecutionRequest [sampleRequest "test-call-1" "ls"]
         (Some (Agents.OwnArray [])) |}.

(** The request for one [ls] call is answered with success and no result,
    and the scheduler holds no record of the call. *)
Lemma requested_calls_witness :
  exists reply s',
    Agents.handleToolExecutionRequest (answeringEnv "Done.") sampleErrorResponse
      (Agents.toolsBusSend (answeringEnv "Done.") sampleErrorResponse (2 + 0))
      listingRequest startedOrchestrator = Some (Return reply, s')
    /\ Agents.payload reply = Agents.ToolExecutionResponse [] true None
    /\ Scheduler.toolCalls (Agents.toolScheduler s') = []
    /\ Scheduler.executions (Agents.toolScheduler s') = [].
Proof.
  destruct (requested_calls_are_not_scheduled string (answeringEnv "Done.")
              sampleErrorResponse 0 listingRequest
              [sampleRequest "test-call-1" "ls"] (Some (Agents.OwnArray []))
              startedOrchestrator eq_refl)
    as (reply & s' & E & _ & _ & _ & _ & C & X & P).
  exists reply, s'. split; [exact E|]. split; [exact (P eq_refl)|].
  split; [exact C | exact X].
Defined.

Lemma delegation_round_trip_witness :
  exists s' request starting response processed final,
    Agents.handleUserInput (answeringEnv "Done.") sampleErrorResponse samplePrompt
      (3 + 0) "please read file a.txt" startedOrchestrator
    = Some (Return Agents.coordinating, s')
    /\ Agents.mainAgentBus s'
       = (Agents.mainAgentBus startedOrchestrator ++ [request; processed])%list
    /\ Agents.toolsAgentBus s'
       = (Agents.toolsAgentBus startedOrchestrator ++ [starting; response])%list
    /\ Agents.payload request
       = Agents.ToolExecutionRequest []
           (Some (Agents.MainHistory (Agents.liveHistory startedOrchestrator)))
    /\ Agents.historyAt startedOrchestrator
         (Agents.liveHistory startedOrchestrator)
       = Some (Agents.conversationHistory (freshContext "session-1"))
    /\ Agents.historyAt s' (Agents.liveHistory startedOrchestrator)
       = Some (Agents.conversationHistory (freshContext "session-1")
               ++ [Genai.textContent "model" final])%list
    /\ Agents.content request = "Execute tools for: " ++ "please read file a.txt"
    /\ Agents.payload starting
       = Agents.StatusUpdate "Starting tool execution..." None
    /\ Agents.payload response = Agents.ToolExecutionResponse [] true None
    /\ Agents.payload processed
       = Agents.StatusUpdate "tool_results_processed" None
    /\ Agents.metadata processed
       = Some {| Agents.mToolResults := []; Agents.finalResponse := true |}
    /\ Agents.content processed = final
    /\ option_map Agents.conversationHistory (Agents.mainContext s')
       = Some (Agents.conversationHistory (freshContext "session-1")
               ++ [Genai.textContent "model" final])%list
    /\ Scheduler.executions (Agents.toolScheduler s')
       = Scheduler.executions (Agents.toolScheduler startedOrchestrator).
Proof.
  apply (delegation_round_trip string (answeringEnv "Done.") sampleErrorResponse
           samplePrompt 0 "please read file a.txt" startedOrchestrator
           (freshContext "session-1")).
  - reflexivity.
  - reflexivity.
  - reflexivity.
  - reflexivity.
  - reflexivity.
  - intros k c. apply answering_always.
  - intros k c. apply answering_always.
  - vm_compute. reflexivity.
Defined.

(** The orchestrator after the input [hi] was answered with [Hello!]. *)
Definition greetedOrchestrator : Agents.State string :=
  match Agents.handleUserInput (answeringEnv "Hello!") sampleErrorResponse
          samplePrompt 0 "hi" startedOrchestrator with
  | Some (_, s) => s
  | None => startedOrchestrator
  end.

Definition greeting : list Genai.Content :=
  [Genai.textContent "user" "hi"; Genai.textContent "model" "Hello!"].

Lemma earlier_history_witness :
  exists s1 s2 s3,
    Agents.shutdown greetedOrchestrator = Some (Return tt, s1)
    /\ Agents.initialize (answeringEnv "Done.") "session-2" s1
       = Some (Return tt, s2)
    /\ Agents.pushMainHistory [Genai.textContent "user" "bye"] s2
       = Some (Return tt, s3)
    /\ Agents.historyAt greetedOrchestrator
         (Agents.liveHistory greetedOrchestrator) = Some greeting
    /\ Agents.historyAt s1 (Agents.liveHistory greetedOrchestrator) = Some greeting
    /\ Agents.historyAt s2 (Agents.liveHistory greetedOrchestrator) = Some greeting
    /\ Agents.historyAt s3 (Agents.liveHistory greetedOrchestrator) = Some greeting
    /\ Agents.liveHistory s2 = S (Agents.liveHistory greetedOrchestrator)
    /\ Agents.historyAt s2 (Agents.liveHistory s2) = Some []
    /\ Agents.historyAt s3 (Agents.liveHistory s2)
       = Some [Genai.textContent "user" "bye"]
    /\ Agents.mainAgentBus s3 = Agents.mainAgentBus greetedOrchestrator
    /\ Agents.toolsAgentBus s3 = Agents.toolsAgentBus greetedOrchestrator.
Proof.
  apply (earlier_history_is_kept string (answeringEnv "Done.") "session-2"
           greetedOrchestrator
           {| Agents.sessionId := "session-1";
              Agents.conversationHistory := greeting;
              Agents.currentTask := None |}
           [Genai.textContent "user" "bye"]);
    vm_compute; reflexivity.
Defined.

Lemma undelegated_input_witness :
  exists s',
    Agents.handleUserInput (answeringEnv "Hello!") sampleErrorResponse samplePrompt
      0 "hi" startedOrchestrator
    = Some (Return "Hello!", s')
    /\ option_map Agents.conversationHistory (Agents.mainContext s')
       = Some [Genai.textContent "user" "hi"; Genai.textContent "model" "Hello!"]
    /\ Agents.mainAgentBus s' = Agents.mainAgentBus startedOrchestrator
    /\ Agents.toolsAgentBus s' = Agents.toolsAgentBus startedOrchestrator
    /\ Agents.toolScheduler s' = Agents.toolScheduler startedOrchestrator.
Proof.
  apply (undelegated_input_outcome string (answeringEnv "Hello!") sampleErrorResponse
           samplePrompt 0 "hi" startedOrchestrator (freshContext "session-1")).
  - reflexivity.
  - reflexivity.
  - vm_compute. reflexivity.
Defined.

Lemma initialize_outcome_witness :
  exists s',
    Agents.initialize (answeringEnv "Hello!") "session-2" freshOrchestrator
    = Some (Return tt, s')
    /\ Agents.isInitialized s' = true
    /\ Agents.mainContext s' = Some (freshContext "session-2")
    /\ Agents.toolsContext s' = Some (freshContext "session-2")
    /\ Agents.mainAgentBus s' = Agents.mainAgentBus freshOrchestrator
    /\ Agents.toolsAgentBus s' = Agents.toolsAgentBus freshOrchestrator
    /\ Agents.mainCallback s' = Agents.mainCallback freshOrchestrator
    /\ Agents.toolsCallback s' = Agents.toolsCallback freshOrchestrator.
Proof.
  apply (initialize_outcome string (answeringEnv "Hello!") "session-2"
           freshOrchestrator).
  reflexivity.
Defined.

Lemma restart_loses_the_wiring_witness :
  (exists s1 s2 s3,
      Agents.shutdown startedOrchestrator = Some (Return tt, s1)
      /\ Agents.initialize (answeringEnv "Done.") "session-2" s1
         = Some (Return tt, s2)
      /\ Agents.handleUserInput (answeringEnv "Done.") sampleErrorResponse
           samplePrompt 3 "please read file a.txt" s2
         = Some (Return Agents.coordinating, s3)
      /\ Agents.mainAgentBus s3 = Agents.mainAgentBus startedOrchestrator
      /\ Agents.toolsAgentBus s3 = Agents.toolsAgentBus startedOrchestrator
      /\ Agents.mainContext s3 = Some (freshContext "session-2"))
  /\ (exists s1 s2,
         Agents.reset startedOrchestrator = Some (Return tt, s1)
         /\ Agents.initialize (answeringEnv "Done.") "session-2" s1
            = Some (Return tt, s2)
         /\ Agents.mainCallback s2 = Some Agents.ToOwnBus
         /\ Agents.toolsCallback s2 = Some Agents.ToOwnBus
         /\ Agents.mainAgentBus s2 = [] /\ Agents.toolsAgentBus s2 = []).
Proof.
  apply (restart_loses_the_wiring string (answeringEnv "Done.") sampleErrorResponse
           samplePrompt 3 "session-2" "please read file a.txt" startedOrchestrator).
  - reflexivity.
  - reflexivity.
  - reflexivity.
  - intros k c. apply answering_always.
  - vm_compute. reflexivity.
Defined.

(** ** The merged message history *)

Section FullHistory.
Import Agents.

Variable PartListUnion : Type.

Local Abbreviation St := (State PartListUnion).
Local Abbreviation Msg := (AgentA2AMessage PartListUnion).

(** [Array.prototype.sort] is stable; with the comparator
    [(a, b) => a.timestamp - b.timestamp] it yields the stable sort by
    timestamp, computed here by insertion: a message goes after the
    messages that are not later than it. *)
Fixpoint insertByTimestamp (m : Msg) (l : list Msg) : list Msg :=
  match l with
  | [] => [m]
  | x :: rest =>
      if (timestamp m <? timestamp x)%N then m :: x :: rest
      else x :: insertByTimestamp m rest
  end.

Definition sortByTimestamp (l : list Msg) : list Msg :=
  fold_left (fun sorted m => insertByTimestamp m sorted) l [].

(** [getFullMessageHistory] of the orchestrator. *)
Definition getFullMessageHistory (s : St) : list Msg :=
  let mainHistory := mainAgentBus s in
  let toolsHistory := toolsAgentBus s in
  sortByTimestamp (mainHistory ++ toolsHistory)%list.

Definition notLater (a b : Msg) : Prop := (timestamp a <= timestamp b)%N.

(** The messages of a list with a given timestamp, in order. *)
Definition stampedAt (t : N) (l : list Msg) : list Msg :=
  filter (fun m => (timestamp m =? t)%N) l.

Lemma insertByTimestamp_perm m l : Permutation (insertByTimestamp m l) (m :: l).
Proof.
  induction l as [|x l IH]; simpl; [reflexivity|].
  destruct (timestamp m <? timestamp x)%N; [reflexivity|].
  rewrite IH. apply perm_swap.
Qed.

Lemma insertByTimestamp_in m l x :
  In x (insertByTimestamp m l) -> x = m \/ In x l.
Proof.
  intros H. apply (Permutation_in _ (insertByTimestamp_perm m l)) in H.
  destruct H; auto.
Qed.

Lemma insertByTimestamp_sorted m l :
  StronglySorted notLater l -> StronglySorted notLater (insertByTimestamp m l).
Proof.
  induction 1 as [|x l Hl IH Hx]; simpl.
  - constructor; constructor.
  - destruct (N.ltb_spec (timestamp m) (timestamp x)) as [L|L].
    + constructor; [constructor; assumption|].
      constructor; [unfold notLater; lia|].
      rewrite Forall_forall in *. intros y Hy. specialize (Hx y Hy).
      unfold notLater in *. lia.
    + constructor; [exact IH|].
      rewrite Forall_forall in *. intros y Hy.
      apply insertByTimestamp_in in Hy as [->|Hy]; [exact L | auto].
Qed.

Lemma insertByTimestamp_stable t m l :
  StronglySorted notLater l ->
  stampedAt t (insertByTimestamp m l)
  = (stampedAt t l ++ stampedAt t [m])%list.
Proof.
  unfold stampedAt.
  induction 1 as [|x l Hl IH Hx]; [reflexivity|].
  cbn [insertByTimestamp].
  destruct (N.ltb_spec (timestamp m) (timestamp x)) as [L|L].
  - cbn [filter]. destruct (N.eqb_spec (timestamp m) t) as [E|E].
    + assert (F : filter (fun m0 => (timestamp m0 =? t)%N) l = []).
      { apply (proj2 (filter_nil_forallb _ _)).
        apply forallb_forall. intros y Hy.
        rewrite Forall_forall in Hx. specialize (Hx y Hy). unfold notLater in Hx.
        apply negb_true_iff, N.eqb_neq. lia. }
      rewrite F.
      destruct (N.eqb_spec (timestamp x) t) as [E'|E']; [lia | reflexivity].
    + now rewrite app_nil_r.
  - cbn [filter]. rewrite IH.
    destruct (timestamp x =? t)%N; reflexivity.
Qed.

Lemma sort_fold l : forall sorted,
  StronglySorted notLater sorted ->
  let result := fold_left (fun sorted m => insertByTimestamp m sorted) l sorted in
  Permutation result (sorted ++ l)
  /\ StronglySorted notLater result
  /\ forall t, stampedAt t result = (stampedAt t sorted ++ stampedAt t l)%list.
Proof.
  induction l as [|m l IH]; intros sorted H; cbn [fold_left].
  - cbv zeta. rewrite app_nil_r. split; [reflexivity|]. split; [exact H|].
    intros t. unfold stampedAt. simpl. now rewrite app_nil_r.
  - destruct (IH _ (insertByTimestamp_sorted m sorted H)) as (P & S & T).
    cbv zeta. split; [|split; [exact S|]].
    + rewrite P, insertByTimestamp_perm. simpl. apply Permutation_middle.
    + intros t. rewrite T, insertByTimestamp_stable by exact H.
      rewrite <- app_assoc. f_equal. unfold stampedAt. simpl.
      destruct (timestamp m =? t)%N; reflexivity.
Qed.

(** X14.  The full message history is the messages of both buses merged
    by timestamp: it holds each message of the two histories once, in
    non-decreasing order of timestamps, and messages with the same
    timestamp keep their order, those of the main agent's bus first.  Its
    length is the [totalMessages] of the statistics. *)
Theorem full_history_is_the_stable_merge (s : St) :
  let full := getFullMessageHistory s in
  Permutation full (mainAgentBus s ++ toolsAgentBus s)
  /\ StronglySorted notLater full
  /\ (forall t, stampedAt t full
                = (stampedAt t (mainAgentBus s) ++ stampedAt t (toolsAgentBus s))%list)
  /\ length full = totalMessages (getCommunicationStats s).
Proof.
  unfold getFullMessageHistory, sortByTimestamp. cbv zeta.
  destruct (sort_fold (mainAgentBus s ++ toolsAgentBus s) [] (SSorted_nil _))
    as (P & S & T).
  cbv zeta in P, S, T. simpl in P.
  split; [exact P|]. split; [exact S|]. split.
  - intros t. rewrite T. unfold stampedAt. simpl. now rewrite filter_app.
  - rewrite (Permutation_length P), length_app. reflexivity.
Qed.

End FullHistory.

(** * The callers of the orchestrator *)

(** ** Direct tool execution ([toolsAgent.ts]) *)

Module ToolsAgent.
Import Genai.
Import Scheduler.

(** [error instanceof Error ? error : new Error('Unknown error')] *)
Definition asError (e : Thrown) : Thrown :=
  match e with
  | ErrorObj m => ErrorObj m
  | NonError => ErrorObj "Unknown error"
  end.

Section ExecuteTool.

Variable PartListUnion : Type.
Variable convertToFunctionResponse : string -> string -> string -> PartListUnion.

(** [this.config.getToolRegistry()] and how the promise of
    [tool.execute(args, signal)] settles. *)
Variable toolRegistry : string -> option Tool.
Variable execute : Tool -> Args -> Settlement.

Definition executeTool (toolName : string) (args : Args) (callId : string)
  : Completion (ToolCallResponseInfo PartListUnion) :=
  match toolRegistry toolName with
  | None => Throw (ErrorObj ("Tool " ++ toolName ++ " not found"))
  | Some tool =>
      match execute tool args with
      | Resolved result =>
          Return {| rCallId := callId;
                    responseParts :=
                      convertToFunctionResponse toolName callId (llmContent result);
                    resultDisplay := Some (returnDisplay result);
                    rError := None |}
      | Rejected thrown =>
          Return {| rCallId := callId;
                    responseParts :=
                      convertToFunctionResponse toolName callId (messageOf thrown);
                    resultDisplay :=
                      Some ("Error executing " ++ toolName ++ ": " ++ messageOf thrown);
                    rError := Some (asError thrown) |}
      end
  end.

End ExecuteTool.

Arguments executeTool {PartListUnion}.

End ToolsAgent.

(** ** The configuration ([config.ts], [models.ts]) *)

Module Config.

Definition DEFAULT_GEMINI_MODEL : string := "gemini-2.5-flash".
Definition DEFAULT_GEMINI_TOOL_MODEL : string := "gemini-2.5-flash-lite-preview-06-17".

(** The variables of [process.env] that are read; [None] is [undefined]. *)
Record ProcessEnv : Type := {
  GEMINI_TWO_AGENT_MODE : option string;
  GEMINI_MAIN_AGENT_MODEL : option string;
  GEMINI_TOOL_AGENT_MODEL : option string
}.

Record AgentSettings : Type := {
  model : string;
  role : string;
  capabilities : list string
}.

Record Communication : Type := {
  protocol : string;
  debugging : bool;
  messageHistory : bool
}.

Record TwoAgentConfig : Type := {
  enabled : bool;
  mainAgent : AgentSettings;
  toolsAgent : AgentSettings;
  communication : Communication
}.

Definition DEFAULT_TWO_AGENT_CONFIG : TwoAgentConfig :=
  {| enabled := true;
     mainAgent :=
       {| model := DEFAULT_GEMINI_MODEL;
          role := "thinking";
          capabilities :=
            ["user_interaction"; "planning"; "strategy"; "analysis";
             "communication"; "conversation_management"] |};
     toolsAgent :=
       {| model := DEFAULT_GEMINI_TOOL_MODEL;
          role := "execution";
          capabilities :=
            ["file_operations"; "shell_commands"; "tool_execution";
             "code_editing"; "search_operations"; "web_operations"] |};
     communication :=
       {| protocol := "a2a"; debugging := false; messageHistory := true |} |}.

(** [['true', '1', 'yes', 'on'].includes(envEnabled.toLowerCase())] *)
Definition enablingValue (envEnabled : string) : bool :=
  existsb (String.eqb (JS.toLowerCase envEnabled)) ["true"; "1"; "yes"; "on"].

(** [{ ...DEFAULT_TWO_AGENT_CONFIG }] copies the top level only: the
    objects [mainAgent], [toolsAgent] and [communication] of a loaded
    configuration are those of [DEFAULT_TWO_AGENT_CONFIG] itself.  The
    state is the current value of the default; a loaded configuration owns
    its [enabled] and shares the rest. *)
Record Loaded : Type := { ownEnabled : bool }.

(** The configuration a loaded one stands for, read when the default is
    [shared]. *)
Definition read (c : Loaded) (shared : TwoAgentConfig) : TwoAgentConfig :=
  {| enabled := ownEnabled c;
     mainAgent := mainAgent shared;
     toolsAgent := toolsAgent shared;
     communication := communication shared |}.

Definition withModel (a : AgentSettings) (m : string) : AgentSettings :=
  {| model := m; role := role a; capabilities := capabilities a |}.

(** [loadTwoAgentConfig(config)]; [debugMode] is [config.getDebugMode()]. *)
Definition loadTwoAgentConfig (env : ProcessEnv) (debugMode : bool)
    (shared : TwoAgentConfig) : Loaded * TwoAgentConfig :=
  let baseEnabled :=
    match GEMINI_TWO_AGENT_MODE env with
    | Some envEnabled => enablingValue envEnabled
    | None => enabled shared
    end in
  let mainAgent1 :=
    match GEMINI_MAIN_AGENT_MODEL env with
    | Some mainModel =>
        if JS.truthy mainModel then withModel (mainAgent shared) mainModel
        else mainAgent shared
    | None => mainAgent shared
    end in
  let toolsAgent1 :=
    match GEMINI_TOOL_AGENT_MODEL env with
    | Some toolModel =>
        if JS.truthy toolModel then withModel (toolsAgent shared) toolModel
        else toolsAgent shared
    | None => toolsAgent shared
    end in
  let communication1 :=
    if debugMode then
      {| protocol := protocol (communication shared);
         debugging := true;
         messageHistory := messageHistory (communication shared) |}
    else communication shared in
  ({| ownEnabled := baseEnabled |},
   {| enabled := enabled shared;
      mainAgent := mainAgent1;
      toolsAgent := toolsAgent1;
      communication := communication1 |}).

Record Validation : Type := {
  valid : bool;
  errors : list string
}.

Definition conflictingCapabilities : list string :=
  ["tool_execution"; "file_operations"; "shell_commands"; "user_interaction"].

(** [new Set(capabilities).has(capability)] *)
Definition has (capabilities : list string) (capability : string) : bool :=
  existsb (String.eqb capability) capabilities.

Definition sharedCapability (capability : string) : string :=
  "Capability '" ++ capability ++ "' should not be shared between agents".

Definition validateTwoAgentConfig (config : TwoAgentConfig) : Validation :=
  let errors :=
    ((if negb (JS.truthy (model (mainAgent config)))
      then ["Main agent model not specified"] else [])
     ++ (if negb (JS.truthy (model (toolsAgent config)))
         then ["Tools agent model not specified"] else [])
     ++ (if (length (capabilities (mainAgent config)) =? 0)%nat
         then ["Main agent must have at least one capability"] else [])
     ++ (if (length (capabilities (toolsAgent config)) =? 0)%nat
         then ["Tools agent must have at least one capability"] else [])
     ++ flat_map
          (fun capability =>
             if has (capabilities (mainAgent config)) capability
                && has (capabilities (toolsAgent config)) capability
             then [sharedCapability capability]
             else [])
          conflictingCapabilities)%list in
  {| valid := (length errors =? 0)%nat; errors := errors |}.

End Config.

(** ** The integration layer ([integration.ts]) *)

Module Integration.
Import Genai.

Record TwoAgentSystemConfig : Type := {
  enabled : bool;
  mainAgentModel : option string;
  toolsAgentModel : option string;
  sessionId : string;
  debugMode : option bool
}.

(** [Partial<TwoAgentSystemConfig>]: the keys that are given. *)
Record Options : Type := {
  oEnabled : option bool;
  oMainAgentModel : option string;
  oToolsAgentModel : option string;
  oSessionId : option string;
  oDebugMode : option bool
}.

Definition noOptions : Options :=
  {| oEnabled := None; oMainAgentModel := None; oToolsAgentModel := None;
     oSessionId := None; oDebugMode := None |}.

(** [shouldEnableTwoAgentMode(config)] *)
Definition shouldEnableTwoAgentMode (env : Config.ProcessEnv) : bool :=
  match Config.GEMINI_TWO_AGENT_MODE env with
  | Some envEnabled => Config.enablingValue envEnabled
  | None => JS.truthy Config.DEFAULT_GEMINI_TOOL_MODEL
  end.

Section System.

Variable PartListUnion : Type.

Local Abbreviation CoreToolScheduler := (Scheduler.CoreToolScheduler PartListUnion).
Local Abbreviation ToolCallResponseInfo := (Scheduler.ToolCallResponseInfo PartListUnion).

(** The core [Config] as the callers of the agents use it; the scheduler
    is the one [new ToolsAgent(config)] builds. *)
Record CoreConfig : Type := {
  getSessionId : string;
  getDebugMode : bool;
  isTwoAgentModeEnabled : bool;
  newToolScheduler : CoreToolScheduler
}.

Record TwoAgentSystem : Type := {
  orchestrator : Agents.State PartListUnion;
  isEnabled : bool;
  config : TwoAgentSystemConfig
}.

(** [new TwoAgentSystem(coreConfig, config)] *)
Definition newTwoAgentSystem (coreConfig : CoreConfig)
    (config : TwoAgentSystemConfig) : TwoAgentSystem :=
  {| orchestrator := Agents.newOrchestrator (newToolScheduler coreConfig);
     isEnabled := enabled config;
     config := config |}.

(** Results of an operation of the system: a completion and the system
    after it, or nothing when the routing ran out of fuel. *)
Definition onOrchestrator {A} (c : Agents.M PartListUnion A) (sys : TwoAgentSystem)
  : option (Completion A * TwoAgentSystem) :=
  match c (orchestrator sys) with
  | Some (r, o) =>
      Some (r, {| orchestrator := o; isEnabled := isEnabled sys;
                  config := config sys |})
  | None => None
  end.

Variable env : Agents.Env.
Variable createErrorResponse :
  Turn.ToolCallRequestInfo -> Thrown -> ToolCallResponseInfo.
Variable getMainAgentSystemPrompt : string.

Definition notEnabled : Thrown := ErrorObj "Two-agent system not enabled".

Definition initialize (sys : TwoAgentSystem)
  : option (Completion unit * TwoAgentSystem) :=
  if negb (isEnabled sys) then Some (Return tt, sys)
  else onOrchestrator (Agents.initialize env (sessionId (config sys))) sys.

Definition isAgentSystemEnabled (sys : TwoAgentSystem) : bool := isEnabled sys.

Definition handleUserInput (fuel : nat) (userInput : string) (sys : TwoAgentSystem)
  : option (Completion string * TwoAgentSystem) :=
  if negb (isEnabled sys) then Some (Throw notEnabled, sys)
  else
    onOrchestrator
      (Agents.handleUserInput env createErrorResponse getMainAgentSystemPrompt
         fuel userInput) sys.

Definition shutdown (sys : TwoAgentSystem)
  : option (Completion unit * TwoAgentSystem) :=
  if isEnabled sys then onOrchestrator Agents.shutdown sys
  else Some (Return tt, sys).

Definition clearHistory (sys : TwoAgentSystem)
  : option (Completion unit * TwoAgentSystem) :=
  if isEnabled sys then onOrchestrator Agents.clearHistory sys
  else Some (Return tt, sys).

Definition getStats (sys : TwoAgentSystem) : option Agents.CommunicationStats :=
  if negb (isEnabled sys) then None
  else Some (Agents.getCommunicationStats (orchestrator sys)).

(** [executeTools]: the tools of the calls are run one after the other;
    [execute k] is how the promise of the k-th call of the loop settles. *)
Variable convertToFunctionResponse : string -> string -> string -> PartListUnion.
(** [{ functionResponse: { id, name, response: { error } } }] *)
Variable errorFunctionResponse : string -> string -> string -> PartListUnion.
Variable toolRegistry : string -> option Scheduler.Tool.
Variable execute : nat -> Scheduler.Tool -> Args -> Scheduler.Settlement.

Definition resultOf (k : nat) (toolCall : Turn.ToolCallRequestInfo)
  : ToolCallResponseInfo :=
  match ToolsAgent.executeTool convertToFunctionResponse toolRegistry (execute k)
          (Turn.name toolCall) (Turn.args toolCall) (Turn.callId toolCall) with
  | Return result => result
  | Throw thrown =>
      {| Scheduler.rCallId := Turn.callId toolCall;
         Scheduler.responseParts :=
           errorFunctionResponse (Turn.callId toolCall) (Turn.name toolCall)
             (messageOf thrown);
         Scheduler.resultDisplay :=
           Some ("Error executing " ++ Turn.name toolCall ++ ": " ++ messageOf thrown);
         Scheduler.rError := Some (ToolsAgent.asError thrown) |}
  end.

Fixpoint executeEach (k : nat) (toolCalls : list Turn.ToolCallRequestInfo)
  : list ToolCallResponseInfo :=
  match toolCalls with
  | [] => []
  | toolCall :: rest => resultOf k toolCall :: executeEach (S k) rest
  end.

Definition executeTools (toolCalls : list Turn.ToolCallRequestInfo)
    (sys : TwoAgentSystem) : Completion (list ToolCallResponseInfo) :=
  if negb (isEnabled sys) then Throw notEnabled
  else Return (executeEach 0 toolCalls).

(** [createTwoAgentSystem(config, options)]: the system is not
    initialized. *)
Definition createTwoAgentSystem (coreConfig : CoreConfig) (options : Options)
  : TwoAgentSystem :=
  let pick {A} (given : option A) (default : A) : A :=
    match given with Some x => x | None => default end in
  newTwoAgentSystem coreConfig
    {| enabled := pick (oEnabled options) true;
       mainAgentModel :=
         Some (pick (oMainAgentModel options) Config.DEFAULT_GEMINI_MODEL);
       toolsAgentModel :=
         Some (pick (oToolsAgentModel options) Config.DEFAULT_GEMINI_TOOL_MODEL);
       sessionId := pick (oSessionId options) (getSessionId coreConfig);
       debugMode := Some (pick (oDebugMode options) (getDebugMode coreConfig)) |}.

End System.

Arguments getSessionId {PartListUnion}.
Arguments getDebugMode {PartListUnion}.
Arguments isTwoAgentModeEnabled {PartListUnion}.
Arguments newToolScheduler {PartListUnion}.
Arguments orchestrator {PartListUnion}.
Arguments isEnabled {PartListUnion}.
Arguments config {PartListUnion}.
Arguments newTwoAgentSystem {PartListUnion}.
Arguments onOrchestrator {PartListUnion A}.
Arguments initialize {PartListUnion}.
Arguments isAgentSystemEnabled {PartListUnion}.
Arguments handleUserInput {PartListUnion}.
Arguments shutdown {PartListUnion}.
Arguments clearHistory {PartListUnion}.
Arguments getStats {PartListUnion}.
Arguments resultOf {PartListUnion}.
Arguments executeEach {PartListUnion}.
Arguments executeTools {PartListUnion}.
Arguments createTwoAgentSystem {PartListUnion}.

End Integration.

(** ** The CLI integration ([cliIntegration.ts]) *)

Module CliIntegration.

Section Cli.

Variable PartListUnion : Type.
Variable env : Agents.Env.
Variable createErrorResponse :
  Turn.ToolCallRequestInfo -> Thrown -> Scheduler.ToolCallResponseInfo PartListUnion.
Variable getMainAgentSystemPrompt : string.

Record AgentCliIntegration : Type := {
  twoAgentSystem : option (Integration.TwoAgentSystem PartListUnion);
  config : Integration.CoreConfig PartListUnion
}.

Definition newAgentCliIntegration (config : Integration.CoreConfig PartListUnion)
  : AgentCliIntegration :=
  {| twoAgentSystem := None; config := config |}.

Definition withSystem (cli : AgentCliIntegration)
    (sys : option (Integration.TwoAgentSystem PartListUnion)) : AgentCliIntegration :=
  {| twoAgentSystem := sys; config := config cli |}.

(** [initialize]: the new system is stored before it is initialized. *)
Definition initialize (cli : AgentCliIntegration)
  : option (Completion unit * AgentCliIntegration) :=
  if Integration.isTwoAgentModeEnabled (config cli) then
    let created := Integration.createTwoAgentSystem (config cli) Integration.noOptions in
    match Integration.initialize env created with
    | Some (r, sys) => Some (r, withSystem cli (Some sys))
    | None => None
    end
  else Some (Return tt, cli).

Definition isAgentSystemReady (cli : AgentCliIntegration) : bool :=
  match twoAgentSystem cli with
  | Some sys => Integration.isAgentSystemEnabled sys
  | None => false
  end.

Definition notReady : Thrown :=
  ErrorObj "Agent system not ready, fallback to regular processing".

Definition processUserInput (fuel : nat) (input : string) (cli : AgentCliIntegration)
  : option (Completion string * AgentCliIntegration) :=
  match twoAgentSystem cli with
  | Some sys =>
      if Integration.isAgentSystemEnabled sys then
        match Integration.handleUserInput env createErrorResponse
                getMainAgentSystemPrompt fuel input sys with
        | Some (r, sys') => Some (r, withSystem cli (Some sys'))
        | None => None
        end
      else Some (Throw notReady, cli)
  | None => Some (Throw notReady, cli)
  end.

Definition shouldHandle (cli : AgentCliIntegration) : bool :=
  Integration.isTwoAgentModeEnabled (config cli) && isAgentSystemReady cli.

Definition shutdown (cli : AgentCliIntegration)
  : option (Completion unit * AgentCliIntegration) :=
  match twoAgentSystem cli with
  | Some sys =>
      match Integration.shutdown sys with
      | Some (Return _, _) => Some (Return tt, withSystem cli None)
      | Some (Throw e, sys') => Some (Throw e, withSystem cli (Some sys'))
      | None => None
      end
  | None => Some (Return tt, cli)
  end.

End Cli.

Arguments twoAgentSystem {PartListUnion}.
Arguments config {PartListUnion}.
Arguments newAgentCliIntegration {PartListUnion}.
Arguments withSystem {PartListUnion}.
Arguments initialize {PartListUnion}.
Arguments isAgentSystemReady {PartListUnion}.
Arguments processUserInput {PartListUnion}.
Arguments shouldHandle {PartListUnion}.
Arguments shutdown {PartListUnion}.

End CliIntegration.

(** ** The example integration ([TwoAgentCLIIntegration]) *)

Module TwoAgentCLI.

Section Cli.

Variable PartListUnion : Type.
Variable env : Agents.Env.
Variable createErrorResponse :
  Turn.ToolCallRequestInfo -> Thrown -> Scheduler.ToolCallResponseInfo PartListUnion.
Variable getMainAgentSystemPrompt : string.

Record TwoAgentCLIIntegration : Type := {
  twoAgentSystem : option (Integration.TwoAgentSystem PartListUnion);
  config : Integration.CoreConfig PartListUnion;
  isEnabled : bool
}.

(** [new TwoAgentCLIIntegration(config)] *)
Definition newTwoAgentCLIIntegration (processEnv : Config.ProcessEnv)
    (config : Integration.CoreConfig PartListUnion) : TwoAgentCLIIntegration :=
  {| twoAgentSystem := None; config := config;
     isEnabled := Integration.shouldEnableTwoAgentMode processEnv |}.

(** [initialize]: with the shared default configuration before and after.
    The getters of [Config] return and nothing in the [try] block throws,
    so the [catch] is not reached. *)
Definition initialize (processEnv : Config.ProcessEnv)
    (shared : Config.TwoAgentConfig) (cli : TwoAgentCLIIntegration)
  : TwoAgentCLIIntegration * Config.TwoAgentConfig :=
  if negb (isEnabled cli) then (cli, shared)
  else
    let '(agentConfig, shared') :=
      Config.loadTwoAgentConfig processEnv
        (Integration.getDebugMode (config cli)) shared in
    let validation := Config.validateTwoAgentConfig (Config.read agentConfig shared') in
    if negb (Config.valid validation) then
      ({| twoAgentSystem := twoAgentSystem cli; config := config cli;
          isEnabled := false |}, shared')
    else
      ({| twoAgentSystem :=
            Some (Integration.createTwoAgentSystem (config cli)
                    {| Integration.oEnabled := Some true;
                       Integration.oMainAgentModel := None;
                       Integration.oToolsAgentModel := None;
                       Integration.oSessionId :=
                         Some (Integration.getSessionId (config cli));
                       Integration.oDebugMode :=
                         Some (Integration.getDebugMode (config cli)) |});
          config := config cli;
          isEnabled := isEnabled cli |}, shared').

Definition notAvailable : Thrown :=
  ErrorObj "Two-agent system not available, please implement fallback".

Definition handleUserInput (fuel : nat) (userInput : string)
    (cli : TwoAgentCLIIntegration)
  : option (Completion string * TwoAgentCLIIntegration) :=
  match isEnabled cli, twoAgentSystem cli with
  | true, Some sys =>
      match Integration.handleUserInput env createErrorResponse
              getMainAgentSystemPrompt fuel userInput sys with
      | Some (r, sys') =>
          Some (r, {| twoAgentSystem := Some sys'; config := config cli;
                      isEnabled := isEnabled cli |})
      | None => None
      end
  | _, _ => Some (Throw notAvailable, cli)
  end.

Definition isTwoAgentModeActive (cli : TwoAgentCLIIntegration) : bool :=
  isEnabled cli && match twoAgentSystem cli with Some _ => true | None => false end.

Definition shutdown (cli : TwoAgentCLIIntegration)
  : option (Completion unit * TwoAgentCLIIntegration) :=
  match twoAgentSystem cli with
  | Some sys =>
      match Integration.shutdown sys with
      | Some (r, sys') =>
          Some (r, {| twoAgentSystem := Some sys'; config := config cli;
                      isEnabled := isEnabled cli |})
      | None => None
      end
  | None => Some (Return tt, cli)
  end.

(** The public operations, and a session of them. *)
Inductive Operation : Type :=
| Initialize (processEnv : Config.ProcessEnv)
| HandleUserInput (fuel : nat) (userInput : string)
| Shutdown.

Definition perform (op : Operation)
    (st : TwoAgentCLIIntegration * Config.TwoAgentConfig)
  : option (TwoAgentCLIIntegration * Config.TwoAgentConfig) :=
  match op with
  | Initialize processEnv => Some (initialize processEnv (snd st) (fst st))
  | HandleUserInput fuel userInput =>
      match handleUserInput fuel userInput (fst st) with
      | Some (_, cli) => Some (cli, snd st)
      | None => None
      end
  | Shutdown =>
      match shutdown (fst st) with
      | Some (_, cli) => Some (cli, snd st)
      | None => None
      end
  end.

Fixpoint session (ops : list Operation)
    (st : TwoAgentCLIIntegration * Config.TwoAgentConfig)
  : option (TwoAgentCLIIntegration * Config.TwoAgentConfig) :=
  match ops with
  | [] => Some st
  | op :: rest =>
      match perform op st with
      | Some st' => session rest st'
      | None => None
      end
  end.

End Cli.

Arguments twoAgentSystem {PartListUnion}.
Arguments config {PartListUnion}.
Arguments isEnabled {PartListUnion}.
Arguments newTwoAgentCLIIntegration {PartListUnion}.
Arguments initialize {PartListUnion}.
Arguments handleUserInput {PartListUnion}.
Arguments isTwoAgentModeActive {PartListUnion}.
Arguments shutdown {PartListUnion}.
Arguments perform {PartListUnion}.
Arguments session {PartListUnion}.

End TwoAgentCLI.

(** ** Properties of the callers *)

Section ExecuteToolsFacts.
Import Genai.

Variable PartListUnion : Type.
Variable convertToFunctionResponse : string -> string -> string -> PartListUnion.
Variable errorFunctionResponse : string -> string -> string -> PartListUnion.
Variable toolRegistry : string -> option Scheduler.Tool.
Variable execute : nat -> Scheduler.Tool -> Args -> Scheduler.Settlement.

Local Abbreviation executeEach' :=
  (Integration.executeEach convertToFunctionResponse errorFunctionResponse
     toolRegistry execute).

(** The k-th call of the loop ran its tool and the tool's promise resolved. *)
Definition succeeds (k : nat) (toolCall : Turn.ToolCallRequestInfo) : bool :=
  match toolRegistry (Turn.name toolCall) with
  | Some tool =>
      match execute k tool (Turn.args toolCall) with
      | Scheduler.Resolved _ => true
      | Scheduler.Rejected _ => false
      end
  | None => false
  end.

Lemma resultOf_facts k toolCall :
  let result :=
    Integration.resultOf convertToFunctionResponse errorFunctionResponse
      toolRegistry execute k toolCall in
  Scheduler.rCallId result = Turn.callId toolCall
  /\ (Scheduler.rError result = None <-> succeeds k toolCall = true)
  /\ Scheduler.resultDisplay result <> None.
Proof.
  unfold Integration.resultOf, ToolsAgent.executeTool, succeeds.
  destruct (toolRegistry (Turn.name toolCall)) as [tool|]; simpl.
  - destruct (execute k tool (Turn.args toolCall)); simpl;
      repeat split; try discriminate; auto.
  - repeat split; try discriminate; auto.
Qed.

Lemma executeEach_facts toolCalls : forall k,
  map Scheduler.rCallId (executeEach' k toolCalls) = map Turn.callId toolCalls
  /\ forall i toolCall result,
       nth_error toolCalls i = Some toolCall ->
       nth_error (executeEach' k toolCalls) i = Some result ->
       (Scheduler.rError result = None <-> succeeds (k + i) toolCall = true).
Proof.
  induction toolCalls as [|c rest IH]; intros k; simpl.
  - split; [reflexivity|]. intros [|i]; discriminate.
  - destruct (IH (S k)) as [E F].
    destruct (resultOf_facts k c) as (Hid & Herr & _).
    split; [now rewrite E, Hid|].
    intros [|i] toolCall result; simpl.
    + intros H1 H2. inversion H1; inversion H2; subst.
      now rewrite Nat.add_0_r.
    + intros H1 H2. rewrite <- Nat.add_succ_comm. eauto.
Qed.

(** X15.  [executeTools] of an enabled system never throws, whether or not
    the system is initialized: it returns one result per tool call, in
    order and with the call's id, and a result carries an error exactly
    when the tool is not registered or its execution rejected.  A disabled
    system throws [Two-agent system not enabled]. *)
Theorem executeTools_one_result_per_call
    (toolCalls : list Turn.ToolCallRequestInfo)
    (sys : Integration.TwoAgentSystem PartListUnion) :
  (Integration.isEnabled sys = false ->
   Integration.executeTools convertToFunctionResponse errorFunctionResponse
     toolRegistry execute toolCalls sys
   = Throw Integration.notEnabled)
  /\ (Integration.isEnabled sys = true ->
      exists results,
        Integration.executeTools convertToFunctionResponse errorFunctionResponse
          toolRegistry execute toolCalls sys = Return results
        /\ map Scheduler.rCallId results = map Turn.callId toolCalls
        /\ forall i toolCall result,
             nth_error toolCalls i = Some toolCall ->
             nth_error results i = Some result ->
             (Scheduler.rError result = None <-> succeeds i toolCall = true)).
Proof.
  unfold Integration.executeTools. split; intros ->; [reflexivity|].
  simpl. eexists. split; [reflexivity|].
  apply (executeEach_facts toolCalls 0).
Qed.

End ExecuteToolsFacts.

Arguments succeeds toolRegistry execute k toolCall : simpl nomatch.

Section ConfigFacts.
Import Config.

(** The default configuration after a series of loads. *)
Definition afterLoads (loads : list (ProcessEnv * bool)) (shared : TwoAgentConfig)
  : TwoAgentConfig :=
  fold_left (fun shared load => snd (loadTwoAgentConfig (fst load) (snd load) shared))
    loads shared.

(** A load that does not name a main-agent model. *)
Definition keepsMainModel (load : ProcessEnv * bool) : Prop :=
  match GEMINI_MAIN_AGENT_MODEL (fst load) with
  | Some m => JS.truthy m = false
  | None => True
  end.

Lemma load_mainModel env debug shared :
  keepsMainModel (env, debug) ->
  model (mainAgent (snd (loadTwoAgentConfig env debug shared)))
  = model (mainAgent shared).
Proof.
  unfold keepsMainModel, loadTwoAgentConfig. simpl.
  destruct (GEMINI_MAIN_AGENT_MODEL env) as [m|]; [|reflexivity].
  now intros ->.
Qed.

Lemma load_debugging env debug shared :
  debugging (communication shared) = true ->
  debugging (communication (snd (loadTwoAgentConfig env debug shared))) = true.
Proof.
  unfold loadTwoAgentConfig. simpl. destruct debug; auto.
Qed.

Lemma afterLoads_mainModel loads : forall shared,
  Forall keepsMainModel loads ->
  model (mainAgent (afterLoads loads shared)) = model (mainAgent shared).
Proof.
  induction loads as [|[env debug] loads IH]; intros shared H; simpl; [reflexivity|].
  inversion H as [|? ? H1 H2]; subst.
  unfold afterLoads in IH. rewrite IH by exact H2.
  now apply load_mainModel.
Qed.

Lemma afterLoads_debugging loads : forall shared,
  debugging (communication shared) = true ->
  debugging (communication (afterLoads loads shared)) = true.
Proof.
  induction loads as [|[env debug] loads IH]; intros shared H; simpl; [exact H|].
  apply IH. now apply load_debugging.
Qed.

(** X16.  A load changes the default configuration itself: a main-agent
    model named in the environment of one load is the model of every
    configuration loaded before or after it, until a load names another
    one; debugging, once switched on by a load in debug mode, stays on in
    every configuration; [enabled] alone is read anew from the environment
    at every load. *)
Theorem environment_overrides_persist
    (shared : TwoAgentConfig) (env : ProcessEnv) (debug : bool)
    (later : list (ProcessEnv * bool)) (earlier : Loaded) :
  let '(loaded, shared1) := loadTwoAgentConfig env debug shared in
  let final := afterLoads later shared1 in
  (forall m,
      GEMINI_MAIN_AGENT_MODEL env = Some m -> JS.truthy m = true ->
      Forall keepsMainModel later ->
      model (mainAgent (read loaded final)) = m
      /\ model (mainAgent (read earlier final)) = m)
  /\ (debug = true ->
      debugging (communication (read loaded final)) = true
      /\ debugging (communication (read earlier final)) = true)
  /\ enabled (read loaded final)
     = match GEMINI_TWO_AGENT_MODE env with
       | Some v => enablingValue v
       | None => enabled shared
       end
  /\ enabled (read earlier final) = ownEnabled earlier.
Proof.
  destruct (loadTwoAgentConfig env debug shared) as [loaded shared1] eqn:L.
  cbv zeta. unfold read; simpl.
  assert (L1 : shared1 = snd (loadTwoAgentConfig env debug shared)) by now rewrite L.
  assert (L2 : loaded = fst (loadTwoAgentConfig env debug shared)) by now rewrite L.
  repeat split.
  - rewrite afterLoads_mainModel by assumption. subst shared1.
    unfold loadTwoAgentConfig. simpl. rewrite H, H0. reflexivity.
  - rewrite afterLoads_mainModel by assumption. subst shared1.
    unfold loadTwoAgentConfig. simpl. rewrite H, H0. reflexivity.
  - apply afterLoads_debugging. subst shared1 debug. reflexivity.
  - apply afterLoads_debugging. subst shared1 debug. reflexivity.
  - subst loaded. reflexivity.
Qed.

(** What every series of loads keeps of [DEFAULT_TWO_AGENT_CONFIG]. *)
Definition sound (shared : TwoAgentConfig) : Prop :=
  enabled shared = true
  /\ JS.truthy (model (mainAgent shared)) = true
  /\ JS.truthy (model (toolsAgent shared)) = true
  /\ capabilities (mainAgent shared) = capabilities (mainAgent DEFAULT_TWO_AGENT_CONFIG)
  /\ capabilities (toolsAgent shared)
     = capabilities (toolsAgent DEFAULT_TWO_AGENT_CONFIG).

Lemma load_sound env debug shared :
  sound shared -> sound (snd (loadTwoAgentConfig env debug shared)).
Proof.
  intros (E & M & T & CM & CT). unfold sound, loadTwoAgentConfig. simpl.
  repeat split; auto.
  - destruct (GEMINI_MAIN_AGENT_MODEL env) as [m|]; auto.
    destruct (JS.truthy m) eqn:X; auto.
  - destruct (GEMINI_TOOL_AGENT_MODEL env) as [m|]; auto.
    destruct (JS.truthy m) eqn:X; auto.
  - destruct (GEMINI_MAIN_AGENT_MODEL env) as [m|]; auto.
    destruct (JS.truthy m); auto.
  - destruct (GEMINI_TOOL_AGENT_MODEL env) as [m|]; auto.
    destruct (JS.truthy m); auto.
Qed.

Lemma afterLoads_sound loads : forall shared,
  sound shared -> sound (afterLoads loads shared).
Proof.
  induction loads as [|[env debug] loads IH]; intros shared H; simpl; [exact H|].
  apply IH. now apply load_sound.
Qed.

Lemma sound_valid (c : Loaded) shared :
  sound shared ->
  validateTwoAgentConfig (read c shared) = {| valid := true; errors := [] |}.
Proof.
  intros (E & M & T & CM & CT). unfold validateTwoAgentConfig, read. simpl.
  rewrite M, T, CM, CT. reflexivity.
Qed.

(** X17.  Whatever the environment and whatever loads came before, the
    configuration [loadTwoAgentConfig] returns passes
    [validateTwoAgentConfig] without an error, and its [enabled] is what
    [shouldEnableTwoAgentMode] answers for the same environment. *)
Theorem loaded_configuration_is_valid
    (before : list (ProcessEnv * bool)) (env : ProcessEnv) (debug : bool) :
  let '(loaded, shared) :=
    loadTwoAgentConfig env debug (afterLoads before DEFAULT_TWO_AGENT_CONFIG) in
  validateTwoAgentConfig (read loaded shared) = {| valid := true; errors := [] |}
  /\ enabled (read loaded shared) = Integration.shouldEnableTwoAgentMode env.
Proof.
  assert (S0 : sound DEFAULT_TWO_AGENT_CONFIG) by (repeat split).
  pose proof (afterLoads_sound before _ S0) as S1.
  pose proof (load_sound env debug _ S1) as S2.
  destruct (loadTwoAgentConfig env debug (afterLoads before DEFAULT_TWO_AGENT_CONFIG))
    as [loaded shared] eqn:L.
  simpl in S2. split; [now apply sound_valid|].
  assert (L2 : loaded = fst (loadTwoAgentConfig env debug
                               (afterLoads before DEFAULT_TWO_AGENT_CONFIG)))
    by now rewrite L.
  subst loaded. unfold Integration.shouldEnableTwoAgentMode. simpl.
  destruct (GEMINI_TWO_AGENT_MODE env); [reflexivity|].
  destruct S1 as [-> _]. reflexivity.
Qed.

End ConfigFacts.

Section ValidateFacts.
Import Config.

Lemma has_In capabilities capability :
  has capabilities capability = true <-> In capability capabilities.
Proof.
  unfold has. rewrite existsb_exists. split.
  - intros (x & I & E). apply String.eqb_eq in E. now subst.
  - intros I. exists capability. split; [exact I | apply String.eqb_refl].
Qed.

Lemma flat_map_nil {A B} (f : A -> list B) l :
  flat_map f l = [] <-> forall x, In x l -> f x = [].
Proof.
  induction l as [|a l IH]; simpl.
  - split; [intros _ x [] | reflexivity].
  - split.
    + intros H. apply app_eq_nil in H as [H1 H2].
      intros x [<-|I]; [exact H1 | now apply IH].
    + intros H. rewrite (H a) by now left. simpl. apply IH. auto.
Qed.

(** X18.  [validateTwoAgentConfig] accepts a configuration exactly when
    both models are non-empty, both agents have a capability, and none of
    [tool_execution], [file_operations], [shell_commands] and
    [user_interaction] is a capability of both agents; any other
    capability may be shared.  It is valid exactly when it reports no
    error, and it reports at most eight. *)
Theorem validateTwoAgentConfig_accepts (config : TwoAgentConfig) :
  (valid (validateTwoAgentConfig config) = true
   <-> (model (mainAgent config) <> EmptyString
        /\ model (toolsAgent config) <> EmptyString
        /\ capabilities (mainAgent config) <> []
        /\ capabilities (toolsAgent config) <> []
        /\ forall capability,
             In capability conflictingCapabilities ->
             ~ (In capability (capabilities (mainAgent config))
                /\ In capability (capabilities (toolsAgent config)))))
  /\ (valid (validateTwoAgentConfig config) = true
      <-> errors (validateTwoAgentConfig config) = [])
  /\ (length (errors (validateTwoAgentConfig config)) <= 8)%nat.
Proof.
  assert (V : valid (validateTwoAgentConfig config) = true
              <-> errors (validateTwoAgentConfig config) = []).
  { unfold validateTwoAgentConfig. cbn [valid errors].
    rewrite Nat.eqb_eq. apply length_zero_iff_nil. }
  split; [|split; [exact V|]].
  - rewrite V. unfold validateTwoAgentConfig. cbn [errors].
    split.
    + intros H.
      apply app_eq_nil in H as [H1 H]. apply app_eq_nil in H as [H2 H].
      apply app_eq_nil in H as [H3 H]. apply app_eq_nil in H as [H4 H5].
      repeat split.
      * intros E. rewrite E in H1. discriminate.
      * intros E. rewrite E in H2. discriminate.
      * intros E. rewrite E in H3. discriminate.
      * intros E. rewrite E in H4. discriminate.
      * intros capability I [Im It].
        rewrite flat_map_nil in H5. specialize (H5 capability I).
        apply has_In in Im, It. rewrite Im, It in H5. discriminate.
    + intros (M & T & CM & CT & X).
      destruct (model (mainAgent config)); [contradiction|].
      destruct (model (toolsAgent config)); [contradiction|].
      destruct (capabilities (mainAgent config)) as [|cm lm] eqn:Em; [contradiction|].
      destruct (capabilities (toolsAgent config)) as [|ct lt] eqn:Et; [contradiction|].
      cbn [JS.truthy negb Datatypes.length Nat.eqb List.app].
      apply flat_map_nil. intros capability I.
      destruct (has (cm :: lm) capability) eqn:Hm; [|reflexivity].
      destruct (has (ct :: lt) capability) eqn:Ht; [|reflexivity].
      exfalso. apply (X capability I). split; now apply has_In.
  - unfold validateTwoAgentConfig. cbn [errors].
    rewrite !length_app.
    assert (F : (length
                   (flat_map
                      (fun capability =>
                         if has (capabilities (mainAgent config)) capability
                            && has (capabilities (toolsAgent config)) capability
                         then [sharedCapability capability] else [])
                      conflictingCapabilities) <= 4)%nat).
    { unfold conflictingCapabilities. cbn [flat_map]. rewrite !length_app.
      repeat match goal with
             | |- context [if ?b then _ else _] => destruct b
             end; simpl; lia. }
    revert F. generalize (length
                   (flat_map
                      (fun capability =>
                         if has (capabilities (mainAgent config)) capability
                            && has (capabilities (toolsAgent config)) capability
                         then [sharedCapability capability] else [])
                      conflictingCapabilities)).
    intros n F.
    destruct (negb (JS.truthy (model (mainAgent config))));
      destruct (negb (JS.truthy (model (toolsAgent config))));
      destruct (length (capabilities (mainAgent config)) =? 0)%nat;
      destruct (length (capabilities (toolsAgent config)) =? 0)%nat;
      simpl; lia.
Qed.

End ValidateFacts.

Section CliFacts.

Variable PartListUnion : Type.
Variable env : Agents.Env.
Variable createErrorResponse :
  Turn.ToolCallRequestInfo -> Thrown -> Scheduler.ToolCallResponseInfo PartListUnion.
Variable getMainAgentSystemPrompt : string.

Local Abbreviation St := (Agents.State PartListUnion).
Local Abbreviation System := (Integration.TwoAgentSystem PartListUnion).

Definition notInitialized : Thrown := ErrorObj "Agent orchestrator not initialized".

Lemma handleUserInput_uninitialized fuel userInput (s : St) :
  Agents.isInitialized s = false ->
  Agents.handleUserInput env createErrorResponse getMainAgentSystemPrompt
    fuel userInput s = Some (Throw notInitialized, s).
Proof.
  intros H. unfold Agents.handleUserInput, Agents.bind, Agents.get. now rewrite H.
Qed.

Lemma shutdown_uninitialized (s : St) :
  Agents.isInitialized s = false -> Agents.shutdown s = Some (Return tt, s).
Proof.
  intros H. unfold Agents.shutdown, Agents.bind, Agents.get. now rewrite H.
Qed.

Lemma initialize_flag sessionId (s : St) :
  Agents.isInitialized s = false ->
  exists r s',
    Agents.initialize env sessionId s = Some (r, s')
    /\ Agents.isInitialized s' = match r with Return _ => true | Throw _ => false end.
Proof.
  intros H. unfold Agents.initialize, Agents.bind at 1, Agents.get. rewrite H.
  unfold Agents.mainInitialize, Agents.toolsInitialize, Agents.replaceMainContext,
    Agents.bind, Agents.get, Agents.setReleasedHistories, Agents.ret,
    Agents.setMainContext, Agents.setToolsContext, Agents.setInitialized, Agents.lift.
  cbv beta iota.
  destruct (Agents.mainContext s);
    (destruct (Agents.clientInitialize (Agents.mainClient env)) as [[]|e];
     [ destruct (Agents.clientInitialize (Agents.toolsClient env)) as [[]|e];
         eexists; eexists; (split; [reflexivity|]); simpl; auto
     | eexists; eexists; split; [reflexivity|]; simpl; auto ]).
Qed.

Lemma handleUserInput_initialized fuel userInput (s : St) :
  Agents.isInitialized s = true ->
  exists text s',
    Agents.handleUserInput env createErrorResponse getMainAgentSystemPrompt
      (3 + fuel) userInput s = Some (Return text, s').
Proof.
  intros H. change (3 + fuel) with (S (S (S fuel))).
  unfold Agents.handleUserInput, Agents.bind, Agents.get. rewrite H. cbn [negb].
  unfold Agents.tryCatch. cbv beta iota.
  pose proof (total_mainHandleUserInput PartListUnion env createErrorResponse
                getMainAgentSystemPrompt fuel userInput s) as T.
  destruct (Agents.mainHandleUserInput env getMainAgentSystemPrompt _ userInput s)
    as [[[answer|e] s1]|]; [eauto | | contradiction].
  unfold Agents.ret. eauto.
Qed.

Lemma system_eta (sys : System) :
  {| Integration.orchestrator := Integration.orchestrator sys;
     Integration.isEnabled := Integration.isEnabled sys;
     Integration.config := Integration.config sys |} = sys.
Proof. now destruct sys. Qed.

(** *** The example integration *)

Local Abbreviation Cli := (TwoAgentCLI.TwoAgentCLIIntegration PartListUnion).

(** The system an integration holds, if any, is enabled and its
    orchestrator is not initialized. *)
Definition dormant (cli : Cli) : Prop :=
  match TwoAgentCLI.twoAgentSystem cli with
  | Some sys =>
      Integration.isEnabled sys = true
      /\ Agents.isInitialized (Integration.orchestrator sys) = false
  | None => True
  end.

Lemma cli_eta (cli : Cli) :
  {| TwoAgentCLI.twoAgentSystem := TwoAgentCLI.twoAgentSystem cli;
     TwoAgentCLI.config := TwoAgentCLI.config cli;
     TwoAgentCLI.isEnabled := TwoAgentCLI.isEnabled cli |} = cli.
Proof. now destruct cli. Qed.

Lemma dormant_initialize processEnv shared (cli : Cli) :
  dormant cli -> dormant (fst (TwoAgentCLI.initialize processEnv shared cli)).
Proof.
  intros D. unfold TwoAgentCLI.initialize.
  destruct (TwoAgentCLI.isEnabled cli); cbn [negb fst]; [|exact D].
  destruct (Config.loadTwoAgentConfig _ _ _) as [agentConfig shared'].
  destruct (Config.valid _); cbn [negb fst]; [|exact D].
  unfold dormant. simpl. auto.
Qed.

Ltac records :=
  cbn [TwoAgentCLI.isEnabled TwoAgentCLI.twoAgentSystem TwoAgentCLI.config
       Integration.isEnabled Integration.orchestrator Integration.config
       negb andb].

Lemma dormant_handleUserInput fuel userInput (cli : Cli) :
  dormant cli ->
  exists e,
    TwoAgentCLI.handleUserInput env createErrorResponse getMainAgentSystemPrompt
      fuel userInput cli = Some (Throw e, cli)
    /\ (e = TwoAgentCLI.notAvailable \/ e = notInitialized)
    /\ (TwoAgentCLI.isTwoAgentModeActive cli = true -> e = notInitialized).
Proof.
  unfold dormant, TwoAgentCLI.handleUserInput, TwoAgentCLI.isTwoAgentModeActive.
  destruct cli as [[[o en c]|] cfg [|]]; records; intros D;
    try (exists TwoAgentCLI.notAvailable; split; [reflexivity|];
         split; [now left | discriminate]).
  destruct D as [-> Un].
  unfold Integration.handleUserInput, Integration.onOrchestrator. records.
  rewrite (handleUserInput_uninitialized _ _ _ Un).
  exists notInitialized. auto.
Qed.

Lemma dormant_shutdown (cli : Cli) :
  dormant cli ->
  TwoAgentCLI.shutdown cli = Some (Return tt, cli).
Proof.
  unfold dormant, TwoAgentCLI.shutdown.
  destruct cli as [[[o en c]|] cfg e]; records; intros D; [|reflexivity].
  destruct D as [-> Un].
  unfold Integration.shutdown, Integration.onOrchestrator. records.
  now rewrite (shutdown_uninitialized _ Un).
Qed.

Lemma dormant_session ops : forall st : Cli * Config.TwoAgentConfig,
  dormant (fst st) ->
  exists st',
    TwoAgentCLI.session env createErrorResponse getMainAgentSystemPrompt ops st
    = Some st'
    /\ dormant (fst st').
Proof.
  induction ops as [|op ops IH]; intros st D; simpl.
  - eauto.
  - destruct op as [processEnv|fuel userInput|]; simpl.
    + apply IH. now apply dormant_initialize.
    + destruct (dormant_handleUserInput fuel userInput _ D) as (e & -> & _).
      now apply IH.
    + rewrite (dormant_shutdown _ D). now apply IH.
Qed.

(** X19.  The example integration never answers: [initialize] creates the
    two-agent system and nothing initializes it, so after any series of
    [initialize], [handleUserInput] and [shutdown], [handleUserInput] throws
    -- [Agent orchestrator not initialized] when two-agent mode is active,
    and otherwise that or the request for a fallback -- and leaves the
    integration as it was. *)
Theorem example_integration_never_answers
    (processEnv : Config.ProcessEnv)
    (config : Integration.CoreConfig PartListUnion)
    (shared : Config.TwoAgentConfig)
    (ops : list TwoAgentCLI.Operation) (fuel : nat) (userInput : string) :
  exists cli shared' e,
    TwoAgentCLI.session env createErrorResponse getMainAgentSystemPrompt ops
      (TwoAgentCLI.newTwoAgentCLIIntegration processEnv config, shared)
    = Some (cli, shared')
    /\ TwoAgentCLI.handleUserInput env createErrorResponse getMainAgentSystemPrompt
         fuel userInput cli = Some (Throw e, cli)
    /\ (e = TwoAgentCLI.notAvailable \/ e = notInitialized)
    /\ (TwoAgentCLI.isTwoAgentModeActive cli = true -> e = notInitialized).
Proof.
  destruct (dormant_session ops
              (TwoAgentCLI.newTwoAgentCLIIntegration processEnv config, shared) I)
    as ([cli shared'] & S & D).
  destruct (dormant_handleUserInput fuel userInput cli D) as (e & H).
  exists cli, shared', e. auto.
Qed.

(** *** The CLI integration *)

Local Abbreviation AgentCli := (CliIntegration.AgentCliIntegration PartListUnion).

Lemma shutdown_returns_always (s : St) :
  exists s', Agents.shutdown s = Some (Return tt, s').
Proof.
  unfold Agents.shutdown, Agents.bind at 1, Agents.get.
  destruct (Agents.isInitialized s); cbn [negb]; [|eexists; reflexivity].
  unfold Agents.mainShutdown, Agents.replaceMainContext, Agents.bind, Agents.get.
  destruct (Agents.mainContext s); eexists; reflexivity.
Qed.

(** X20.  The CLI integration after [initialize].  With two-agent mode off
    it is not ready and [processUserInput] throws the request for regular
    processing.  With the mode on it is ready whether or not the
    initialization succeeded: after a successful one [processUserInput]
    returns a text and never throws; after a failed one it throws
    [Agent orchestrator not initialized].  After [shutdown] it is not ready
    in either case. *)
Theorem processUserInput_after_initialize
    (config : Integration.CoreConfig PartListUnion) (fuel : nat) (input : string) :
  exists r cli,
    CliIntegration.initialize env (CliIntegration.newAgentCliIntegration config)
    = Some (r, cli)
    /\ CliIntegration.isAgentSystemReady cli
       = Integration.isTwoAgentModeEnabled config
    /\ (if Integration.isTwoAgentModeEnabled config then
          match r with
          | Return _ =>
              exists text cli',
                CliIntegration.processUserInput env createErrorResponse
                  getMainAgentSystemPrompt (3 + fuel) input cli
                = Some (Return text, cli')
          | Throw _ =>
              CliIntegration.processUserInput env createErrorResponse
                getMainAgentSystemPrompt fuel input cli
              = Some (Throw notInitialized, cli)
          end
        else
          r = Return tt
          /\ CliIntegration.processUserInput env createErrorResponse
               getMainAgentSystemPrompt fuel input cli
             = Some (Throw CliIntegration.notReady, cli))
    /\ exists stopped,
         CliIntegration.shutdown cli = Some (Return tt, stopped)
         /\ CliIntegration.isAgentSystemReady stopped = false
         /\ CliIntegration.processUserInput env createErrorResponse
              getMainAgentSystemPrompt fuel input stopped
            = Some (Throw CliIntegration.notReady, stopped).
Proof.
  unfold CliIntegration.initialize.
  cbn [CliIntegration.config CliIntegration.newAgentCliIntegration].
  destruct (Integration.isTwoAgentModeEnabled config) eqn:E.
  - unfold Integration.initialize, Integration.createTwoAgentSystem,
      Integration.newTwoAgentSystem, Integration.onOrchestrator.
    cbn [Integration.isEnabled Integration.enabled Integration.noOptions
         Integration.oEnabled negb Integration.orchestrator Integration.config
         Integration.sessionId Integration.oSessionId].
    destruct (initialize_flag (Integration.getSessionId config)
                (Agents.newOrchestrator (Integration.newToolScheduler config))
                eq_refl) as (r & s' & -> & F).
    eexists. eexists. split; [reflexivity|]. split; [reflexivity|]. split.
    + unfold CliIntegration.processUserInput, Integration.handleUserInput,
        Integration.onOrchestrator.
      cbn [CliIntegration.twoAgentSystem CliIntegration.withSystem
           Integration.isAgentSystemEnabled Integration.isEnabled negb
           Integration.orchestrator].
      destruct r as [[]|e].
      * destruct (handleUserInput_initialized fuel input s' F) as (text & s2 & ->).
        eauto.
      * now rewrite (handleUserInput_uninitialized _ _ _ F).
    + unfold CliIntegration.shutdown, Integration.shutdown,
        Integration.onOrchestrator.
      cbn [CliIntegration.twoAgentSystem CliIntegration.withSystem
           Integration.isEnabled Integration.orchestrator].
      destruct (shutdown_returns_always s') as [s2 ->].
      eexists. split; [reflexivity|]. split; reflexivity.
  - eexists. eexists. split; [reflexivity|]. split; [reflexivity|].
    split; [auto|]. eexists. split; [reflexivity|]. split; reflexivity.
Qed.

End CliFacts.

(** * The non-interactive loop ([nonInteractiveCli.ts]) *)

Module NonInteractive.
Import Genai.

Record ToolCallRequestInfo : Type := {
  callId : string;
  (** [fc.name as string]: [None] is [undefined] *)
  name : option string;
  args : Args;
  isClientInitiated : bool
}.

(** How the process ends: [return], or [process.exit(code)]. *)
Inductive Outcome : Type :=
| Returned
| Exited (code : Z).

Section Run.

(** The parts of a message, and [{ text }]. *)
Variable Part : Type.
Variable textPart : string -> Part.

(** A member of a [PartListUnion]: a string, a part, or [undefined]. *)
Inductive PartUnion : Type :=
| PString (s : string)
| PObject (p : Part)
| PNullish.

Inductive PartListUnion : Type :=
| Single (p : PartUnion)
| Array (l : list PartUnion).

Record ToolCallResponseInfo : Type := {
  responseParts : PartListUnion;
  resultDisplay : option string;
  (** [error.message] of the response's error, if it has one *)
  error : option string
}.

(** What the environment does during one round of the loop. *)
Record Round : Type := {
  (** the chunks of [chat.sendMessageStream], each with [signal.aborted] *)
  stream : list (bool * GenerateContentResponse);
  (** what [sendMessageStream] or the stream throws once the chunks are
      drained, if anything *)
  streamError : option Thrown;
  (** [Date.now()] at the k-th function call of the round *)
  dateNow : nat -> N;
  (** [executeToolCall] for the k-th function call of the round *)
  executeToolCall : nat -> ToolCallRequestInfo -> Completion ToolCallResponseInfo
}.

(** The run as far as the fuel reaches. *)
Record Run : Type := {
  stdout : list string;
  stderr : list string;
  (** the [message] of every [sendMessageStream], in order *)
  requests : list (list Part);
  (** the request of every [executeToolCall], in order *)
  executed : list ToolCallRequestInfo;
  outcome : option Outcome
}.

Variable getResponseText : GenerateContentResponse -> option string.
Variable parseAndFormatApiError : Thrown -> string.
Variable env : nat -> Round.

(** The [for await] over the stream: the texts written, the function
    calls collected, and whether the signal was seen aborted. *)
Fixpoint drain (chunks : list (bool * GenerateContentResponse))
  : list string * list FunctionCall * bool :=
  match chunks with
  | [] => ([], [], false)
  | (aborted, resp) :: rest =>
      if aborted then ([], [], true)
      else
        let '(texts, calls, cancelled) := drain rest in
        ((match getResponseText resp with
          | Some textPart => if JS.truthy textPart then [textPart] else []
          | None => []
          end ++ texts)%list,
         (match functionCalls resp with Some l => l | None => [] end ++ calls)%list,
         cancelled)
  end.

(** [`${fc.name}`] *)
Definition nameText (fc : FunctionCall) : string :=
  match Genai.name fc with Some n => n | None => "undefined" end.

(** [fc.id ?? `${fc.name}-${Date.now()}`] and the request built with it. *)
Definition requestFor (now : N) (fc : FunctionCall) : ToolCallRequestInfo :=
  {| callId := match Genai.id fc with
               | Some i => i
               | None => nameText fc ++ "-" ++ JS.decimal now
               end;
     name := Genai.name fc;
     args := match Genai.args fc with Some a => a | None => [] end;
     isClientInitiated := false |}.

(** [if (toolResponse.responseParts)] *)
Definition present (parts : PartListUnion) : bool :=
  match parts with
  | Single (PString s) => JS.truthy s
  | Single (PObject _) => true
  | Single PNullish => false
  | Array _ => true
  end.

(** The parts a tool response adds to the next message. *)
Definition partsOf (toolResponse : ToolCallResponseInfo) : list Part :=
  if present (responseParts toolResponse) then
    flat_map (fun part =>
                match part with
                | PString s => [textPart s]
                | PObject p => [p]
                | PNullish => []
                end)
      match responseParts toolResponse with
      | Array l => l
      | Single p => [p]
      end
  else [].

(** [`Error executing tool ${fc.name}: ${toolResponse.resultDisplay || toolResponse.error.message}`] *)
Definition toolErrorText (fc : FunctionCall) (toolResponse : ToolCallResponseInfo)
    (message : string) : string :=
  "Error executing tool " ++ nameText fc ++ ": "
  ++ match resultDisplay toolResponse with
     | Some d => if JS.truthy d then d else message
     | None => message
     end.

(** How the tool phase of a round ends. *)
Inductive Phase : Type :=
| Completed (toolResponseParts : list Part)
| Exit
| Threw (e : Thrown).

(** The [for (const fc of functionCalls)] loop from its k-th call on:
    what is written to [stderr], the requests executed, and how it ends. *)
Fixpoint executeCalls (round : Round) (k : nat) (functionCalls : list FunctionCall)
    (toolResponseParts : list Part)
  : list string * list ToolCallRequestInfo * Phase :=
  match functionCalls with
  | [] => ([], [], Completed toolResponseParts)
  | fc :: rest =>
      let requestInfo := requestFor (dateNow round k) fc in
      match executeToolCall round k requestInfo with
      | Throw e => ([], [requestInfo], Threw e)
      | Return toolResponse =>
          let complaint :=
            match error toolResponse with
            | Some message => [toolErrorText fc toolResponse message]
            | None => []
            end in
          let fatal :=
            match error toolResponse with
            | Some message => negb (JS.includes message "not found in registry")
            | None => false
            end in
          if fatal then (complaint, [requestInfo], Exit)
          else
            let '(errs, reqs, phase) :=
              executeCalls round (S k) rest
                (toolResponseParts ++ partsOf toolResponse)%list in
            ((complaint ++ errs)%list, requestInfo :: reqs, phase)
      end
  end.

(** The [while (true)] loop from round [n] on, sending [message]. *)
Fixpoint loop (fuel : nat) (n : nat) (message : list Part) : Run :=
  match fuel with
  | O => {| stdout := []; stderr := []; requests := []; executed := [];
            outcome := None |}
  | S fuel' =>
      let round := env n in
      let '(texts, functionCalls, cancelled) := drain (stream round) in
      if cancelled then
        {| stdout := texts; stderr := ["Operation cancelled."];
           requests := [message]; executed := []; outcome := Some Returned |}
      else
        match streamError round with
        | Some e =>
            {| stdout := texts; stderr := [parseAndFormatApiError e];
               requests := [message]; executed := [];
               outcome := Some (Exited 1) |}
        | None =>
            if (0 <? length functionCalls)%nat then
              let '(errs, reqs, phase) := executeCalls round 0 functionCalls [] in
              match phase with
              | Completed toolResponseParts =>
                  let r := loop fuel' (S n) toolResponseParts in
                  {| stdout := (texts ++ stdout r)%list;
                     stderr := (errs ++ stderr r)%list;
                     requests := message :: requests r;
                     executed := (reqs ++ executed r)%list;
                     outcome := outcome r |}
              | Exit =>
                  {| stdout := texts; stderr := errs; requests := [message];
                     executed := reqs; outcome := Some (Exited 1) |}
              | Threw e =>
                  {| stdout := texts;
                     stderr := (errs ++ [parseAndFormatApiError e])%list;
                     requests := [message]; executed := reqs;
                     outcome := Some (Exited 1) |}
              end
            else
              {| stdout := (texts ++ [String JS.LF EmptyString])%list;
                 stderr := []; requests := [message]; executed := [];
                 outcome := Some Returned |}
        end
  end.

(** [runNonInteractive(config, input)] *)
Definition runNonInteractive (fuel : nat) (input : string) : Run :=
  loop fuel 0 [textPart input].

End Run.

Arguments PString {Part}.
Arguments PObject {Part}.
Arguments PNullish {Part}.
Arguments Single {Part}.
Arguments Array {Part}.
Arguments responseParts {Part}.
Arguments resultDisplay {Part}.
Arguments error {Part}.
Arguments stream {Part}.
Arguments streamError {Part}.
Arguments dateNow {Part}.
Arguments executeToolCall {Part}.
Arguments stdout {Part}.
Arguments stderr {Part}.
Arguments requests {Part}.
Arguments executed {Part}.
Arguments outcome {Part}.
Arguments present {Part}.
Arguments partsOf {Part}.
Arguments toolErrorText {Part}.
Arguments Completed {Part}.
Arguments Exit {Part}.
Arguments Threw {Part}.
Arguments executeCalls {Part}.
Arguments loop {Part}.
Arguments runNonInteractive {Part}.

End NonInteractive.

Section NonInteractiveFacts.
Import Genai.
Import NonInteractive.

Variable Part : Type.
Variable textPart : string -> Part.
Variable getResponseText : GenerateContentResponse -> option string.
Variable parseAndFormatApiError : Thrown -> string.
Variable env : nat -> Round Part.

Local Abbreviation loop' :=
  (loop textPart getResponseText parseAndFormatApiError env).
Local Abbreviation drain' := (drain getResponseText).

(** What a round writes, which function calls it collects, and how its
    tool phase goes. *)
Definition textsOf (round : Round Part) : list string :=
  fst (fst (drain' (stream round))).

Definition callsOf (round : Round Part) : list FunctionCall :=
  snd (fst (drain' (stream round))).

Definition toolPhase (round : Round Part)
  : list string * list ToolCallRequestInfo * Phase Part :=
  executeCalls textPart round 0 (callsOf round) [].

(** The stream of the round is drained without an abort or an error. *)
Definition calm (round : Round Part) : Prop :=
  snd (drain' (stream round)) = false /\ streamError round = None.

(** A round that asks for tools and gets an answer from each. *)
Definition toolRound (round : Round Part) : Prop :=
  calm round /\ callsOf round <> []
  /\ exists toolResponseParts, snd (toolPhase round) = Completed toolResponseParts.

(** The message of round [k]: the input first, then the parts of the
    previous round's tool responses. *)
Definition messageAt (input : string) (k : nat) : list Part :=
  match k with
  | O => [textPart input]
  | S k' =>
      match snd (toolPhase (env k')) with
      | Completed toolResponseParts => toolResponseParts
      | _ => []
      end
  end.

Lemma loop_unfold fuel n message :
  loop' (S fuel) n message
  = let round := env n in
    if snd (drain' (stream round)) then
      {| stdout := textsOf round; stderr := ["Operation cancelled."];
         requests := [message]; executed := []; outcome := Some Returned |}
    else
      match streamError round with
      | Some e =>
          {| stdout := textsOf round; stderr := [parseAndFormatApiError e];
             requests := [message]; executed := [];
             outcome := Some (Exited 1) |}
      | None =>
          if (0 <? length (callsOf round))%nat then
            match snd (toolPhase round) with
            | Completed toolResponseParts =>
                let r := loop' fuel (S n) toolResponseParts in
                {| stdout := (textsOf round ++ stdout r)%list;
                   stderr := (fst (fst (toolPhase round)) ++ stderr r)%list;
                   requests := message :: requests r;
                   executed := (snd (fst (toolPhase round)) ++ executed r)%list;
                   outcome := outcome r |}
            | Exit =>
                {| stdout := textsOf round; stderr := fst (fst (toolPhase round));
                   requests := [message];
                   executed := snd (fst (toolPhase round));
                   outcome := Some (Exited 1) |}
            | Threw e =>
                {| stdout := textsOf round;
                   stderr := (fst (fst (toolPhase round))
                              ++ [parseAndFormatApiError e])%list;
                   requests := [message];
                   executed := snd (fst (toolPhase round));
                   outcome := Some (Exited 1) |}
            end
          else
            {| stdout := (textsOf round ++ [String JS.LF EmptyString])%list;
               stderr := []; requests := [message]; executed := [];
               outcome := Some Returned |}
      end.
Proof.
  cbn [loop]. unfold toolPhase, textsOf, callsOf. cbv zeta.
  destruct (drain' (stream (env n))) as [[texts calls] cancelled]. cbn [fst snd].
  destruct cancelled; [reflexivity|].
  destruct (streamError (env n)); [reflexivity|].
  destruct (0 <? length calls)%nat; [|reflexivity].
  destruct (executeCalls textPart (env n) 0 calls []) as [[errs reqs] phase].
  cbn [fst snd]. destruct phase; reflexivity.
Qed.

Lemma loop_toolRound fuel n message :
  toolRound (env n) ->
  let r := loop' fuel (S n) (messageAt "" (S n)) in
  loop' (S fuel) n message
  = {| stdout := (textsOf (env n) ++ stdout r)%list;
       stderr := (fst (fst (toolPhase (env n))) ++ stderr r)%list;
       requests := message :: requests r;
       executed := (snd (fst (toolPhase (env n))) ++ executed r)%list;
       outcome := outcome r |}.
Proof.
  intros ((C1 & C2) & N & parts & P). rewrite loop_unfold. cbv zeta.
  rewrite C1, C2. cbn [messageAt]. rewrite P.
  destruct (callsOf (env n)); [contradiction | reflexivity].
Qed.

(** The run from round [m] when the next [n] rounds are tool rounds. *)
Lemma loop_toolRounds n : forall fuel m (msg : nat -> list Part),
  (forall k, msg (S k) = messageAt "" (S k)) ->
  (forall k, (m <= k < m + n)%nat -> toolRound (env k)) ->
  let r := loop' fuel (m + n) (msg (m + n)%nat) in
  loop' (n + fuel) m (msg m)
  = {| stdout := (flat_map (fun k => textsOf (env k)) (seq m n) ++ stdout r)%list;
       stderr := (flat_map (fun k => fst (fst (toolPhase (env k)))) (seq m n)
                  ++ stderr r)%list;
       requests := (map msg (seq m n) ++ requests r)%list;
       executed := (flat_map (fun k => snd (fst (toolPhase (env k)))) (seq m n)
                    ++ executed r)%list;
       outcome := outcome r |}.
Proof.
  induction n as [|n IH]; intros fuel m msg Hmsg H.
  - cbv zeta. rewrite Nat.add_0_r. simpl. now destruct (loop' fuel m (msg m)).
  - cbv zeta. change (S n + fuel)%nat with (S (n + fuel)).
    rewrite loop_toolRound by (apply H; lia). cbv zeta.
    rewrite <- Hmsg.
    rewrite (IH fuel (S m) msg Hmsg) by (intros k Hk; apply H; lia).
    cbv zeta. replace (S m + n)%nat with (m + S n)%nat by lia.
    cbn [seq flat_map map stdout stderr requests executed outcome].
    now rewrite <- !app_assoc.
Qed.

(** X21.  The loop runs until the model stops asking for tools: when the
    first [n] rounds each collect function calls and get an answer from
    every tool, and round [n] collects none, the run returns normally after
    [n + 1] requests -- the input first, then the parts of each round's
    tool responses -- having written the texts of all rounds and a final
    newline and executed the tool calls of the first [n] rounds. *)
Theorem loop_ends_at_the_first_round_without_calls
    (n extra : nat) (input : string) :
  (forall k, (k < n)%nat -> toolRound (env k)) ->
  calm (env n) ->
  callsOf (env n) = [] ->
  let r := runNonInteractive textPart getResponseText parseAndFormatApiError env
             (S n + extra) input in
  outcome r = Some Returned
  /\ requests r = map (messageAt input) (seq 0 (S n))
  /\ stdout r
     = (flat_map (fun k => textsOf (env k)) (seq 0 (S n))
        ++ [String JS.LF EmptyString])%list
  /\ stderr r = flat_map (fun k => fst (fst (toolPhase (env k)))) (seq 0 n)
  /\ executed r = flat_map (fun k => snd (fst (toolPhase (env k)))) (seq 0 n).
Proof.
  intros H (C1 & C2) N r. subst r. unfold runNonInteractive.
  replace (S n + extra)%nat with (n + S extra)%nat by lia.
  change [textPart input] with (messageAt input 0).
  rewrite (loop_toolRounds n (S extra) 0 (messageAt input))
    by (try reflexivity; intros k Hk; apply H; lia).
  cbv zeta. cbn [Nat.add]. rewrite loop_unfold. cbv zeta.
  rewrite C1, C2, N. cbn [Datatypes.length Nat.ltb Nat.leb stdout stderr requests executed outcome].
  rewrite !seq_S, !flat_map_app, map_app. cbn [Nat.add flat_map map].
  rewrite !app_nil_r, <- !app_assoc. repeat split; reflexivity.
Qed.

(** The response carries no error, or one that [runNonInteractive] goes on
    after. *)
Definition tolerated (toolResponse : ToolCallResponseInfo Part) : bool :=
  match error toolResponse with
  | Some message => JS.includes message "not found in registry"
  | None => true
  end.

Lemma executeCalls_fatal round fc after toolResponse message :
  forall before k toolResponseParts,
    (forall i fc',
        nth_error before i = Some fc' ->
        exists r,
          executeToolCall round (k + i) (requestFor (dateNow round (k + i)) fc')
          = Return r
          /\ tolerated r = true) ->
    executeToolCall round (k + length before)
      (requestFor (dateNow round (k + length before)) fc)
    = Return toolResponse ->
    error toolResponse = Some message ->
    JS.includes message "not found in registry" = false ->
    exists errs reqs,
      executeCalls textPart round k (before ++ fc :: after) toolResponseParts
      = ((errs ++ [toolErrorText fc toolResponse message])%list,
         (reqs ++ [requestFor (dateNow round (k + length before)) fc])%list,
         Exit)
      /\ length reqs = length before.
Proof.
  induction before as [|fc0 before IH]; intros k parts Hb Hx He Hi.
  - simpl in *. rewrite Nat.add_0_r in *. rewrite Hx, He, Hi. simpl.
    exists [], []. auto.
  - destruct (Hb 0%nat fc0 eq_refl) as (r0 & E0 & T0).
    rewrite Nat.add_0_r in E0.
    cbn [List.app executeCalls]. rewrite E0.
    assert (F : match error r0 with
                | Some message0 => negb (JS.includes message0 "not found in registry")
                | None => false
                end = false).
    { unfold tolerated in T0. destruct (error r0); [now rewrite T0 | reflexivity]. }
    rewrite F.
    destruct (IH (S k) (parts ++ partsOf textPart r0)%list) as (errs & reqs & E & L).
    + intros i fc' Hn. rewrite Nat.add_succ_comm. apply (Hb (S i) fc' Hn).
    + simpl in Hx. now rewrite Nat.add_succ_comm.
    + exact He.
    + exact Hi.
    + rewrite E. simpl length. rewrite <- Nat.add_succ_comm.
      eexists (_ ++ errs)%list, (_ :: reqs). split.
      * rewrite <- app_assoc. reflexivity.
      * simpl. now rewrite L.
Qed.

(** X22.  A tool failure ends the run at once: when, after [n] tool
    rounds, the response of a function call carries an error whose message
    does not contain [not found in registry] -- the calls before it in the
    round having been answered without such an error -- the process exits
    with code 1.  The failing call is the last one executed, its complaint
    the last line written to [stderr], and no further request is sent. *)
Theorem fatal_tool_error_exits
    (n extra : nat) (input : string)
    (before after : list FunctionCall) (fc : FunctionCall)
    (toolResponse : ToolCallResponseInfo Part) (message : string) :
  (forall k, (k < n)%nat -> toolRound (env k)) ->
  calm (env n) ->
  callsOf (env n) = (before ++ fc :: after)%list ->
  (forall i fc',
      nth_error before i = Some fc' ->
      exists r,
        executeToolCall (env n) i (requestFor (dateNow (env n) i) fc') = Return r
        /\ tolerated r = true) ->
  executeToolCall (env n) (length before)
    (requestFor (dateNow (env n) (length before)) fc) = Return toolResponse ->
  error toolResponse = Some message ->
  JS.includes message "not found in registry" = false ->
  let r := runNonInteractive textPart getResponseText parseAndFormatApiError env
             (S n + extra) input in
  outcome r = Some (Exited 1)
  /\ requests r = map (messageAt input) (seq 0 (S n))
  /\ (exists earlier,
         executed r
         = (earlier ++ [requestFor (dateNow (env n) (length before)) fc])%list)
  /\ (exists earlier,
         stderr r = (earlier ++ [toolErrorText fc toolResponse message])%list).
Proof.
  intros H (C1 & C2) N Hb Hx He Hi r. subst r. unfold runNonInteractive.
  replace (S n + extra)%nat with (n + S extra)%nat by lia.
  change [textPart input] with (messageAt input 0).
  rewrite (loop_toolRounds n (S extra) 0 (messageAt input))
    by (try reflexivity; intros k Hk; apply H; lia).
  cbv zeta. cbn [Nat.add]. rewrite loop_unfold. cbv zeta.
  rewrite C1, C2.
  destruct (executeCalls_fatal (env n) fc after toolResponse message before 0 []
              Hb Hx He Hi) as (errs & reqs & E & L).
  assert (TP : toolPhase (env n)
               = ((errs ++ [toolErrorText fc toolResponse message])%list,
                  (reqs ++ [requestFor (dateNow (env n) (0 + length before)) fc])%list,
                  Exit)).
  { unfold toolPhase. now rewrite N. }
  rewrite !TP, N.
  rewrite length_app. cbn [Datatypes.length].
  replace (0 <? length before + S (length after))%nat with true
    by (symmetry; apply Nat.ltb_lt; lia).
  cbn [fst snd stdout stderr requests executed outcome].
  rewrite seq_S, map_app. cbn [Nat.add map].
  split; [reflexivity|]. split; [reflexivity|]. split.
  - eexists. rewrite app_assoc. reflexivity.
  - eexists. rewrite app_assoc. reflexivity.
Qed.

(** The calls of a round with their positions. *)
Definition numbered (k : nat) (functionCalls : list FunctionCall)
  : list (nat * FunctionCall) :=
  combine (seq k (length functionCalls)) functionCalls.

(** What [runNonInteractive] writes to [stderr] for a response. *)
Definition complaintOf (call : FunctionCall * ToolCallResponseInfo Part)
  : list string :=
  match error (snd call) with
  | Some message => [toolErrorText (fst call) (snd call) message]
  | None => []
  end.

Lemma executeCalls_tolerated round : forall calls k toolResponseParts,
  (forall i fc,
      nth_error calls i = Some fc ->
      exists r,
        executeToolCall round (k + i) (requestFor (dateNow round (k + i)) fc)
        = Return r
        /\ tolerated r = true) ->
  exists responses,
    length responses = length calls
    /\ (forall i fc r,
           nth_error calls i = Some fc ->
           nth_error responses i = Some r ->
           executeToolCall round (k + i) (requestFor (dateNow round (k + i)) fc)
           = Return r)
    /\ executeCalls textPart round k calls toolResponseParts
       = (flat_map complaintOf (combine calls responses),
          map (fun call => requestFor (dateNow round (fst call)) (snd call))
            (numbered k calls),
          Completed (toolResponseParts ++ flat_map (partsOf textPart) responses)%list).
Proof.
  induction calls as [|fc rest IH]; intros k parts H.
  - exists []. simpl. rewrite app_nil_r. repeat split; auto.
    intros [|i]; discriminate.
  - destruct (H 0%nat fc eq_refl) as (r0 & E0 & T0).
    rewrite Nat.add_0_r in E0.
    destruct (IH (S k) (parts ++ partsOf textPart r0)%list) as (responses & L & R & E).
    { intros i fc' Hn. rewrite Nat.add_succ_comm. apply (H (S i) fc' Hn). }
    exists (r0 :: responses). split; [simpl; now rewrite L|]. split.
    + intros [|i] fc' r Hf Hr; simpl in Hf, Hr.
      * inversion Hf; inversion Hr; subst. now rewrite Nat.add_0_r.
      * rewrite <- Nat.add_succ_comm. eauto.
    + cbn [executeCalls]. rewrite E0.
      assert (F : match error r0 with
                  | Some message0 =>
                      negb (JS.includes message0 "not found in registry")
                  | None => false
                  end = false).
      { unfold tolerated in T0. destruct (error r0); [now rewrite T0 | reflexivity]. }
      rewrite F, E. unfold numbered. cbn [Datatypes.length seq combine map flat_map fst snd].
      rewrite <- app_assoc. reflexivity.
Qed.

(** X23.  A missing tool does not end the run: when every function call
    of a round is answered and no response carries an error other than one
    whose message contains [not found in registry], every call of the round
    is executed, in order, one complaint is written for each response with
    an error, and the next message is made of the responses' parts in
    order -- strings as text parts, absent members dropped. *)
Theorem tolerated_errors_do_not_end_the_round
    (round : Round Part) (functionCalls : list FunctionCall) :
  (forall i fc,
      nth_error functionCalls i = Some fc ->
      exists r,
        executeToolCall round i (requestFor (dateNow round i) fc) = Return r
        /\ tolerated r = true) ->
  exists responses,
    length responses = length functionCalls
    /\ (forall i fc r,
           nth_error functionCalls i = Some fc ->
           nth_error responses i = Some r ->
           executeToolCall round i (requestFor (dateNow round i) fc) = Return r)
    /\ executeCalls textPart round 0 functionCalls []
       = (flat_map complaintOf (combine functionCalls responses),
          map (fun call => requestFor (dateNow round (fst call)) (snd call))
            (numbered 0 functionCalls),
          Completed (flat_map (partsOf textPart) responses)).
Proof.
  intros H.
  destruct (executeCalls_tolerated round functionCalls 0 [] H)
    as (responses & L & R & E).
  exists responses. auto.
Qed.

End NonInteractiveFacts.

Arguments textsOf {Part}.
Arguments callsOf {Part}.
Arguments toolPhase {Part}.
Arguments calm {Part}.
Arguments toolRound {Part}.
Arguments messageAt {Part}.
Arguments tolerated {Part}.
Arguments complaintOf {Part}.

(** Sample rounds: one that asks for [ls] and is answered with a string,
    one that asks for nothing, and one whose tool fails. *)
Definition answeredRound (answer : NonInteractive.ToolCallResponseInfo string)
  : NonInteractive.Round string :=
  {| NonInteractive.stream := [(false, callChunk "ls")];
     NonInteractive.streamError := None;
     NonInteractive.dateNow := sampleClock;
     NonInteractive.executeToolCall := fun _ _ => Return answer |}.

Definition quietRound : NonInteractive.Round string :=
  {| NonInteractive.stream := [];
     NonInteractive.streamError := None;
     NonInteractive.dateNow := sampleClock;
     NonInteractive.executeToolCall :=
       fun _ _ => Throw (ErrorObj "no tool was asked for") |}.

Definition listing : NonInteractive.ToolCallResponseInfo string :=
  {| NonInteractive.responseParts :=
       NonInteractive.Single (NonInteractive.PString "a.txt");
     NonInteractive.resultDisplay := None;
     NonInteractive.error := None |}.

Definition failing : NonInteractive.ToolCallResponseInfo string :=
  {| NonInteractive.responseParts := NonInteractive.Single NonInteractive.PNullish;
     NonInteractive.resultDisplay := None;
     NonInteractive.error := Some "permission denied" |}.

Definition oneToolRound (k : nat) : NonInteractive.Round string :=
  match k with
  | O => answeredRound listing
  | S _ => quietRound
  end.

Definition failingRounds (_ : nat) : NonInteractive.Round string :=
  answeredRound failing.

Definition asText (s : string) : string := s.

Lemma loop_ends_witness :
  let r := NonInteractive.runNonInteractive asText noResponseText messageOf
             oneToolRound (2 + 0) "list the files" in
  NonInteractive.outcome r = Some NonInteractive.Returned
  /\ NonInteractive.requests r
     = map (messageAt asText noResponseText oneToolRound "list the files") (seq 0 2)
  /\ NonInteractive.stdout r
     = (flat_map (fun k => textsOf noResponseText (oneToolRound k)) (seq 0 2)
        ++ [String JS.LF EmptyString])%list
  /\ NonInteractive.stderr r
     = flat_map (fun k => fst (fst (toolPhase asText noResponseText (oneToolRound k))))
         (seq 0 1)
  /\ NonInteractive.executed r
     = flat_map (fun k => snd (fst (toolPhase asText noResponseText (oneToolRound k))))
         (seq 0 1).
Proof.
  apply (loop_ends_at_the_first_round_without_calls string asText noResponseText
           messageOf oneToolRound 1 0 "list the files").
  - intros k Hk. assert (k = 0)%nat as -> by lia.
    split; [split; reflexivity|].
    split; [discriminate|]. eexists. reflexivity.
  - split; reflexivity.
  - reflexivity.
Defined.

Lemma fatal_tool_error_witness :
  let r := NonInteractive.runNonInteractive asText noResponseText messageOf
             failingRounds (1 + 0) "list the files" in
  NonInteractive.outcome r = Some (NonInteractive.Exited 1)
  /\ NonInteractive.requests r
     = map (messageAt asText noResponseText failingRounds "list the files") (seq 0 1)
  /\ (exists earlier,
         NonInteractive.executed r
         = (earlier
            ++ [NonInteractive.requestFor
                  (NonInteractive.dateNow (failingRounds 0) (length (@nil Genai.FunctionCall)))
                  (callWithoutId "ls")])%list)
  /\ (exists earlier,
         NonInteractive.stderr r
         = (earlier
            ++ [NonInteractive.toolErrorText (callWithoutId "ls") failing
                  "permission denied"])%list).
Proof.
  apply (fatal_tool_error_exits string asText noResponseText messageOf failingRounds
           0 0 "list the files" [] [] (callWithoutId "ls") failing
           "permission denied").
  - intros k Hk. lia.
  - split; reflexivity.
  - reflexivity.
  - intros [|i] fc' Hn; discriminate Hn.
  - reflexivity.
  - reflexivity.
  - reflexivity.
Defined.

Definition unknownTool : NonInteractive.ToolCallResponseInfo string :=
  {| NonInteractive.responseParts :=
       NonInteractive.Array
         [NonInteractive.PString "no such tool"; NonInteractive.PNullish];
     NonInteractive.resultDisplay := Some "Tool ls not found in registry";
     NonInteractive.error := Some "Tool ls not found in registry" |}.

Lemma tolerated_errors_witness :
  exists responses,
    length responses = length [callWithoutId "ls"]
    /\ (forall i fc r,
           nth_error [callWithoutId "ls"] i = Some fc ->
           nth_error responses i = Some r ->
           NonInteractive.executeToolCall (answeredRound unknownTool) i
             (NonInteractive.requestFor
                (NonInteractive.dateNow (answeredRound unknownTool) i) fc)
           = Return r)
    /\ NonInteractive.executeCalls asText (answeredRound unknownTool) 0
         [callWithoutId "ls"] []
       = (flat_map complaintOf (combine [callWithoutId "ls"] responses),
          map (fun call =>
                 NonInteractive.requestFor
                   (NonInteractive.dateNow (answeredRound unknownTool) (fst call))
                   (snd call))
            (numbered 0 [callWithoutId "ls"]),
          NonInteractive.Completed
            (flat_map (NonInteractive.partsOf asText) responses)).
Proof.
  apply (tolerated_errors_do_not_end_the_round string asText
           (answeredRound unknownTool) [callWithoutId "ls"]).
  intros i fc Hn. exists unknownTool. split; reflexivity.
Defined.
